(** * IPFS retrieval and caching service: a shallow embedding

    The service module of the file-sharing application (the file that
    declares [IPFS_GATEWAYS], [ASYNC_STORAGE_KEYS] and [CACHE_CONFIG]) is
    embedded here function by function: [findFastestGateway],
    [getPreferredGateway], [uploadToFilecoin], [downloadFromFilecoin],
    [trackCachedFile], [cleanCache] and [removeCachedFile], then
    [deleteFromFilecoin] and [checkCidStatus].  The encryption service
    that the file service wraps around every transfer follows, with the
    platform functions it calls as a parameter.

    Modelling conventions.
    - An [async] function is a state transformer over a [World] that ends
      in a value ([Return]) or in a thrown error ([Throw], carrying the
      message of the [Error]); [try]/[catch] is [try_catch].
    - AsyncStorage is a record with one slot per key of
      [ASYNC_STORAGE_KEYS]; the two per-cid families ([ipfs_cache_<cid>],
      [ipfs_status_<cid>]) are finite maps keyed by cid.  The JSON values
      are kept structured.  AsyncStorage itself never rejects.  For the
      two strings [index] and [size] the blob key [ipfs_cache_<cid>] of
      the source is the key of the index or of the counter, which the
      separate slots do not reproduce: the embedding is exact for every
      other cid, and the statements that relate the blob of a cid to the
      index or to the counter carry the hypothesis that the cid is
      neither of the two ([own_blob_key], [ordinary_cid]).
    - The cache index is a JavaScript object: an association list in
      insertion order, which is the order [Object.entries] enumerates for
      keys that are not array indices.  Assigning to the key [__proto__]
      adds no entry ([obj_set]); statements about inserts exclude that
      key ([ordinary_cid]).
    - The network is scripted: the world carries the replies that the next
      probe rounds, downloads and uploads will receive.  A request made
      when the script is empty is rejected.  FileSystem calls may reject,
      following [fs_faults]; the files themselves are a finite map from
      path to content.
    - The callback [onProgress] records its argument in the world.
    - Numbers are integers ([Z]).  Where the source divides, the quotient
      is taken exactly: [Math.round] is computed on the exact fraction
      ([Math_round_div]), [x <= MAX * 0.8] is [5 * x <= 4 * MAX], and
      [length * 0.75] is [length * 3 / 4], which is exact on padded
      base64.  [console] output is not modelled.
    - The constants that come from the process environment
      ([IPFS_API_URL], the first gateway, the Infura credentials) and the
      cache directory are fields of [Config]; [CACHE_CONFIG] is passed
      explicitly so that scenarios with other limits can be stated. *)

From Stdlib Require Import ZArith Lia List Sorted Permutation.
From stdpp Require Import gmap strings pretty list fin_maps sorting.

Local Open Scope string_scope.
Local Open Scope Z_scope.

(** ** JavaScript numbers that reach [onProgress] *)

Inductive jsnum : Type :=
| JNum (z : Z)
| JInf
| JNegInf
| JNaN.

(** [Math.round(p / q)] for integers [p] and [q]: round half up; a zero
    divisor gives an infinity or NaN. *)
Definition Math_round_div (p q : Z) : jsnum :=
  if q =? 0 then
    (if 0 <? p then JInf else if p <? 0 then JNegInf else JNaN)
  else JNum ((2 * p + q) / (2 * q)).

(** [Math.min(x, k)] for an integer [k]. *)
Definition Math_min (x : jsnum) (k : Z) : jsnum :=
  match x with
  | JNum z => JNum (Z.min z k)
  | JInf => JNum k
  | JNegInf => JNegInf
  | JNaN => JNaN
  end.

(** [k + x] for an integer [k]. *)
Definition js_add (k : Z) (x : jsnum) : jsnum :=
  match x with
  | JNum z => JNum (k + z)
  | other => other
  end.

(** Truthiness of a string, and of the result of [getItem]. *)
Definition truthy (s : string) : bool := negb (String.eqb s "").

Definition truthy_item (o : option string) : bool :=
  match o with
  | Some s => truthy s
  | None => false
  end.

(** ** JavaScript objects used as maps, in insertion order *)

Section JsObject.
Context {V : Type}.

Fixpoint obj_get (o : list (string * V)) (k : string) : option V :=
  match o with
  | [] => None
  | (k', v) :: rest => if String.eqb k' k then Some v else obj_get rest k
  end.

(** [o[k] = v]: an existing key keeps its position and a new key is added
    at the end.  The key [__proto__] is the exception: unless the object
    has an own property of that name (which [JSON.parse] can create), the
    assignment sets the prototype of the object and adds no key. *)
Fixpoint obj_set (o : list (string * V)) (k : string) (v : V)
  : list (string * V) :=
  match o with
  | [] => if String.eqb k "__proto__" then [] else [(k, v)]
  | (k', v') :: rest =>
      if String.eqb k' k then (k', v) :: rest
      else (k', v') :: obj_set rest k v
  end.

(** [delete o[k]]. *)
Fixpoint obj_delete (o : list (string * V)) (k : string)
  : list (string * V) :=
  match o with
  | [] => []
  | (k', v') :: rest =>
      if String.eqb k' k then obj_delete rest k
      else (k', v') :: obj_delete rest k
  end.

Definition obj_keys (o : list (string * V)) : list string := map fst o.
End JsObject.

(** ** [Array.prototype.sort] with a comparator [a.key - b.key]

    The sort is stable; insertion from the right keeps equal keys in their
    original order. *)

Section SortBy.
Context {A : Type} (key : A -> Z).

Fixpoint insert_by (x : A) (l : list A) : list A :=
  match l with
  | [] => [x]
  | y :: rest => if key x <=? key y then x :: y :: rest
                 else y :: insert_by x rest
  end.

Fixpoint sort_by (l : list A) : list A :=
  match l with
  | [] => []
  | x :: rest => insert_by x (sort_by rest)
  end.
End SortBy.

(** ** Persisted records *)

Record SpeedResult : Type := {
  sr_gateway : string;
  sr_responseTime : Z
}.

Record SpeedTest : Type := {
  st_timestamp : Z;
  st_fastestGateway : string;
  st_allResults : list SpeedResult
}.

Record IndexEntry : Type := {
  ie_size : Z;
  ie_timestamp : Z
}.

Record StatusEntry : Type := {
  se_status : bool;
  se_timestamp : Z
}.

(** One slot per key of [ASYNC_STORAGE_KEYS]. *)
Record AsyncStorage : Type := {
  PREFERRED_GATEWAY : option string;
  GATEWAY_SPEED_TEST : option SpeedTest;
  FILE_CACHE : gmap string string;
  FILE_STATUS : gmap string StatusEntry;
  CACHE_INDEX : option (list (string * IndexEntry));
  CACHE_SIZE : option Z
}.

Definition set_PREFERRED_GATEWAY (v : option string) (s : AsyncStorage) :=
  {| PREFERRED_GATEWAY := v;
     GATEWAY_SPEED_TEST := GATEWAY_SPEED_TEST s;
     FILE_CACHE := FILE_CACHE s;
     FILE_STATUS := FILE_STATUS s;
     CACHE_INDEX := CACHE_INDEX s;
     CACHE_SIZE := CACHE_SIZE s |}.

Definition set_GATEWAY_SPEED_TEST (v : option SpeedTest) (s : AsyncStorage) :=
  {| PREFERRED_GATEWAY := PREFERRED_GATEWAY s;
     GATEWAY_SPEED_TEST := v;
     FILE_CACHE := FILE_CACHE s;
     FILE_STATUS := FILE_STATUS s;
     CACHE_INDEX := CACHE_INDEX s;
     CACHE_SIZE := CACHE_SIZE s |}.

Definition set_FILE_CACHE (v : gmap string string) (s : AsyncStorage) :=
  {| PREFERRED_GATEWAY := PREFERRED_GATEWAY s;
     GATEWAY_SPEED_TEST := GATEWAY_SPEED_TEST s;
     FILE_CACHE := v;
     FILE_STATUS := FILE_STATUS s;
     CACHE_INDEX := CACHE_INDEX s;
     CACHE_SIZE := CACHE_SIZE s |}.

Definition set_FILE_STATUS (v : gmap string StatusEntry) (s : AsyncStorage) :=
  {| PREFERRED_GATEWAY := PREFERRED_GATEWAY s;
     GATEWAY_SPEED_TEST := GATEWAY_SPEED_TEST s;
     FILE_CACHE := FILE_CACHE s;
     FILE_STATUS := v;
     CACHE_INDEX := CACHE_INDEX s;
     CACHE_SIZE := CACHE_SIZE s |}.

Definition set_CACHE_INDEX (v : option (list (string * IndexEntry)))
  (s : AsyncStorage) :=
  {| PREFERRED_GATEWAY := PREFERRED_GATEWAY s;
     GATEWAY_SPEED_TEST := GATEWAY_SPEED_TEST s;
     FILE_CACHE := FILE_CACHE s;
     FILE_STATUS := FILE_STATUS s;
     CACHE_INDEX := v;
     CACHE_SIZE := CACHE_SIZE s |}.

Definition set_CACHE_SIZE (v : option Z) (s : AsyncStorage) :=
  {| PREFERRED_GATEWAY := PREFERRED_GATEWAY s;
     GATEWAY_SPEED_TEST := GATEWAY_SPEED_TEST s;
     FILE_CACHE := FILE_CACHE s;
     FILE_STATUS := FILE_STATUS s;
     CACHE_INDEX := CACHE_INDEX s;
     CACHE_SIZE := v |}.

Definition empty_storage : AsyncStorage :=
  {| PREFERRED_GATEWAY := None;
     GATEWAY_SPEED_TEST := None;
     FILE_CACHE := ∅;
     FILE_STATUS := ∅;
     CACHE_INDEX := None;
     CACHE_SIZE := None |}.

(** ** The environment *)

(** What one gateway answers to the ranged GET of the speed test: the
    HTTP status ([None] for a connection error) and the time it took. *)
Record ProbeReply : Type := {
  pr_status : option Z;
  pr_latency : Z
}.

(** One round of the speed test: the reply to the request sent to the
    i-th gateway, and the order in which the requests settle. *)
Record ProbeRound : Type := {
  round_replies : list ProbeReply;
  round_arrival : list nat
}.

Inductive DownloadResult : Type :=
| DlReject (message : string)   (* downloadAsync rejects *)
| DlNoResult                    (* resolves without a result or uri *)
| DlDone (base64Data : string). (* the file was written *)

(** One transfer: the progress events
    [(totalBytesWritten, totalBytesExpectedToWrite)], how it ends, and how
    long it took. *)
Record Download : Type := {
  dl_events : list (Z * Z);
  dl_result : DownloadResult;
  dl_elapsed : Z
}.

(** The body of the reply to [POST /add]. *)
Record AddResponse : Type := {
  resp_Hash : option string;
  resp_hash : option string;
  resp_cid : option string
}.

Inductive UploadResult : Type :=
| UpReject (message : string)
| UpDone (data : AddResponse).

Record Upload : Type := {
  up_events : list (Z * Z);       (* (loaded, total) *)
  up_result : UploadResult;
  up_elapsed : Z
}.

Inductive NetCall : Type :=
| NetGet (url : string)        (* axios.get *)
| NetDownload (url : string)   (* downloadAsync *)
| NetPost (url : string).      (* axios.post *)

Record World : Type := {
  storage : AsyncStorage;
  files : gmap string string;        (* FileSystem: path to content *)
  clock : Z;                         (* Date.now() *)
  progress : list jsnum;             (* arguments of onProgress, in order *)
  netlog : list NetCall;             (* requests issued, in order *)
  net_probes : list ProbeRound;
  net_downloads : list Download;
  net_uploads : list Upload;
  fs_faults : list (option string)   (* one entry per FileSystem call *)
}.

Definition set_storage (s : AsyncStorage) (w : World) : World :=
  {| storage := s; files := files w; clock := clock w;
     progress := progress w; netlog := netlog w;
     net_probes := net_probes w; net_downloads := net_downloads w;
     net_uploads := net_uploads w; fs_faults := fs_faults w |}.

Definition set_files (f : gmap string string) (w : World) : World :=
  {| storage := storage w; files := f; clock := clock w;
     progress := progress w; netlog := netlog w;
     net_probes := net_probes w; net_downloads := net_downloads w;
     net_uploads := net_uploads w; fs_faults := fs_faults w |}.

Definition set_clock (t : Z) (w : World) : World :=
  {| storage := storage w; files := files w; clock := t;
     progress := progress w; netlog := netlog w;
     net_probes := net_probes w; net_downloads := net_downloads w;
     net_uploads := net_uploads w; fs_faults := fs_faults w |}.

Definition set_progress (p : list jsnum) (w : World) : World :=
  {| storage := storage w; files := files w; clock := clock w;
     progress := p; netlog := netlog w;
     net_probes := net_probes w; net_downloads := net_downloads w;
     net_uploads := net_uploads w; fs_faults := fs_faults w |}.

Definition set_netlog (l : list NetCall) (w : World) : World :=
  {| storage := storage w; files := files w; clock := clock w;
     progress := progress w; netlog := l;
     net_probes := net_probes w; net_downloads := net_downloads w;
     net_uploads := net_uploads w; fs_faults := fs_faults w |}.

Definition set_net_probes (l : list ProbeRound) (w : World) : World :=
  {| storage := storage w; files := files w; clock := clock w;
     progress := progress w; netlog := netlog w;
     net_probes := l; net_downloads := net_downloads w;
     net_uploads := net_uploads w; fs_faults := fs_faults w |}.

Definition set_net_downloads (l : list Download) (w : World) : World :=
  {| storage := storage w; files := files w; clock := clock w;
     progress := progress w; netlog := netlog w;
     net_probes := net_probes w; net_downloads := l;
     net_uploads := net_uploads w; fs_faults := fs_faults w |}.

Definition set_net_uploads (l : list Upload) (w : World) : World :=
  {| storage := storage w; files := files w; clock := clock w;
     progress := progress w; netlog := netlog w;
     net_probes := net_probes w; net_downloads := net_downloads w;
     net_uploads := l; fs_faults := fs_faults w |}.

Definition set_fs_faults (l : list (option string)) (w : World) : World :=
  {| storage := storage w; files := files w; clock := clock w;
     progress := progress w; netlog := netlog w;
     net_probes := net_probes w; net_downloads := net_downloads w;
     net_uploads := net_uploads w; fs_faults := l |}.

Definition empty_world : World :=
  {| storage := empty_storage; files := ∅; clock := 0; progress := [];
     netlog := []; net_probes := []; net_downloads := [];
     net_uploads := []; fs_faults := [] |}.

(** ** Async computations *)

Inductive Completion (A : Type) : Type :=
| Return (a : A)
| Throw (message : string).
Arguments Return {A} a.
Arguments Throw {A} message.

Definition Async (A : Type) : Type := World -> Completion A * World.

Definition ret {A} (a : A) : Async A := fun w => (Return a, w).

Definition throw {A} (message : string) : Async A :=
  fun w => (Throw message, w).

Definition bind {A B} (m : Async A) (k : A -> Async B) : Async B :=
  fun w =>
    match m w with
    | (Return a, w') => k a w'
    | (Throw e, w') => (Throw e, w')
    end.

Definition try_catch {A} (m : Async A) (handler : string -> Async A)
  : Async A :=
  fun w =>
    match m w with
    | (Return a, w') => (Return a, w')
    | (Throw e, w') => handler e w'
    end.

Notation "'await' x <- m ; k" := (bind m (fun x => k))
  (at level 10, x name, m at level 100, k at level 200,
   format "'[v' 'await'  x  <-  m ; '/' k ']'").
Notation "'run' m ; k" := (bind m (fun _ => k))
  (at level 10, m at level 100, k at level 200,
   format "'[v' 'run'  m ; '/' k ']'").


Fixpoint for_each {A} (l : list A) (body : A -> Async unit) : Async unit :=
  match l with
  | [] => ret tt
  | x :: rest => run body x; for_each rest body
  end.

(** ** Configuration constants of the module *)

Record CacheConfig : Type := {
  MAX_CACHE_SIZE : Z;
  MAX_CACHE_AGE : Z;
  MAX_CACHE_ITEMS : Z
}.

Definition CACHE_CONFIG : CacheConfig :=
  {| MAX_CACHE_SIZE := 50 * 1024 * 1024;
     MAX_CACHE_AGE := 7 * 24 * 60 * 60 * 1000;
     MAX_CACHE_ITEMS := 100 |}.

(** The constants that depend on the process environment or on the
    platform are fields, so that a deployment is a value of [Config]. *)
Record Config : Type := {
  IPFS_API_URL : string;
  IPFS_GATEWAYS : list string;
  INFURA_PROJECT_ID : string;
  INFURA_PROJECT_SECRET : string;
  cache_config : CacheConfig;
  cacheDirectory : string
}.

Definition default_config : Config :=
  {| IPFS_API_URL := "https://ipfs.infura.io:5001/api/v0";
     IPFS_GATEWAYS :=
       [ "https://ipfs.io/ipfs";
         "https://gateway.pinata.cloud/ipfs";
         "https://cloudflare-ipfs.com/ipfs";
         "https://ipfs.fleek.co/ipfs";
         "https://dweb.link/ipfs" ];
     INFURA_PROJECT_ID := "";
     INFURA_PROJECT_SECRET := "";
     cache_config := CACHE_CONFIG;
     cacheDirectory := "file:///cache/" |}.

(** [IPFS_GATEWAYS[0]]; the literal list of the source is not empty. *)
Definition IPFS_GATEWAY_URL (cfg : Config) : string :=
  hd "undefined" (IPFS_GATEWAYS cfg).

(** ** Primitives *)

Definition getItem {A} (slot : AsyncStorage -> A) : Async A :=
  fun w => (Return (slot (storage w)), w).

Definition setItem (write : AsyncStorage -> AsyncStorage) : Async unit :=
  fun w => (Return tt, set_storage (write (storage w)) w).

Definition Date_now : Async Z := fun w => (Return (clock w), w).

Definition onProgress (v : jsnum) : Async unit :=
  fun w => (Return tt, set_progress (progress w ++ [v]) w).

Definition tick (d : Z) (w : World) : World := set_clock (clock w + d) w.

Definition log_call (c : list NetCall) (w : World) : World :=
  set_netlog (netlog w ++ c) w.

(** Every FileSystem call first consults the fault script. *)
Definition fs_call : Async unit :=
  fun w =>
    match fs_faults w with
    | [] => (Return tt, w)
    | None :: rest => (Return tt, set_fs_faults rest w)
    | Some message :: rest => (Throw message, set_fs_faults rest w)
    end.

Definition writeAsStringAsync (path data : string) : Async unit :=
  run fs_call;
  fun w => (Return tt, set_files (<[path := data]> (files w)) w).

Definition getInfoAsync (path : string) : Async unit :=
  run fs_call; ret tt.

Definition readAsStringAsync (path : string) : Async string :=
  run fs_call;
  fun w =>
    match files w !! path with
    | Some data => (Return data, w)
    | None => (Throw "File does not exist", w)
    end.

Definition deleteAsync (path : string) (idempotent : bool) : Async unit :=
  run fs_call;
  fun w =>
    match files w !! path with
    | Some _ => (Return tt, set_files (delete path (files w)) w)
    | None =>
        if idempotent then (Return tt, w)
        else (Throw "File does not exist", w)
    end.

(** [createDownloadResumable(url, path, {}, callback).downloadAsync()]:
    the next scripted transfer answers; the result is the uri. *)
Definition downloadAsync (url path : string)
  (callback : Z * Z -> Async unit) : Async (option string) :=
  fun w =>
    match net_downloads w with
    | [] => (Throw "Network request failed", log_call [NetDownload url] w)
    | d :: rest =>
        let w1 := set_net_downloads rest (log_call [NetDownload url] w) in
        match for_each (dl_events d) callback w1 with
        | (Throw e, w2) => (Throw e, w2)
        | (Return _, w2) =>
            let w3 := tick (dl_elapsed d) w2 in
            match dl_result d with
            | DlReject message => (Throw message, w3)
            | DlNoResult => (Return None, w3)
            | DlDone data =>
                (Return (Some path), set_files (<[path := data]> (files w3)) w3)
            end
        end
    end.

(** ** Cache management *)

Definition sum_sizes (index : list (string * IndexEntry)) : Z :=
  fold_right (fun e acc => ie_size (snd e) + acc) 0 index.

(** [removeCachedFile(cid)] *)
Definition removeCachedFile (cid : string) : Async unit :=
  try_catch
    (await indexData <- getItem CACHE_INDEX;
     let cacheIndex := default [] indexData in
     let fileSize :=
       match obj_get cacheIndex cid with
       | Some entry => ie_size entry
       | None => 0
       end in
     run setItem (fun s => set_FILE_CACHE (delete cid (FILE_CACHE s)) s);
     run setItem (fun s => set_FILE_STATUS (delete cid (FILE_STATUS s)) s);
     run (match obj_get cacheIndex cid with
          | Some _ => setItem (set_CACHE_INDEX (Some (obj_delete cacheIndex cid)))
          | None => ret tt
          end);
     if 0 <? fileSize then
       try_catch
         (await sizeData <- getItem CACHE_SIZE;
          match sizeData with
          | Some totalCacheSize =>
              setItem (set_CACHE_SIZE (Some (Z.max 0 (totalCacheSize - fileSize))))
          | None => ret tt
          end)
         (fun _ => ret tt)
     else ret tt)
    (fun _ => ret tt).

(** The loop [for (i = 0; i < excessItems; i++)] of [cleanCache]. *)
Fixpoint removeExcess (cacheEntries : list (string * IndexEntry))
  (i excessItems : nat) : Async unit :=
  match excessItems with
  | O => ret tt
  | S n =>
      match cacheEntries !! i with
      | Some item => run removeCachedFile (fst item);
                     removeExcess cacheEntries (S i) n
      | None => throw "TypeError: Cannot read properties of undefined"
      end
  end.

(** The loop that frees space until 80% of the maximum is reached;
    [x <= MAX * 0.8] is [5 * x <= 4 * MAX]. *)
Fixpoint removeForSize (maxSize totalCacheSize removedSize : Z)
  (cacheEntries : list (string * IndexEntry)) : Async unit :=
  match cacheEntries with
  | [] => ret tt
  | item :: rest =>
      run removeCachedFile (fst item);
      let removedSize := removedSize + ie_size (snd item) in
      if 5 * (totalCacheSize - removedSize) <=? 4 * maxSize then ret tt
      else removeForSize maxSize totalCacheSize removedSize rest
  end.

(** The loop that removes the entries older than the maximum age. *)
Fixpoint removeExpired (maxAgeTimestamp : Z)
  (cacheEntries : list (string * IndexEntry)) : Async unit :=
  match cacheEntries with
  | [] => ret tt
  | item :: rest =>
      if ie_timestamp (snd item) <? maxAgeTimestamp then
        run removeCachedFile (fst item);
        removeExpired maxAgeTimestamp rest
      else ret tt
  end.

(** [cleanCache()] *)
Definition cleanCache (cc : CacheConfig) : Async unit :=
  try_catch
    (await indexData <- getItem CACHE_INDEX;
     match indexData with
     | None => ret tt
     | Some cacheIndex =>
         let cacheEntries :=
           sort_by (fun e => ie_timestamp (snd e)) cacheIndex in
         if MAX_CACHE_ITEMS cc <? Z.of_nat (length cacheEntries) then
           let excessItems :=
             Z.of_nat (length cacheEntries) - MAX_CACHE_ITEMS cc in
           removeExcess cacheEntries 0 (Z.to_nat excessItems)
         else
           await sizeData <- getItem CACHE_SIZE;
           let totalCacheSize := default 0 sizeData in
           run (if MAX_CACHE_SIZE cc <? totalCacheSize then
                  removeForSize (MAX_CACHE_SIZE cc) totalCacheSize 0
                    cacheEntries
                else ret tt);
           await now <- Date_now;
           let maxAgeTimestamp := now - MAX_CACHE_AGE cc in
           removeExpired maxAgeTimestamp cacheEntries
     end)
    (fun _ => ret tt).

(** [trackCachedFile(cid, size)] *)
Definition trackCachedFile (cc : CacheConfig) (cid : string) (size : Z)
  : Async unit :=
  try_catch
    (await indexData <- getItem CACHE_INDEX;
     let cacheIndex := default [] indexData in
     await now <- Date_now;
     let cacheIndex :=
       obj_set cacheIndex cid {| ie_size := size; ie_timestamp := now |} in
     run setItem (set_CACHE_INDEX (Some cacheIndex));
     await sizeData <- getItem CACHE_SIZE;
     let totalCacheSize := default 0 sizeData in
     let totalCacheSize := totalCacheSize + size in
     run setItem (set_CACHE_SIZE (Some totalCacheSize));
     if MAX_CACHE_SIZE cc <? totalCacheSize then cleanCache cc
     else ret tt)
    (fun _ => ret tt).

(** ** Gateway selection *)

Definition testCid : string :=
  "QmYwAPJzv5CZsnA625s3Xf2nemtYgPpHdWEz79ojWnPbdG".

(** [axios.get(url, { timeout })] resolves with the status when the reply
    arrives before the timeout and the status is 2xx (the default
    [validateStatus]); otherwise it rejects. *)
Definition axios_get_resolves (timeout : Z) (reply : ProbeReply) : option Z :=
  match pr_status reply with
  | Some status =>
      if (pr_latency reply <? timeout) && (200 <=? status) && (status <? 300)
      then Some status else None
  | None => None
  end.

(** The body of the [map] callback of the speed test for the gateway at
    position [index]: what it pushes on [testResults]. *)
Definition speedTest (gateways : list string) (round : ProbeRound)
  (index : nat) : list SpeedResult :=
  match gateways !! index, round_replies round !! index with
  | Some gateway, Some reply =>
      match axios_get_resolves 5000 reply with
      | Some status =>
          if (status =? 200) || (status =? 206) then
            [ {| sr_gateway := gateway;
                 sr_responseTime := pr_latency reply |} ]
          else []
      | None => []
      end
  | _, _ => []
  end.

Definition round_elapsed (round : ProbeRound) : Z :=
  fold_right (fun reply acc => Z.max (Z.min (pr_latency reply) 5000) acc) 0
    (round_replies round).

(** [await Promise.all(tests)]: all gateways are queried; the callbacks
    push on [testResults] in the order in which the requests settle. *)
Definition runSpeedTests (gateways : list string) : Async (list SpeedResult) :=
  fun w =>
    let calls :=
      map (fun gateway => NetGet (gateway +:+ "/" +:+ testCid +:+ "/readme"))
        gateways in
    match net_probes w with
    | [] => (Return [], log_call calls w)
    | round :: rest =>
        (Return (flat_map (speedTest gateways round) (round_arrival round)),
         tick (round_elapsed round) (set_net_probes rest (log_call calls w)))
    end.

(** [findFastestGateway()] *)
Definition findFastestGateway (cfg : Config) : Async string :=
  try_catch
    (let probe : Async string :=
       await testResults <- runSpeedTests (IPFS_GATEWAYS cfg);
       match sort_by sr_responseTime testResults with
       | [] => ret (IPFS_GATEWAY_URL cfg)
       | fastest :: others =>
           let fastestGateway := sr_gateway fastest in
           await now <- Date_now;
           run setItem
                 (set_GATEWAY_SPEED_TEST
                    (Some {| st_timestamp := now;
                             st_fastestGateway := fastestGateway;
                             st_allResults := fastest :: others |}));
           ret fastestGateway
       end in
     await cachedResult <- getItem GATEWAY_SPEED_TEST;
     match cachedResult with
     | Some cached =>
         await now <- Date_now;
         let oneHourAgo := now - 60 * 60 * 1000 in
         if (oneHourAgo <? st_timestamp cached)
            && truthy (st_fastestGateway cached)
         then ret (st_fastestGateway cached)
         else probe
     | None => probe
     end)
    (fun _ => ret (IPFS_GATEWAY_URL cfg)).

(** [getPreferredGateway(forceRefresh)] *)
Definition getPreferredGateway (cfg : Config) (forceRefresh : bool)
  : Async string :=
  try_catch
    (if forceRefresh then findFastestGateway cfg
     else
       let refresh : Async string :=
         await fastestGateway <- findFastestGateway cfg;
         run setItem (set_PREFERRED_GATEWAY (Some fastestGateway));
         ret fastestGateway in
       await storedGateway <- getItem PREFERRED_GATEWAY;
       match storedGateway with
       | Some gateway => if truthy gateway then ret gateway else refresh
       | None => refresh
       end)
    (fun _ => ret (IPFS_GATEWAY_URL cfg)).

(** ** Upload *)

(** [axios.post(url, formData, { onUploadProgress })] *)
Definition axios_post (url : string) (onUploadProgress : Z * Z -> Async unit)
  : Async AddResponse :=
  fun w =>
    match net_uploads w with
    | [] => (Throw "Network Error", log_call [NetPost url] w)
    | u :: rest =>
        let w1 := set_net_uploads rest (log_call [NetPost url] w) in
        match for_each (up_events u) onUploadProgress w1 with
        | (Throw e, w2) => (Throw e, w2)
        | (Return _, w2) =>
            let w3 := tick (up_elapsed u) w2 in
            match up_result u with
            | UpReject message => (Throw message, w3)
            | UpDone data => (Return data, w3)
            end
        end
    end.

(** [a || b] on values that are a string or undefined. *)
Definition js_or (a b : option string) : option string :=
  if truthy_item a then a else b.

(** [data.Hash || data.hash || data.cid] *)
Definition response_cid (data : AddResponse) : option string :=
  js_or (js_or (resp_Hash data) (resp_hash data)) (resp_cid data).

(** One [POST] of the form data, reading the identifier of the reply and
    removing the staging file: the body of the primary [try] block
    ([base = 20], [span = 70]) and of the Infura [try] block
    ([base = 30], [span = 60]). *)
Definition postFile (url tempFilePath : string) (base span : Z)
  (noCid : string) : Async string :=
  await data <- axios_post url
    (fun progressEvent =>
       let percentCompleted :=
         Math_round_div (fst progressEvent * span) (snd progressEvent) in
       onProgress (js_add base percentCompleted));
  match response_cid data with
  | Some cid =>
      if truthy cid then
        run onProgress (JNum 100);
        run deleteAsync tempFilePath false;
        ret cid
      else throw noCid
  | None => throw noCid
  end.

(** [uploadToFilecoin(fileData, fileName, onProgress)] *)
Definition uploadToFilecoin (cfg : Config) (fileData fileName : string)
  : Async string :=
  try_catch
    (run onProgress (JNum 10);
     let tempFilePath := cacheDirectory cfg +:+ fileName in
     run writeAsStringAsync tempFilePath fileData;
     run getInfoAsync tempFilePath;
     run onProgress (JNum 20);
     let credentials :=
       truthy (INFURA_PROJECT_ID cfg) && truthy (INFURA_PROJECT_SECRET cfg) in
     try_catch
       (postFile (IPFS_API_URL cfg +:+ "/add") tempFilePath 20 70
          "Failed to retrieve CID from upload response")
       (fun uploadError =>
          await infuraCid <-
            (if credentials then
               try_catch
                 (run onProgress (JNum 30);
                  await cid <-
                    postFile "https://ipfs.infura.io:5001/api/v0/add"
                      tempFilePath 30 60
                      "Failed to retrieve CID from Infura response";
                  ret (Some cid))
                 (fun _ => ret None)
             else ret None);
          match infuraCid with
          | Some cid => ret cid
          | None =>
              run deleteAsync tempFilePath false;
              throw ("All IPFS upload attempts failed. Primary error: "
                       +:+ uploadError)
          end))
    (fun error => throw ("IPFS upload failed: " +:+ error)).

(** ** Download *)

(** The progress callback given to [createDownloadResumable]:
    [Math.min(Math.round(base + progress * span), 90)] with
    [progress = totalBytesWritten / totalBytesExpectedToWrite]. *)
Definition downloadProgressCallback (base span : Z)
  (downloadProgress : Z * Z) : Async unit :=
  let written := fst downloadProgress in
  let expected := snd downloadProgress in
  let progressPercent :=
    Math_round_div (base * expected + written * span) expected in
  onProgress (Math_min progressPercent 90).

(** The block "Cache the result for future use" with its own
    [try]/[catch]; [base64Data.length * 0.75] is exact on padded base64.
    The fallback loop ([promote = true]) also stores the gateway as the
    preferred one. *)
Definition cacheTheResult (cfg : Config) (cid base64Data gateway : string)
  (promote : bool) : Async unit :=
  try_catch
    (run setItem
           (fun s => set_FILE_CACHE (<[cid := base64Data]> (FILE_CACHE s)) s);
     let fileSize := Z.of_nat (String.length base64Data) * 3 / 4 in
     run trackCachedFile (cache_config cfg) cid fileSize;
     if promote then setItem (set_PREFERRED_GATEWAY (Some gateway))
     else ret tt)
    (fun _ => ret tt).

(** One download attempt from [gateway]: the body of the [try] block for
    the preferred gateway ([base = 10], [span = 80], [promote = false]) and
    of the [try] block of the fallback loop ([base = 20], [span = 70],
    [promote = true]). *)
Definition attemptDownload (cfg : Config) (cid tempFilePath gateway : string)
  (base span : Z) (promote : bool) : Async string :=
  let downloadUrl := gateway +:+ "/" +:+ cid in
  await result <- downloadAsync downloadUrl tempFilePath
                    (downloadProgressCallback base span);
  run onProgress (JNum 90);
  match result with
  | None => throw "Download failed with empty result"
  | Some uri =>
      await base64Data <- readAsStringAsync uri;
      run cacheTheResult cfg cid base64Data gateway promote;
      run deleteAsync tempFilePath true;
      run onProgress (JNum 100);
      ret base64Data
  end.

(** The loop [for (i = 0; i < IPFS_GATEWAYS.length; i++)] followed by the
    final [throw]; [gateways] is the part of the list still to try. *)
Fixpoint tryGateways (cfg : Config) (cid tempFilePath : string)
  (gateways : list string) (i : Z) (lastError : option string)
  : Async string :=
  match gateways with
  | [] =>
      throw "Failed to download from all IPFS gateways. Please try again later."
  | gateway :: rest =>
      try_catch
        (attemptDownload cfg cid tempFilePath gateway 20 70 true)
        (fun error =>
           run onProgress (JNum (20 + (i + 1) * 3));
           tryGateways cfg cid tempFilePath rest (i + 1) (Some error))
  end.

(** The part of [downloadFromFilecoin] that follows a cache miss: the
    preferred gateway first, then every gateway in turn. *)
Definition fetchFromGateways (cfg : Config) (cid : string) : Async string :=
  run onProgress (JNum 10);
  let tempFilePath := cacheDirectory cfg +:+ "ipfs_" +:+ cid in
  await downloaded <-
    try_catch
      (await preferredGateway <- getPreferredGateway cfg false;
       try_catch
         (await base64Data <-
            attemptDownload cfg cid tempFilePath preferredGateway 10 80 false;
          ret (Some base64Data))
         (fun _ => ret None))
      (fun _ => ret None);
  match downloaded with
  | Some base64Data => ret base64Data
  | None => tryGateways cfg cid tempFilePath (IPFS_GATEWAYS cfg) 0 None
  end.

(** [downloadFromFilecoin(cid, onProgress, skipCache)] *)
Definition downloadFromFilecoin (cfg : Config) (cid : string)
  (skipCache : bool) : Async string :=
  run onProgress (JNum 5);
  await cached <-
    (if skipCache then ret None
     else
       try_catch
         (await cachedData <- getItem (fun s => FILE_CACHE s !! cid);
          match cachedData with
          | Some data =>
              if truthy data then run onProgress (JNum 100); ret (Some data)
              else ret None
          | None => ret None
          end)
         (fun _ => ret None));
  match cached with
  | Some cachedData => ret cachedData
  | None => fetchFromGateways cfg cid
  end.

(** ** Unpinning and availability *)

(** What a [HEAD] request receives, given the requests issued so far and
    the url.  The request log has no entry of its own for [HEAD]: the
    request is logged as the [NetGet] of its url. *)
Definition HeadOracle : Type := list NetCall -> string -> ProbeReply.

(** [axios.head(url, { timeout })] *)
Definition axios_head (head : HeadOracle) (url : string) (timeout : Z)
  : Async Z :=
  fun w =>
    let reply := head (netlog w) url in
    let w' := tick (Z.min (pr_latency reply) timeout)
                (log_call [NetGet url] w) in
    match axios_get_resolves timeout reply with
    | Some status => (Return status, w')
    | None => (Throw "Request failed", w')
    end.

(** [axios.post(url, {}, { headers })] of the pin management calls: no
    progress callback is given and the body of the reply is not read. *)
Definition axios_post_empty (url : string) : Async unit :=
  await response <- axios_post url (fun _ => ret tt);
  ret tt.

(** [deleteFromFilecoin(cid)] *)
Definition deleteFromFilecoin (cfg : Config) (cid : string) : Async bool :=
  try_catch
    (run try_catch (removeCachedFile cid) (fun _ => ret tt);
     try_catch
       (run axios_post_empty (IPFS_API_URL cfg +:+ "/pin/rm?arg=" +:+ cid);
        ret true)
       (fun _ => ret true))
    (fun _ => ret true).

(** [AsyncStorage.setItem(statusKey, JSON.stringify({ status, timestamp:
    Date.now() }))] *)
Definition writeStatus (cid : string) (status : bool) : Async unit :=
  await now <- Date_now;
  setItem
    (fun s =>
       set_FILE_STATUS
         (<[cid := {| se_status := status; se_timestamp := now |}]>
            (FILE_STATUS s)) s).

(** One existence check on a gateway: the body of the [try] block around
    [axios.head] in [checkCidStatus]; [false] stands for falling out of
    the block without returning. *)
Definition headCheck (head : HeadOracle) (cid gateway : string) : Async bool :=
  try_catch
    (await status <- axios_head head (gateway +:+ "/" +:+ cid) 5000;
     if status =? 200 then
       run writeStatus cid true;
       ret true
     else ret false)
    (fun _ => ret false).

(** The loop [for (const gateway of IPFS_GATEWAYS)] of [checkCidStatus];
    [true] stands for the [return true] inside the loop. *)
Fixpoint checkGateways (head : HeadOracle) (cid : string)
  (gateways : list string) : Async bool :=
  match gateways with
  | [] => ret false
  | gateway :: rest =>
      await found <- headCheck head cid gateway;
      if found then ret true else checkGateways head cid rest
  end.

(** The live check of [checkCidStatus], from the local file cache to the
    sweep over all gateways: the outer [try] block and its [catch]. *)
Definition checkLive (cfg : Config) (head : HeadOracle) (cid : string)
  : Async bool :=
  try_catch
    (await inLocalCache <-
       try_catch
         (await cachedData <- getItem (fun s => FILE_CACHE s !! cid);
          match cachedData with
          | Some data =>
              if truthy data then
                run writeStatus cid true;
                ret true
              else ret false
          | None => ret false
          end)
         (fun _ => ret false);
     if inLocalCache then ret true
     else
       await onPreferred <-
         try_catch
           (await preferredGateway <- getPreferredGateway cfg false;
            headCheck head cid preferredGateway)
           (fun _ => ret false);
       if onPreferred then ret true
       else
         try_catch
           (run axios_post_empty
                  (IPFS_API_URL cfg +:+ "/pin/ls?arg=" +:+ cid);
            run writeStatus cid true;
            ret true)
           (fun apiError =>
              await found <- checkGateways head cid (IPFS_GATEWAYS cfg);
              if found then ret true
              else
                run writeStatus cid false;
                ret false))
    (fun _ => ret false).

(** [checkCidStatus(cid, skipCache)] *)
Definition checkCidStatus (cfg : Config) (head : HeadOracle) (cid : string)
  (skipCache : bool) : Async bool :=
  await cached <-
    (if skipCache then ret None
     else
       try_catch
         (await cachedStatus <- getItem (fun s => FILE_STATUS s !! cid);
          match cachedStatus with
          | Some entry =>
              await now <- Date_now;
              let oneHourAgo := now - 60 * 60 * 1000 in
              if oneHourAgo <? se_timestamp entry
              then ret (Some (se_status entry))
              else ret None
          | None => ret None
          end)
         (fun _ => ret None));
  match cached with
  | Some status => ret status
  | None => checkLive cfg head cid
  end.


(** * The encryption service

    [src/services/encryptionService.js], which the file service calls
    around every upload and download.  The functions are asynchronous but
    keep no state: an [async] function is its completion.  What the
    service takes from the platform is a parameter: the digests of
    expo-crypto and the globals [btoa] and [atob], the latter throwing on
    text that is not base64.  The random bytes of [generateIV] are an
    argument of [encryptData]. *)

From Stdlib Require Import Ascii.

Inductive CryptoDigestAlgorithm : Type := SHA1 | SHA256.

Record Platform : Type := {
  digestStringAsync : CryptoDigestAlgorithm -> string -> string;
  btoa : string -> string;
  atob : string -> Completion string
}.

(** [await] and [try]/[catch] on completions. *)
Definition and_then {A B} (c : Completion A) (k : A -> Completion B)
  : Completion B :=
  match c with
  | Return a => k a
  | Throw message => Throw message
  end.

Definition catch {A} (c : Completion A) (handler : string -> Completion A)
  : Completion A :=
  match c with
  | Return a => Return a
  | Throw message => handler message
  end.

(** [s.split(':')]: a string without colon is one part, and every colon
    starts a new one. *)
Fixpoint split_colon (s : string) : list string :=
  match s with
  | EmptyString => [EmptyString]
  | String c rest =>
      if Ascii.eqb c ":"%char then EmptyString :: split_colon rest
      else
        match split_colon rest with
        | part :: parts => String c part :: parts
        | [] => [String c EmptyString]
        end
  end.

(** [parts.join(':')] *)
Fixpoint join_colon (parts : list string) : string :=
  match parts with
  | [] => EmptyString
  | [part] => part
  | part :: rest => part +:+ ":" +:+ join_colon rest
  end.

(** [binary += String.fromCharCode(bytes[i])] over the buffer, and
    [bytes[i] = binaryString.charCodeAt(i)] over the string. *)
Definition fromCharCodes (buffer : list Byte.byte) : string :=
  fold_left
    (fun binary b => binary +:+ String (Ascii.ascii_of_byte b) EmptyString)
    buffer EmptyString.

Fixpoint charCodes (binaryString : string) : list Byte.byte :=
  match binaryString with
  | EmptyString => []
  | String c rest => Ascii.byte_of_ascii c :: charCodes rest
  end.

(** The object [{ encryptedData, iv }] that [encryptData] returns. *)
Record Encrypted : Type := {
  encryptedData : string;
  iv : string
}.

Section EncryptionService.
Variable platform : Platform.

(** [arrayBufferToBase64(buffer)] *)
Definition arrayBufferToBase64 (buffer : list Byte.byte) : string :=
  let binary := fromCharCodes buffer in
  btoa platform binary.

(** [base64ToArrayBuffer(base64)] *)
Definition base64ToArrayBuffer (base64 : string)
  : Completion (list Byte.byte) :=
  and_then (atob platform base64)
    (fun binaryString => Return (charCodes binaryString)).

(** [simulatedEncrypt(data, key, iv)] *)
Definition simulatedEncrypt (data key : string) (iv : list Byte.byte)
  : string :=
  let ivString := arrayBufferToBase64 iv in
  let keyHash := digestStringAsync platform SHA1 key in
  "ENCRYPTED:" +:+ String.substring 0 8 keyHash +:+ ":"
    +:+ String.substring 0 8 ivString +:+ ":" +:+ data.

(** [simulatedDecrypt(encryptedData, key, iv)] *)
Definition simulatedDecrypt (encryptedData key : string)
  (iv : list Byte.byte) : Completion string :=
  if negb (String.prefix "ENCRYPTED:" encryptedData) then
    Throw "Invalid encrypted data format"
  else
    let parts := split_colon encryptedData in
    if Nat.ltb (length parts) 4 then Throw "Corrupt encrypted data"
    else
      let keyHash := digestStringAsync platform SHA1 key in
      if negb (match parts !! 1%nat with
               | Some part => String.eqb part (String.substring 0 8 keyHash)
               | None => false
               end)
      then Throw "Invalid decryption key"
      else Return (join_colon (drop 3 parts)).

(** [encryptData(data, password)]; [ivBytes] is what [generateIV]
    delivered. *)
Definition encryptData (data password : string) (ivBytes : list Byte.byte)
  : Completion Encrypted :=
  catch
    (let keyData := digestStringAsync platform SHA256 password in
     and_then (base64ToArrayBuffer data) (fun dataBuffer =>
     let encrypted := simulatedEncrypt data keyData ivBytes in
     Return {| encryptedData := encrypted;
               iv := arrayBufferToBase64 ivBytes |}))
    (fun message => Throw ("Encryption failed: " +:+ message)).

(** [decryptData(encryptedData, iv, password)] *)
Definition decryptData (encryptedData iv password : string)
  : Completion string :=
  catch
    (let keyData := digestStringAsync platform SHA256 password in
     and_then (base64ToArrayBuffer iv) (fun ivBuffer =>
     simulatedDecrypt encryptedData keyData ivBuffer))
    (fun message => Throw ("Decryption failed: " +:+ message)).
End EncryptionService.
(** * Vocabulary of the statements *)

(** A computation that touches nothing but AsyncStorage (it may read the
    clock), and one that moreover never throws. *)
Definition storage_framed {A} (m : Async A) : Prop :=
  forall w, exists r s, m w = (r, set_storage s w).

Definition storage_only {A} (m : Async A) : Prop :=
  forall w, exists a s, m w = (Return a, set_storage s w).

(** The running counter and the index as every reader in the source takes
    them: an absent counter is 0, an absent index is empty. *)
Definition counter (s : AsyncStorage) : Z := default 0 (CACHE_SIZE s).

Definition cache_index (s : AsyncStorage) : list (string * IndexEntry) :=
  default [] (CACHE_INDEX s).

Definition indexed_size (s : AsyncStorage) (cid : string) : Z :=
  match obj_get (cache_index s) cid with
  | Some entry => ie_size entry
  | None => 0
  end.

(** The cids on which the embedding is exact: the blob key of [index]
    and of [size] is the key of the cache index and of the counter, and
    [__proto__] is no key that an assignment adds to an object. *)
Definition own_blob_key (cid : string) : bool :=
  negb (String.eqb cid "index") && negb (String.eqb cid "size").

Definition ordinary_cid (cid : string) : bool :=
  own_blob_key cid && negb (String.eqb cid "__proto__").

(** A well-formed cache: the index is an object (its keys are distinct),
    sizes are byte counts, and the counter is the sum of the sizes. *)
Record cache_ok (s : AsyncStorage) : Prop := {
  ok_keys : NoDup (obj_keys (cache_index s));
  ok_sizes : Forall (fun e => 0 <= ie_size (snd e)) (cache_index s);
  ok_total : sum_sizes (cache_index s) = counter s
}.

(** Sizes and the counter as byte counts. *)
Definition sizes_ok (s : AsyncStorage) : Prop :=
  0 <= counter s /\ Forall (fun e => 0 <= ie_size (snd e)) (cache_index s).

(** Any sequence of removals keeps the cache well formed. *)
Definition preserves {A} (P : AsyncStorage -> Prop) (m : Async A) : Prop :=
  forall w, P (storage w) -> P (storage (snd (m w))).

(** A cache that tracks two blobs of 10 and 20 bytes. *)
Definition tracked_world : World :=
  set_storage
    (set_CACHE_SIZE (Some 30)
       (set_CACHE_INDEX
          (Some [ ("QmA", {| ie_size := 10; ie_timestamp := 1 |});
                  ("QmB", {| ie_size := 20; ie_timestamp := 2 |}) ])
          (set_FILE_CACHE (<["QmA" := "AAAA"]> (<["QmB" := "BBBB"]> ∅))
             empty_storage)))
    empty_world.

(** The same 3-byte blob tracked once, and once more four milliseconds
    later. *)
Definition once_tracked : World :=
  snd (trackCachedFile CACHE_CONFIG "QmA" 3 (set_clock 1 empty_world)).

Definition twice_tracked : World :=
  snd (trackCachedFile CACHE_CONFIG "QmA" 3 (set_clock 5 once_tracked)).

(** The configuration of the module with a maximum of two items, and
    three inserts at times 1, 2 and 3. *)
Definition two_items : CacheConfig :=
  {| MAX_CACHE_SIZE := MAX_CACHE_SIZE CACHE_CONFIG;
     MAX_CACHE_AGE := MAX_CACHE_AGE CACHE_CONFIG;
     MAX_CACHE_ITEMS := 2 |}.

Definition three_inserts : World :=
  let w1 := snd (trackCachedFile two_items "cid1" 10 (set_clock 1 empty_world)) in
  let w2 := snd (trackCachedFile two_items "cid2" 10 (set_clock 2 w1)) in
  snd (trackCachedFile two_items "cid3" 10 (set_clock 3 w2)).

(** The same with the module's own configuration: [n] files of 1000
    bytes, inserted one per millisecond under the names [Qm0], [Qm1], ... *)
Fixpoint insert_files (n : nat) (w : World) : World :=
  match n with
  | O => w
  | S k =>
      let w' := insert_files k w in
      snd (trackCachedFile CACHE_CONFIG ("Qm" +:+ pretty k) 1000
             (set_clock (Z.of_nat k) w'))
  end.

(** A network that serves the same 3-byte file twice. *)
Definition served_twice_world : World :=
  set_net_downloads
    (repeat {| dl_events := [(4, 4)]; dl_result := DlDone "QUJD";
               dl_elapsed := 100 |} 2)
    (set_storage
       (set_PREFERRED_GATEWAY (Some "https://dweb.link/ipfs") empty_storage)
       empty_world).

Definition fetched_once : World :=
  snd (downloadFromFilecoin default_config "QmA" true served_twice_world).

Definition fetched_twice : World :=
  snd (downloadFromFilecoin default_config "QmA" true fetched_once).

(** The speed-test record that [findFastestGateway] reuses: measured less
    than one hour before the current time, with a non-empty gateway. *)
Definition fresh_speed_test (w : World) : bool :=
  match GATEWAY_SPEED_TEST (storage w) with
  | Some cached =>
      (clock w - 60 * 60 * 1000 <? st_timestamp cached)
      && truthy (st_fastestGateway cached)
  | None => false
  end.

(** [testResults] once [Promise.all] has settled, and after the sort. *)
Definition testResults (gateways : list string) (round : ProbeRound)
  : list SpeedResult :=
  flat_map (speedTest gateways round) (round_arrival round).

Definition ranking (gateways : list string) (round : ProbeRound)
  : list SpeedResult :=
  sort_by sr_responseTime (testResults gateways round).

(** A reply that counts: HTTP 200 or 206 within the 5-second timeout. *)
Definition responsive (reply : ProbeReply) : Prop :=
  pr_latency reply < 5000 /\
  (pr_status reply = Some 200 \/ pr_status reply = Some 206).

Definition responsiveb (reply : ProbeReply) : bool :=
  match pr_status reply with
  | Some status =>
      (pr_latency reply <? 5000) && ((status =? 200) || (status =? 206))
  | None => false
  end.

(** The world once a probe round has been issued and answered. *)
Definition probed (gateways : list string) (round : ProbeRound)
  (rest : list ProbeRound) (w : World) : World :=
  tick (round_elapsed round)
    (set_net_probes rest
       (log_call
          (map (fun gateway => NetGet (gateway +:+ "/" +:+ testCid +:+ "/readme"))
             gateways) w)).

(** What a gateway selection may change: the two gateway slots, the clock,
    the request log and the probe script; nothing else. *)
Record gateway_step (w w' : World) : Prop := {
  gs_files : files w' = files w;
  gs_progress : progress w' = progress w;
  gs_downloads : net_downloads w' = net_downloads w;
  gs_uploads : net_uploads w' = net_uploads w;
  gs_faults : fs_faults w' = fs_faults w;
  gs_cache : FILE_CACHE (storage w') = FILE_CACHE (storage w);
  gs_status : FILE_STATUS (storage w') = FILE_STATUS (storage w);
  gs_index : CACHE_INDEX (storage w') = CACHE_INDEX (storage w);
  gs_size : CACHE_SIZE (storage w') = CACHE_SIZE (storage w)
}.

(** A first probe round, in which the second gateway is the fastest, and a
    later one, in which it no longer answers. *)
Definition first_round : ProbeRound :=
  {| round_replies :=
       [ {| pr_status := Some 200; pr_latency := 300 |};
         {| pr_status := Some 206; pr_latency := 50 |};
         {| pr_status := None; pr_latency := 5000 |};
         {| pr_status := Some 404; pr_latency := 80 |};
         {| pr_status := Some 200; pr_latency := 700 |} ];
     round_arrival := [1; 3; 0; 4; 2]%nat |}.

Definition later_round : ProbeRound :=
  {| round_replies :=
       [ {| pr_status := Some 200; pr_latency := 40 |};
         {| pr_status := None; pr_latency := 5000 |};
         {| pr_status := None; pr_latency := 5000 |};
         {| pr_status := None; pr_latency := 5000 |};
         {| pr_status := Some 200; pr_latency := 90 |} ];
     round_arrival := [0; 4; 1; 2; 3]%nat |}.

Definition probed_once : World :=
  snd (getPreferredGateway default_config false
         (set_net_probes [first_round; later_round] empty_world)).

Definition two_hours_later : World :=
  set_clock (clock probed_once + 2 * 60 * 60 * 1000) probed_once.

(** Three gateways A, B and C that answer in 300 ms, in 50 ms and not
    before the timeout; [arrival] is the order in which the requests
    settle. *)
Definition abc_config : Config :=
  {| IPFS_API_URL := IPFS_API_URL default_config;
     IPFS_GATEWAYS := ["A"; "B"; "C"];
     INFURA_PROJECT_ID := "";
     INFURA_PROJECT_SECRET := "";
     cache_config := CACHE_CONFIG;
     cacheDirectory := cacheDirectory default_config |}.

Definition abc_round (arrival : list nat) : ProbeRound :=
  {| round_replies :=
       [ {| pr_status := Some 200; pr_latency := 300 |};
         {| pr_status := Some 200; pr_latency := 50 |};
         {| pr_status := Some 200; pr_latency := 9000 |} ];
     round_arrival := arrival |}.

Definition abc_world (arrival : list nat) : World :=
  set_net_probes [abc_round arrival] empty_world.

(** A cache that holds the blob of an empty file, a preferred gateway, and
    a network that serves the file. *)
Definition empty_blob_world : World :=
  set_net_downloads
    [ {| dl_events := []; dl_result := DlDone ""; dl_elapsed := 120 |} ]
    (set_storage
       (set_PREFERRED_GATEWAY (Some "https://dweb.link/ipfs")
          (set_FILE_CACHE (<["QmEmpty" := ""]> ∅) empty_storage))
       empty_world).

(** A cache that holds one non-empty blob. *)
Definition cached_world : World :=
  set_storage (set_FILE_CACHE (<["QmA" := "QUJD"]> ∅) empty_storage)
    empty_world.

(** The percentage that the download callback reports for one event. *)
Definition percent (base span : Z) (event : Z * Z) : jsnum :=
  Math_min (Math_round_div (base * snd event + fst event * span) (snd event)) 90.

(** The world once a transfer has been answered, before its result is
    looked at. *)
Definition transferred (url : string) (base span : Z) (d : Download)
  (rest : list Download) (w : World) : World :=
  tick (dl_elapsed d)
    (set_progress (progress w ++ map (percent base span) (dl_events d))
       (set_net_downloads rest (log_call [NetDownload url] w))).

(** A transfer that does not deliver the file. *)
Definition dl_fails (d : Download) : Prop :=
  match dl_result d with
  | DlDone _ => False
  | _ => True
  end.

(** What a failed download attempt leaves behind: storage, files and the
    fault script are as before. *)
Record failed_attempt (w w' : World) : Prop := {
  fa_storage : storage w' = storage w;
  fa_files : files w' = files w;
  fa_faults : fs_faults w' = fs_faults w;
  fa_downloads : net_downloads w' = tail (net_downloads w)
}.

(** The cache is not consulted, or holds nothing truthy for the cid. *)
Definition cache_miss (cid : string) (skipCache : bool) (w : World) : Prop :=
  skipCache = true \/ truthy_item (FILE_CACHE (storage w) !! cid) = false.

Definition exhausted_message : string :=
  "Failed to download from all IPFS gateways. Please try again later.".

(** A network on which every transfer is rejected with [message]. *)
Definition unreachable_world (message : string) : World :=
  set_net_downloads
    (repeat {| dl_events := [(10, 100)];
               dl_result := DlReject message;
               dl_elapsed := 60000 |} 6)
    (set_storage
       (set_PREFERRED_GATEWAY (Some "https://dweb.link/ipfs") empty_storage)
       empty_world).

(** Every gateway delivers the file, and every attempt fails all the
    same: reading the temporary file succeeds, deleting it rejects. *)
Definition cleanup_fault_world : World :=
  set_fs_faults
    (concat (repeat [None; Some "EACCES: permission denied"] 6))
    (set_net_downloads
       (repeat {| dl_events := [(4, 4)]; dl_result := DlDone "QUJD";
                  dl_elapsed := 100 |} 6)
       (set_storage
          (set_PREFERRED_GATEWAY (Some "https://dweb.link/ipfs") empty_storage)
          empty_world)).

(** A counter below zero, as [trackCachedFile] leaves it when it is
    called with a negative size. *)
Definition negative_world : World :=
  snd (trackCachedFile CACHE_CONFIG "QmA" (-5) empty_world).

(** A network on which the preferred gateway and the first four gateways
    of the list fail and the fifth delivers the file. *)
Definition fifth_gateway_world : World :=
  set_net_downloads
    (repeat {| dl_events := [(10, 100)];
               dl_result := DlReject "timeout";
               dl_elapsed := 60000 |} 5
     ++ [ {| dl_events := [(50, 100); (100, 100)];
             dl_result := DlDone "QUJD";
             dl_elapsed := 900 |} ])
    (set_storage
       (set_PREFERRED_GATEWAY (Some "https://ipfs.io/ipfs") empty_storage)
       empty_world).

(** The percentage that the upload callback reports for one event. *)
Definition upload_percent (base span : Z) (event : Z * Z) : jsnum :=
  js_add base (Math_round_div (fst event * span) (snd event)).

(** The world once an upload request has been answered. *)
Definition posted (url : string) (base span : Z) (u : Upload)
  (rest : list Upload) (w : World) : World :=
  tick (up_elapsed u)
    (set_progress (progress w ++ map (upload_percent base span) (up_events u))
       (set_net_uploads rest (log_call [NetPost url] w))).

(** The staging file is written, then [getInfoAsync] rejects; the write
    API would have accepted the file. *)
Definition getInfo_fault_world : World :=
  set_fs_faults [None; Some "EIO: i/o error"]
    (set_net_uploads
       [ {| up_events := [(50, 100); (100, 100)];
            up_result :=
              UpDone {| resp_Hash := Some "QmNew";
                        resp_hash := None;
                        resp_cid := None |};
            up_elapsed := 800 |} ]
       empty_world).

(** A progress event of a transfer whose length is known: the bytes
    written lie between 0 and the positive number of bytes expected. *)
Definition event_ok (event : Z * Z) : Prop :=
  0 <= fst event <= snd event /\ 0 < snd event.

Definition events_ok (d : Download) : Prop := Forall event_ok (dl_events d).

(** An integer percentage between 5 and 100. *)
Definition in_range (v : jsnum) : Prop :=
  exists z, v = JNum z /\ 5 <= z <= 100.

(** A computation that reports only percentages in range, as long as the
    transfers still to come have well-formed events. *)
Definition emits {A} (m : Async A) : Prop :=
  forall w,
    Forall events_ok (net_downloads w) ->
    exists trace,
      progress (snd (m w)) = (progress w ++ trace)%list /\
      Forall in_range trace /\
      Forall events_ok (net_downloads (snd (m w))).

(** Order on the reported values, and non-decreasing sequences. *)
Definition js_le (a b : jsnum) : Prop :=
  match a, b with
  | JNum x, JNum y => x <= y
  | _, _ => False
  end.

Definition nondecreasing (trace : list jsnum) : Prop := Sorted js_le trace.

(** Byte counts that never go back, against a fixed expected length. *)
Definition steady (events : list (Z * Z)) : Prop :=
  StronglySorted (fun a b => fst a <= fst b /\ snd a = snd b) events.

(** The preferred gateway fails after half of the file, the first gateway
    of the list resolves without a result, the second one delivers. *)
Definition retry_world : World :=
  set_net_downloads
    [ {| dl_events := [(50, 100)]; dl_result := DlReject "socket hang up";
         dl_elapsed := 400 |};
      {| dl_events := [(50, 100)]; dl_result := DlNoResult;
         dl_elapsed := 400 |};
      {| dl_events := [(50, 100); (100, 100)]; dl_result := DlDone "QUJD";
         dl_elapsed := 900 |} ]
    (set_storage
       (set_PREFERRED_GATEWAY (Some "https://dweb.link/ipfs") empty_storage)
       empty_world).

(** A gateway that does not announce the length of the file. *)
Definition unknown_length_world : World :=
  set_net_downloads
    [ {| dl_events := [(4096, -1)]; dl_result := DlDone "QUJD";
         dl_elapsed := 900 |} ]
    (set_storage
       (set_PREFERRED_GATEWAY (Some "https://dweb.link/ipfs") empty_storage)
       empty_world).

(** * Vocabulary for the rest of the service *)

(** The status cache holds a verdict for the cid that is less than one
    hour old. *)
Definition status_cached (w : World) (cid : string) (verdict : bool) : Prop :=
  exists entry,
    FILE_STATUS (storage w) !! cid = Some entry /\
    se_status entry = verdict /\
    clock w - 60 * 60 * 1000 < se_timestamp entry.

(** The status cache is not consulted, or holds nothing recent. *)
Definition status_miss (cid : string) (skipCache : bool) (w : World) : Prop :=
  skipCache = true \/
  match FILE_STATUS (storage w) !! cid with
  | Some entry => se_timestamp entry <= clock w - 60 * 60 * 1000
  | None => True
  end.

(** No [HEAD] request is ever answered with status 200 in time. *)
Definition never_found (head : HeadOracle) : Prop :=
  forall log url, axios_get_resolves 5000 (head log url) <> Some 200.

(** The next [POST] will fail. *)
Definition post_fails (w : World) : Prop :=
  match net_uploads w with
  | [] => True
  | u :: _ => exists message, up_result u = UpReject message
  end.

Definition is_download (c : NetCall) : bool :=
  match c with
  | NetDownload _ => true
  | _ => false
  end.

(** The number of transfers started so far. *)
Definition downloads_issued (w : World) : nat :=
  length (filter is_download (netlog w)).

(** A computation that never takes a transfer back from the log, and one
    that starts at least one. *)
Definition keeps_downloads {A} (m : Async A) : Prop :=
  forall w, (downloads_issued w <= downloads_issued (snd (m w)))%nat.

Definition starts_download {A} (m : Async A) : Prop :=
  forall w, (downloads_issued w < downloads_issued (snd (m w)))%nat.

(** Worlds for the availability check: a verdict cached at time 1000 and
    read half an hour later; a blob in the local file cache; a network on
    which nothing is found. *)
Definition verdict_world : World :=
  set_clock (1000 + 30 * 60 * 1000)
    (set_storage
       (set_FILE_STATUS
          (<["QmA" := {| se_status := false; se_timestamp := 1000 |}]> ∅)
          empty_storage)
       empty_world).

Definition nothing_found : HeadOracle :=
  fun _ _ => {| pr_status := Some 404; pr_latency := 120 |}.

Definition offline_world : World :=
  set_storage
    (set_PREFERRED_GATEWAY (Some "https://dweb.link/ipfs") empty_storage)
    empty_world.

(** A world in which a pointer to the last gateway is stored and a probe
    would find the second gateway fastest. *)
Definition pointer_world : World :=
  set_net_probes [first_round]
    (set_storage
       (set_PREFERRED_GATEWAY (Some "https://dweb.link/ipfs") empty_storage)
       empty_world).

(** A speed test measured at time 1000 and read half an hour later. *)
Definition measured_world : World :=
  set_clock (1000 + 30 * 60 * 1000)
    (set_net_probes [first_round]
       (set_storage
          (set_GATEWAY_SPEED_TEST
             (Some {| st_timestamp := 1000;
                      st_fastestGateway := "https://ipfs.fleek.co/ipfs";
                      st_allResults := [] |})
             empty_storage)
          empty_world)).


(** An index of three entries whose insertion order is not their age
    order, under a configuration that keeps two items. *)
Definition shuffled_world : World :=
  set_storage
    (set_CACHE_SIZE (Some 60)
       (set_CACHE_INDEX
          (Some [ ("QmNew", {| ie_size := 10; ie_timestamp := 30 |});
                  ("QmOld", {| ie_size := 20; ie_timestamp := 10 |});
                  ("QmMid", {| ie_size := 30; ie_timestamp := 20 |}) ])
          empty_storage))
    empty_world.

(** A cache of ten bytes at most that already tracks two blobs of 4 bytes. *)
Definition ten_bytes : CacheConfig :=
  {| MAX_CACHE_SIZE := 10;
     MAX_CACHE_AGE := MAX_CACHE_AGE CACHE_CONFIG;
     MAX_CACHE_ITEMS := 100 |}.

Definition nearly_full_world : World :=
  set_clock 50
    (set_storage
       (set_CACHE_SIZE (Some 8)
          (set_CACHE_INDEX
             (Some [ ("QmA", {| ie_size := 4; ie_timestamp := 10 |});
                     ("QmB", {| ie_size := 4; ie_timestamp := 20 |}) ])
             empty_storage))
       empty_world).

(** The world once [uploadToFilecoin] has written the staging file and
    reported 10 and 20. *)
Definition staged (path fileData : string) (w : World) : World :=
  let w1 := set_progress (progress w ++ [JNum 10]) w in
  let w2 := set_files (<[path := fileData]> (files w1)) w1 in
  set_progress (progress w2 ++ [JNum 20]) w2.

Definition all_failed (message : string) : string :=
  "IPFS upload failed: All IPFS upload attempts failed. Primary error: "
    +:+ message.

(** The configuration of the module with Infura credentials. *)
Definition infura_config : Config :=
  {| IPFS_API_URL := IPFS_API_URL default_config;
     IPFS_GATEWAYS := IPFS_GATEWAYS default_config;
     INFURA_PROJECT_ID := "project";
     INFURA_PROJECT_SECRET := "secret";
     cache_config := CACHE_CONFIG;
     cacheDirectory := cacheDirectory default_config |}.

(** Upload replies: an accepted upload, and two kinds of failure. *)
Definition accepted (cid : string) : Upload :=
  {| up_events := [(50, 100); (100, 100)];
     up_result := UpDone {| resp_Hash := Some cid;
                            resp_hash := None;
                            resp_cid := None |};
     up_elapsed := 800 |}.

Definition rejected (message : string) : Upload :=
  {| up_events := [(50, 100)];
     up_result := UpReject message;
     up_elapsed := 300 |}.

(** * Vocabulary for the encryption service *)

(** Text without a colon, as hexadecimal digests and base64 are. *)
Fixpoint colon_free (s : string) : bool :=
  match s with
  | EmptyString => true
  | String c rest => negb (Ascii.eqb c ":"%char) && colon_free rest
  end.

(** The part of the key that the ciphertext records: the first eight
    characters of the SHA-1 digest of the SHA-256 digest of the password. *)
Definition key_tag (p : Platform) (password : string) : string :=
  String.substring 0 8
    (digestStringAsync p SHA1 (digestStringAsync p SHA256 password)).

(** An example platform: base64 as in RFC 4648, and an eight-digit
    hexadecimal checksum standing in for the digests. *)
Definition alphabet : string :=
  "ABCDEFGHIJKLMNOPQRSTUVWXYZabcdefghijklmnopqrstuvwxyz0123456789+/".

Definition sextet_char (n : N) : ascii :=
  default "="%char (String.get (N.to_nat n) alphabet).

Fixpoint index_of (c : ascii) (s : string) (i : N) : option N :=
  match s with
  | EmptyString => None
  | String c' rest => if Ascii.eqb c c' then Some i else index_of c rest (N.succ i)
  end.

Fixpoint encode_octets (l : list N) : string :=
  match l with
  | [] => EmptyString
  | [a] =>
      String (sextet_char (a / 4))
        (String (sextet_char (a mod 4 * 16)) "==")
  | [a; b] =>
      String (sextet_char (a / 4))
        (String (sextet_char (a mod 4 * 16 + b / 16))
           (String (sextet_char (b mod 16 * 4)) "="))
  | a :: b :: c :: rest =>
      String (sextet_char (a / 4))
        (String (sextet_char (a mod 4 * 16 + b / 16))
           (String (sextet_char (b mod 16 * 4 + c / 64))
              (String (sextet_char (c mod 64)) (encode_octets rest))))
  end%N.

Fixpoint decode_sextets (l : list ascii) : Completion (list N) :=
  let invalid := Throw "The string to be decoded is not correctly encoded." in
  match l with
  | [] => Return []
  | a :: b :: c :: d :: rest =>
      match index_of a alphabet 0, index_of b alphabet 0 with
      | Some x, Some y =>
          if Ascii.eqb c "="%char then
            match Ascii.eqb d "="%char, rest with
            | true, [] => Return [x * 4 + y / 16]
            | _, _ => invalid
            end
          else
            match index_of c alphabet 0 with
            | Some z =>
                if Ascii.eqb d "="%char then
                  match rest with
                  | [] => Return [x * 4 + y / 16; y mod 16 * 16 + z / 4]
                  | _ => invalid
                  end
                else
                  match index_of d alphabet 0 with
                  | Some t =>
                      and_then (decode_sextets rest) (fun octets =>
                      Return (x * 4 + y / 16 :: y mod 16 * 16 + z / 4
                                :: z mod 4 * 64 + t :: octets))
                  | None => invalid
                  end
            | None => invalid
            end
      | _, _ => invalid
      end
  | _ => invalid
  end%N.

Definition checksum (seed : N) (s : string) : N :=
  fold_left (fun h c => (h * 31 + Ascii.N_of_ascii c) mod 4294967296)%N
    (String.list_ascii_of_string s) seed.

Definition hex8 (n : N) : string :=
  String.string_of_list_ascii
    (map (fun i => default "0"%char
                     (String.get (N.to_nat (n / 16 ^ i mod 16)%N) "0123456789abcdef"))
       [7; 6; 5; 4; 3; 2; 1; 0]%N).

Definition example_platform : Platform :=
  {| digestStringAsync :=
       fun algorithm s =>
         match algorithm with
         | SHA1 => hex8 (checksum 1 s)
         | SHA256 => hex8 (checksum 256 s)
         end;
     btoa :=
       fun s =>
         encode_octets (map Ascii.N_of_ascii (String.list_ascii_of_string s));
     atob :=
       fun s =>
         and_then (decode_sextets (String.list_ascii_of_string s))
           (fun octets =>
              Return (String.string_of_list_ascii
                        (map Ascii.ascii_of_N octets))) |}.

(** Sixteen bytes for the initialisation vector. *)
Definition example_iv : list Byte.byte :=
  [ Byte.x00; Byte.x01; Byte.x02; Byte.x03; Byte.x3a; Byte.x05; Byte.x06;
    Byte.x07; Byte.x08; Byte.x09; Byte.x0a; Byte.x0b; Byte.x0c; Byte.x0d;
    Byte.x0e; Byte.xff ].

(** Every gateway answers 200 within 120 ms. *)
Definition everything_found : HeadOracle :=
  fun _ _ => {| pr_status := Some 200; pr_latency := 120 |}.

(** The configuration of the module with a cache of ten bytes, and a
    network that serves a file of twelve bytes. *)
Definition tiny_cache_config : Config :=
  {| IPFS_API_URL := IPFS_API_URL default_config;
     IPFS_GATEWAYS := IPFS_GATEWAYS default_config;
     INFURA_PROJECT_ID := "";
     INFURA_PROJECT_SECRET := "";
     cache_config := ten_bytes;
     cacheDirectory := cacheDirectory default_config |}.

Definition large_file_world : World :=
  set_net_downloads
    [ {| dl_events := [(16, 16)]; dl_result := DlDone "QUJDREVGR0hJSktM";
         dl_elapsed := 100 |} ]
    (set_storage
       (set_PREFERRED_GATEWAY (Some "https://dweb.link/ipfs") empty_storage)
       empty_world).

(** An index whose keys are all ordinary cids. *)
Definition ordinary_keys (s : AsyncStorage) : Prop :=
  Forall (fun cid => ordinary_cid cid = true) (obj_keys (cache_index s)).
(** * Properties *)

(** ** Laws of [Async] computations *)

Section AsyncLaws.
Context {A B : Type}.

Lemma bind_Return (m : Async A) (k : A -> Async B) w a w' :
  m w = (Return a, w') -> bind m k w = k a w'.
Proof. intros E. unfold bind. now rewrite E. Qed.

Lemma bind_Throw (m : Async A) (k : A -> Async B) w e w' :
  m w = (Throw e, w') -> bind m k w = (Throw e, w').
Proof. intros E. unfold bind. now rewrite E. Qed.

Lemma try_catch_Return (m : Async A) handler w a w' :
  m w = (Return a, w') -> try_catch m handler w = (Return a, w').
Proof. intros E. unfold try_catch. now rewrite E. Qed.

Lemma try_catch_Throw (m : Async A) handler w e w' :
  m w = (Throw e, w') -> try_catch m handler w = handler e w'.
Proof. intros E. unfold try_catch. now rewrite E. Qed.
End AsyncLaws.

Lemma set_storage_same w : set_storage (storage w) w = w.
Proof. now destruct w. Qed.

Lemma storage_only_framed {A} (m : Async A) :
  storage_only m -> storage_framed m.
Proof. intros H w. destruct (H w) as (a & s & E). eauto. Qed.

Lemma storage_only_ret {A} (a : A) : storage_only (ret a).
Proof.
  intros w. exists a, (storage w). unfold ret. now rewrite set_storage_same.
Qed.

Lemma storage_framed_throw {A} e : storage_framed (@throw A e).
Proof.
  intros w. exists (Throw e), (storage w). unfold throw.
  now rewrite set_storage_same.
Qed.

Lemma storage_only_getItem {A} (slot : AsyncStorage -> A) :
  storage_only (getItem slot).
Proof.
  intros w. exists (slot (storage w)), (storage w).
  unfold getItem. now rewrite set_storage_same.
Qed.

Lemma storage_only_setItem write : storage_only (setItem write).
Proof. intros w. now exists tt, (write (storage w)). Qed.

Lemma storage_only_Date_now : storage_only Date_now.
Proof.
  intros w. exists (clock w), (storage w).
  unfold Date_now. now rewrite set_storage_same.
Qed.

Lemma storage_only_bind {A B} (m : Async A) (k : A -> Async B) :
  storage_only m -> (forall a, storage_only (k a)) -> storage_only (bind m k).
Proof.
  intros Hm Hk w. destruct (Hm w) as (a & s & E).
  destruct (Hk a (set_storage s w)) as (b & s' & E').
  exists b, s'. rewrite (bind_Return _ _ _ _ _ E). exact E'.
Qed.

Lemma storage_framed_bind {A B} (m : Async A) (k : A -> Async B) :
  storage_framed m -> (forall a, storage_framed (k a)) ->
  storage_framed (bind m k).
Proof.
  intros Hm Hk w. destruct (Hm w) as ([a | e] & s & E).
  - destruct (Hk a (set_storage s w)) as (r & s' & E').
    exists r, s'. rewrite (bind_Return _ _ _ _ _ E). exact E'.
  - exists (Throw e), s. now apply bind_Throw.
Qed.

Lemma storage_only_try_catch {A} (m : Async A) handler :
  storage_framed m -> (forall e, storage_only (handler e)) ->
  storage_only (try_catch m handler).
Proof.
  intros Hm Hh w. destruct (Hm w) as ([a | e] & s & E).
  - exists a, s. now apply try_catch_Return.
  - destruct (Hh e (set_storage s w)) as (b & s' & E').
    exists b, s'. rewrite (try_catch_Throw _ _ _ _ _ E). exact E'.
Qed.

Create HintDb storage_only.
#[export] Hint Resolve storage_only_ret storage_only_getItem
  storage_only_setItem storage_only_Date_now storage_framed_throw
  storage_only_framed : storage_only.

(** ** JavaScript objects *)

Section JsObjectFacts.
Context {V : Type}.
Implicit Types (o : list (string * V)) (k : string).

Lemma obj_get_None_notin o k : obj_get o k = None -> k ∉ obj_keys o.
Proof.
  induction o as [| [k' v] o IH]; simpl; [intros _; apply not_elem_of_nil |].
  destruct (String.eqb_spec k' k); [discriminate |].
  intros E. apply not_elem_of_cons. split; [congruence | now apply IH].
Qed.

Lemma obj_delete_notin o k : k ∉ obj_keys o -> obj_delete o k = o.
Proof.
  induction o as [| [k' v] o IH]; simpl; [reflexivity |].
  intros Hn. apply not_elem_of_cons in Hn as [Hne Hn].
  destruct (String.eqb_spec k' k) as [-> | _]; [congruence |].
  now rewrite IH.
Qed.

Lemma obj_delete_keys_incl o k x :
  x ∈ obj_keys (obj_delete o k) -> x ∈ obj_keys o.
Proof.
  induction o as [| [k' v] o IH]; simpl; [trivial |].
  destruct (String.eqb_spec k' k); simpl; rewrite !elem_of_cons; tauto.
Qed.

Lemma obj_delete_NoDup o k :
  NoDup (obj_keys o) -> NoDup (obj_keys (obj_delete o k)).
Proof.
  induction o as [| [k' v] o IH]; simpl; [trivial |].
  intros Hnd. apply NoDup_cons in Hnd as [Hn Hnd].
  destruct (String.eqb_spec k' k); [now apply IH |].
  simpl. apply NoDup_cons. split; [| now apply IH].
  intros Hin. apply Hn. eapply obj_delete_keys_incl, Hin.
Qed.

Lemma obj_get_delete o k : obj_get (obj_delete o k) k = None.
Proof.
  induction o as [| [k' v] o IH]; simpl; [reflexivity |].
  destruct (String.eqb_spec k' k) as [-> | Hne]; [exact IH |].
  simpl. destruct (String.eqb_spec k' k); [congruence | exact IH].
Qed.

Lemma ordinary_cid_not_proto cid :
  ordinary_cid cid = true -> cid <> "__proto__".
Proof.
  unfold ordinary_cid. intros H ->.
  rewrite String.eqb_refl, andb_false_r in H. discriminate.
Qed.

Lemma obj_set_keys_fresh o k v :
  k <> "__proto__" ->
  obj_get o k = None -> obj_keys (obj_set o k v) = (obj_keys o ++ [k])%list.
Proof.
  intros Hk. induction o as [| [k' v'] o IH]; simpl.
  - now destruct (String.eqb_spec k "__proto__").
  - destruct (String.eqb_spec k' k); [discriminate |].
    intros E. simpl. now rewrite IH.
Qed.

Lemma obj_set_keys_present o k v v0 :
  obj_get o k = Some v0 -> obj_keys (obj_set o k v) = obj_keys o.
Proof.
  induction o as [| [k' v'] o IH]; simpl; [discriminate |].
  destruct (String.eqb_spec k' k); [reflexivity |].
  intros E. simpl. now rewrite IH.
Qed.

Lemma obj_get_set o k v :
  k <> "__proto__" -> obj_get (obj_set o k v) k = Some v.
Proof.
  intros Hk. induction o as [| [k' v'] o IH]; simpl.
  - destruct (String.eqb_spec k "__proto__"); [contradiction |].
    simpl. now rewrite String.eqb_refl.
  - destruct (String.eqb_spec k' k) as [-> | Hne]; simpl.
    + now rewrite String.eqb_refl.
    + destruct (String.eqb_spec k' k); [congruence | exact IH].
Qed.
End JsObjectFacts.

(** ** The cache counter and the cache index *)

(** The state reached by [removeCachedFile], slot by slot. *)
Lemma removeCachedFile_run cid w :
  removeCachedFile cid w =
  (Return tt,
   set_storage
     {| PREFERRED_GATEWAY := PREFERRED_GATEWAY (storage w);
        GATEWAY_SPEED_TEST := GATEWAY_SPEED_TEST (storage w);
        FILE_CACHE := delete cid (FILE_CACHE (storage w));
        FILE_STATUS := delete cid (FILE_STATUS (storage w));
        CACHE_INDEX :=
          match obj_get (cache_index (storage w)) cid with
          | Some _ => Some (obj_delete (cache_index (storage w)) cid)
          | None => CACHE_INDEX (storage w)
          end;
        CACHE_SIZE :=
          match CACHE_SIZE (storage w) with
          | Some total =>
              if 0 <? indexed_size (storage w) cid
              then Some (Z.max 0 (total - indexed_size (storage w) cid))
              else Some total
          | None => None
          end |} w).
Proof.
  destruct w as [[pg st fc fs ci cs] fl ck pr nl np nd nu ff].
  unfold removeCachedFile, indexed_size, cache_index, try_catch, bind,
    getItem, setItem, ret; simpl.
  destruct (obj_get (default [] ci) cid) as [entry |] eqn:Eget; simpl.
  - destruct (0 <? ie_size entry); simpl; [| now destruct cs].
    now destruct cs.
  - now destruct cs.
Qed.

Lemma storage_only_removeCachedFile cid : storage_only (removeCachedFile cid).
Proof. intros w. rewrite removeCachedFile_run. eauto. Qed.

#[export] Hint Resolve storage_only_removeCachedFile : storage_only.

Lemma storage_framed_removeExcess entries n : forall i,
  storage_framed (removeExcess entries i n).
Proof.
  induction n as [| n IH]; intros i; simpl.
  - auto with storage_only.
  - destruct (entries !! i) as [item |]; [| auto with storage_only].
    apply storage_framed_bind; auto with storage_only.
Qed.

Lemma storage_only_removeForSize maxSize total entries : forall removed,
  storage_only (removeForSize maxSize total removed entries).
Proof.
  induction entries as [| item rest IH]; intros removed; simpl.
  - auto with storage_only.
  - apply storage_only_bind; [auto with storage_only |].
    intros _. destruct (_ <=? _); auto with storage_only.
Qed.

Lemma storage_only_removeExpired maxAge entries :
  storage_only (removeExpired maxAge entries).
Proof.
  induction entries as [| item rest IH]; simpl.
  - auto with storage_only.
  - destruct (_ <? _); [| auto with storage_only].
    apply storage_only_bind; auto with storage_only.
Qed.

Lemma storage_only_cleanCache cc : storage_only (cleanCache cc).
Proof.
  unfold cleanCache.
  apply storage_only_try_catch; [| auto with storage_only].
  apply storage_framed_bind; [auto with storage_only |].
  intros [cacheIndex |]; [| auto with storage_only].
  cbv zeta. destruct (_ <? _).
  - apply storage_framed_removeExcess.
  - apply storage_only_framed.
    apply storage_only_bind; [auto with storage_only | intros sizeData].
    apply storage_only_bind.
    + destruct (_ <? _); auto using storage_only_removeForSize with storage_only.
    + intros _. apply storage_only_bind; [auto with storage_only |].
      intros now. apply storage_only_removeExpired.
Qed.

Lemma storage_only_trackCachedFile cc cid size :
  storage_only (trackCachedFile cc cid size).
Proof.
  unfold trackCachedFile.
  apply storage_only_try_catch; [| auto with storage_only].
  apply storage_only_framed.
  repeat (apply storage_only_bind; [auto with storage_only | intros ?]).
  cbv zeta. destruct (_ <? _); auto using storage_only_cleanCache with storage_only.
Qed.

(** The state reached by [trackCachedFile]: the entry and the counter are
    written, then [cleanCache] runs if the counter exceeds the maximum. *)
Lemma trackCachedFile_run cc cid size w :
  let inserted :=
    set_storage
      (set_CACHE_SIZE (Some (counter (storage w) + size))
         (set_CACHE_INDEX
            (Some (obj_set (cache_index (storage w)) cid
                     {| ie_size := size; ie_timestamp := clock w |}))
            (storage w))) w in
  trackCachedFile cc cid size w =
  if MAX_CACHE_SIZE cc <? counter (storage w) + size
  then cleanCache cc inserted
  else (Return tt, inserted).
Proof.
  intros inserted. unfold trackCachedFile, try_catch, bind at 1.
  unfold getItem at 1. unfold bind at 1. unfold Date_now at 1.
  unfold bind at 1. unfold setItem at 1. unfold bind at 1.
  unfold getItem at 1. unfold bind at 1. unfold setItem at 1.
  cbv zeta. cbn [storage set_storage CACHE_SIZE set_CACHE_INDEX].
  fold (counter (storage w)). fold (cache_index (storage w)).
  change (set_storage _ (set_storage _ w)) with inserted.
  destruct (_ <? _); [| reflexivity].
  destruct (storage_only_cleanCache cc inserted) as ([] & s & ->).
  reflexivity.
Qed.

(** ** Sizes in the index *)

Lemma sum_sizes_delete (o : list (string * IndexEntry)) k entry :
  NoDup (obj_keys o) -> obj_get o k = Some entry ->
  sum_sizes (obj_delete o k) = sum_sizes o - ie_size entry.
Proof.
  induction o as [| [k' v] o IH]; simpl; [discriminate |].
  intros Hnd. apply NoDup_cons in Hnd as [Hn Hnd].
  destruct (String.eqb_spec k' k) as [-> | Hne].
  - intros [= ->]. rewrite obj_delete_notin by exact Hn. lia.
  - intros E. simpl. rewrite (IH Hnd E). lia.
Qed.

Lemma sum_sizes_bound (o : list (string * IndexEntry)) k entry :
  Forall (fun e => 0 <= ie_size (snd e)) o -> obj_get o k = Some entry ->
  0 <= ie_size entry <= sum_sizes o.
Proof.
  induction 1 as [| [k' v] o Hv Ho IH]; simpl; [discriminate |].
  assert (0 <= sum_sizes o).
  { clear -Ho. induction Ho as [| e o He Ho IH]; simpl; lia. }
  simpl in Hv. destruct (String.eqb_spec k' k).
  - intros [= ->]. lia.
  - intros E. specialize (IH E). lia.
Qed.

Lemma obj_delete_Forall {V} (P : string * V -> Prop) o k :
  Forall P o -> Forall P (obj_delete o k).
Proof.
  induction 1 as [| [k' v] o Hv Ho IH]; simpl; [constructor |].
  destruct (String.eqb k' k); [exact IH | now constructor].
Qed.

Lemma sum_sizes_set_fresh (o : list (string * IndexEntry)) k entry :
  k <> "__proto__" ->
  obj_get o k = None -> sum_sizes (obj_set o k entry) = sum_sizes o + ie_size entry.
Proof.
  intros Hk. induction o as [| [k' v] o IH]; simpl.
  - destruct (String.eqb_spec k "__proto__"); [contradiction |]. simpl. lia.
  - destruct (String.eqb_spec k' k); [discriminate |].
    intros E. simpl. rewrite (IH E). lia.
Qed.

Lemma obj_set_Forall {V} (P : string * V -> Prop) o k v :
  Forall P o -> P (k, v) -> Forall P (obj_set o k v).
Proof.
  intros Ho Hv. induction Ho as [| [k' v'] o Hv' Ho IH]; simpl.
  - destruct (String.eqb k "__proto__"); now repeat constructor.
  - destruct (String.eqb_spec k' k) as [-> | Hne]; now constructor.
Qed.

Lemma removeCachedFile_cache_ok cid w :
  cache_ok (storage w) -> cache_ok (storage (snd (removeCachedFile cid w))).
Proof.
  intros [Hk Hs Ht]. rewrite removeCachedFile_run. cbn [snd storage set_storage].
  unfold indexed_size.
  destruct (obj_get (cache_index (storage w)) cid) as [entry |] eqn:Eget.
  - pose proof (sum_sizes_bound _ _ _ Hs Eget) as Hb.
    pose proof (sum_sizes_delete _ _ _ Hk Eget) as Hd.
    split; unfold cache_index, counter in *; simpl in *.
    + now apply obj_delete_NoDup.
    + now apply obj_delete_Forall.
    + rewrite Hd. destruct (CACHE_SIZE (storage w)) as [total |]; simpl in *.
      * destruct (Z.ltb_spec 0 (ie_size entry)); simpl; lia.
      * lia.
  - split; unfold cache_index, counter in *; simpl in *; try assumption.
    rewrite Ht. destruct (CACHE_SIZE (storage w)); reflexivity.
Qed.

Lemma preserves_bind {A B} P (m : Async A) (k : A -> Async B) :
  preserves P m -> (forall a, preserves P (k a)) -> preserves P (bind m k).
Proof.
  intros Hm Hk w Hw. unfold bind. specialize (Hm w Hw).
  destruct (m w) as [[a | e] w']; simpl in *; [now apply Hk | exact Hm].
Qed.

Lemma preserves_try_catch {A} P (m : Async A) handler :
  preserves P m -> (forall e, preserves P (handler e)) ->
  preserves P (try_catch m handler).
Proof.
  intros Hm Hh w Hw. unfold try_catch. specialize (Hm w Hw).
  destruct (m w) as [[a | e] w']; simpl in *; [exact Hm | now apply Hh].
Qed.

Lemma preserves_pure {A} P (m : Async A) :
  (forall w, snd (m w) = w) -> preserves P m.
Proof. intros H w Hw. now rewrite H. Qed.

Section RemovalsPreserve.
Variable P : AsyncStorage -> Prop.
Hypothesis removal : forall cid, preserves P (removeCachedFile cid).

Lemma preserves_ret {A} (a : A) : preserves P (ret a).
Proof. now apply preserves_pure. Qed.

Lemma preserves_removeExcess entries n : forall i,
  preserves P (removeExcess entries i n).
Proof.
  induction n as [| n IH]; intros i; simpl; [apply preserves_ret |].
  destruct (entries !! i); [| now apply preserves_pure].
  apply preserves_bind; [apply removal | intros _; apply IH].
Qed.

Lemma preserves_removeForSize maxSize total entries : forall removed,
  preserves P (removeForSize maxSize total removed entries).
Proof.
  induction entries as [| item rest IH]; intros removed; simpl;
    [apply preserves_ret |].
  apply preserves_bind; [apply removal | intros _].
  destruct (_ <=? _); [apply preserves_ret | apply IH].
Qed.

Lemma preserves_removeExpired maxAge entries :
  preserves P (removeExpired maxAge entries).
Proof.
  induction entries as [| item rest IH]; simpl; [apply preserves_ret |].
  destruct (_ <? _); [| apply preserves_ret].
  apply preserves_bind; [apply removal | intros _; apply IH].
Qed.

Lemma preserves_cleanCache cc : preserves P (cleanCache cc).
Proof.
  unfold cleanCache.
  apply preserves_try_catch; [| intros; apply preserves_ret].
  apply preserves_bind; [now apply preserves_pure |].
  intros [cacheIndex |]; [| apply preserves_ret]. cbv zeta.
  destruct (_ <? _); [apply preserves_removeExcess |].
  apply preserves_bind; [now apply preserves_pure | intros sizeData].
  apply preserves_bind.
  - destruct (_ <? _); [apply preserves_removeForSize | apply preserves_ret].
  - intros _. apply preserves_bind; [now apply preserves_pure | intros now].
    apply preserves_removeExpired.
Qed.
End RemovalsPreserve.

(** ** Removal and the running counter *)

(** C10 (as amended).  For a cid other than [index] and [size], and a
    starting state in which the counter and the indexed size of the cid
    are not negative, [removeCachedFile] leaves the counter at
    [max 0 (counter - indexed size of cid)], where the indexed size is 0
    for a cid that has no index entry; the counter stays non-negative;
    removing an untracked cid leaves the counter slot as it was and still
    deletes the blob and the status record of that cid. *)
Theorem removeCachedFile_counter cid w :
  own_blob_key cid = true ->
  0 <= counter (storage w) ->
  0 <= indexed_size (storage w) cid ->
  fst (removeCachedFile cid w) = Return tt /\
  counter (storage (snd (removeCachedFile cid w))) =
    Z.max 0 (counter (storage w) - indexed_size (storage w) cid) /\
  0 <= counter (storage (snd (removeCachedFile cid w))) /\
  (obj_get (cache_index (storage w)) cid = None ->
   CACHE_SIZE (storage (snd (removeCachedFile cid w))) = CACHE_SIZE (storage w)) /\
  FILE_CACHE (storage (snd (removeCachedFile cid w))) !! cid = None /\
  FILE_STATUS (storage (snd (removeCachedFile cid w))) !! cid = None.
Proof.
  intros _ Hcounter Hsize. rewrite removeCachedFile_run.
  cbn [fst snd storage set_storage FILE_CACHE FILE_STATUS CACHE_SIZE].
  split; [reflexivity |].
  assert (Hc : counter
                 {| PREFERRED_GATEWAY := PREFERRED_GATEWAY (storage w);
                    GATEWAY_SPEED_TEST := GATEWAY_SPEED_TEST (storage w);
                    FILE_CACHE := delete cid (FILE_CACHE (storage w));
                    FILE_STATUS := delete cid (FILE_STATUS (storage w));
                    CACHE_INDEX :=
                      match obj_get (cache_index (storage w)) cid with
                      | Some _ => Some (obj_delete (cache_index (storage w)) cid)
                      | None => CACHE_INDEX (storage w)
                      end;
                    CACHE_SIZE :=
                      match CACHE_SIZE (storage w) with
                      | Some total =>
                          if 0 <? indexed_size (storage w) cid
                          then Some (Z.max 0 (total - indexed_size (storage w) cid))
                          else Some total
                      | None => None
                      end |}
               = Z.max 0 (counter (storage w) - indexed_size (storage w) cid)).
  { unfold counter in *. cbn [CACHE_SIZE].
    destruct (CACHE_SIZE (storage w)) as [total |]; simpl in *.
    - destruct (Z.ltb_spec 0 (indexed_size (storage w) cid)); simpl; lia.
    - lia. }
  rewrite Hc. repeat split.
  - lia.
  - intros Hnone. unfold indexed_size. rewrite Hnone. simpl.
    now destruct (CACHE_SIZE (storage w)).
  - apply lookup_delete_eq.
  - apply lookup_delete_eq.
Qed.

Lemma removeCachedFile_counter_witness :
  own_blob_key "QmA" = true /\
  0 <= counter (storage tracked_world) /\
  0 <= indexed_size (storage tracked_world) "QmA" /\
  counter (storage (snd (removeCachedFile "QmA" tracked_world))) =
    Z.max 0 (counter (storage tracked_world)
             - indexed_size (storage tracked_world) "QmA").
Proof.
  split; [reflexivity |].
  split; [vm_compute; discriminate |]. split; [vm_compute; discriminate |].
  apply (removeCachedFile_counter "QmA" tracked_world eq_refl);
    vm_compute; discriminate.
Defined.

(** C10, the claim as stated fails: not every starting state has a
    counter that is a byte count.  [trackCachedFile] called with the size
    -5 leaves the counter at -5; removing an untracked cid then leaves it
    at -5, where [max 0 (counter - 0)] is 0, and removing the tracked cid,
    whose indexed size -5 is not positive, leaves it at -5 as well, where
    [max 0 (counter - indexed size)] is 0 again. *)
Lemma removeCachedFile_negative_counter :
  counter (storage negative_world) = -5 /\
  indexed_size (storage negative_world) "QmB" = 0 /\
  counter (storage (snd (removeCachedFile "QmB" negative_world))) = -5 /\
  Z.max 0 (counter (storage negative_world)
           - indexed_size (storage negative_world) "QmB") = 0 /\
  indexed_size (storage negative_world) "QmA" = -5 /\
  counter (storage (snd (removeCachedFile "QmA" negative_world))) = -5 /\
  Z.max 0 (counter (storage negative_world)
           - indexed_size (storage negative_world) "QmA") = 0.
Proof. vm_compute. repeat split. Qed.

(** ** Re-inserting a cid *)

(** C2.  Tracking a cid that the index already holds replaces its entry
    but adds the size to the counter once more: after the second insert of
    the same 3-byte blob the index sums to 3 and the counter says 6.  Two
    downloads of one cid with [skipCache = true] reach that state. *)
Theorem trackCachedFile_reinsert_double_counts :
  sum_sizes (cache_index (storage once_tracked)) = 3 /\
  counter (storage once_tracked) = 3 /\
  cache_index (storage twice_tracked) =
    [("QmA", {| ie_size := 3; ie_timestamp := 5 |})] /\
  sum_sizes (cache_index (storage twice_tracked)) = 3 /\
  counter (storage twice_tracked) = 6 /\
  sum_sizes (cache_index (storage fetched_once)) = counter (storage fetched_once) /\
  sum_sizes (cache_index (storage fetched_twice)) = 3 /\
  counter (storage fetched_twice) = 6.
Proof. vm_compute. repeat split. Qed.

(** The same on every well-formed cache, as long as no eviction runs. *)
Lemma trackCachedFile_present_double_counts cc cid size entry w :
  sum_sizes (cache_index (storage w)) = counter (storage w) ->
  NoDup (obj_keys (cache_index (storage w))) ->
  obj_get (cache_index (storage w)) cid = Some entry ->
  counter (storage w) + size <= MAX_CACHE_SIZE cc ->
  let w' := snd (trackCachedFile cc cid size w) in
  counter (storage w') = counter (storage w) + size /\
  sum_sizes (cache_index (storage w')) =
    counter (storage w) + size - ie_size entry.
Proof.
  intros Ht Hk Hget Hmax. cbv zeta. rewrite trackCachedFile_run. cbv zeta.
  destruct (Z.ltb_spec (MAX_CACHE_SIZE cc) (counter (storage w) + size)); [lia |].
  split; [reflexivity |].
  cbn [snd storage set_storage]. unfold cache_index at 1.
  cbn [CACHE_INDEX set_CACHE_SIZE set_CACHE_INDEX from_option]. unfold id.
  rewrite <- Ht. clear -Hk Hget.
  induction (cache_index (storage w)) as [| [k v] o IH]; simpl in *;
    [discriminate |].
  apply NoDup_cons in Hk as [_ Hk].
  destruct (String.eqb_spec k cid).
  - injection Hget as ->. simpl. lia.
  - simpl. rewrite (IH Hk Hget). lia.
Qed.

(** ** The item-count bound *)

(** C3.  With a maximum of two items, inserting cid1, cid2 and cid3 at
    times 1, 2 and 3 leaves all three in the index: [trackCachedFile] calls
    [cleanCache] only when the counter exceeds the maximum size.
    [cleanCache] itself, once it runs, evicts cid1.  With the constants of
    the module, 101 small files leave 101 entries for a maximum of 100. *)
Theorem trackCachedFile_exceeds_item_count :
  obj_keys (cache_index (storage three_inserts)) = ["cid1"; "cid2"; "cid3"] /\
  MAX_CACHE_ITEMS two_items < Z.of_nat (length (cache_index (storage three_inserts))) /\
  obj_keys (cache_index (storage (snd (cleanCache two_items three_inserts))))
    = ["cid2"; "cid3"] /\
  length (cache_index (storage (insert_files 101 empty_world))) = 101%nat /\
  MAX_CACHE_ITEMS CACHE_CONFIG = 100.
Proof. vm_compute. repeat split. Qed.

(** ** The stable sort *)

Section SortByFacts.
Context {A : Type} (key : A -> Z).

Lemma insert_by_Permutation x l : Permutation (insert_by key x l) (x :: l).
Proof.
  induction l as [| y rest IH]; simpl; [reflexivity |].
  destruct (key x <=? key y); [reflexivity |].
  rewrite IH. apply perm_swap.
Qed.

Lemma sort_by_Permutation l : Permutation (sort_by key l) l.
Proof.
  induction l as [| x rest IH]; simpl; [reflexivity |].
  rewrite insert_by_Permutation. now constructor.
Qed.

Lemma insert_by_sorted x l :
  StronglySorted (fun a b => key a <= key b) l ->
  StronglySorted (fun a b => key a <= key b) (insert_by key x l).
Proof.
  induction 1 as [| y rest Hrest IH Hy]; simpl.
  - repeat constructor.
  - destruct (Z.leb_spec (key x) (key y)) as [Hle | Hgt].
    + constructor; [now constructor |].
      constructor; [exact Hle |].
      eapply Forall_impl; [exact Hy |]. simpl. intros b Hb. lia.
    + constructor; [exact IH |].
      eapply Permutation_Forall.
      * symmetry. apply insert_by_Permutation.
      * constructor; [lia | exact Hy].
Qed.

Lemma sort_by_sorted l :
  StronglySorted (fun a b => key a <= key b) (sort_by key l).
Proof.
  induction l as [| x rest IH]; simpl; [constructor |].
  now apply insert_by_sorted.
Qed.
End SortByFacts.

(** ** What [cleanCache] achieves once it runs *)

Lemma obj_get_elem_of {V} (o : list (string * V)) k :
  k ∈ obj_keys o -> exists v, obj_get o k = Some v.
Proof.
  induction o as [| [k' v] o IH]; simpl; intros Hin.
  - now apply elem_of_nil in Hin.
  - destruct (String.eqb_spec k' k); [eauto |].
    apply elem_of_cons in Hin as [-> | Hin]; [congruence | now apply IH].
Qed.

Lemma obj_delete_length {V} (o : list (string * V)) k v :
  NoDup (obj_keys o) -> obj_get o k = Some v ->
  S (length (obj_delete o k)) = length o.
Proof.
  induction o as [| [k' v'] o IH]; simpl; [discriminate |].
  intros Hnd. apply NoDup_cons in Hnd as [Hn Hnd].
  destruct (String.eqb_spec k' k) as [-> | Hne].
  - intros _. now rewrite obj_delete_notin.
  - intros Hget. simpl. now rewrite (IH Hnd Hget).
Qed.

Lemma obj_delete_length_le {V} (o : list (string * V)) k :
  (length (obj_delete o k) <= length o)%nat.
Proof.
  induction o as [| [k' v'] o IH]; simpl; [lia |].
  destruct (String.eqb k' k); simpl; lia.
Qed.

Lemma obj_delete_keys_other {V} (o : list (string * V)) k x :
  x ∈ obj_keys o -> x <> k -> x ∈ obj_keys (obj_delete o k).
Proof.
  induction o as [| [k' v] o IH]; simpl; intros Hin Hne; [exact Hin |].
  apply elem_of_cons in Hin as [-> | Hin].
  - destruct (String.eqb_spec k' k); [congruence | apply list_elem_of_here].
  - destruct (String.eqb_spec k' k); [now apply IH |].
    apply list_elem_of_further. now apply IH.
Qed.

(** Removals never add entries. *)
Lemma removeCachedFile_length cid w :
  (length (cache_index (storage (snd (removeCachedFile cid w))))
   <= length (cache_index (storage w)))%nat.
Proof.
  rewrite removeCachedFile_run. cbn [snd storage set_storage].
  unfold cache_index at 1. cbn [CACHE_INDEX].
  destruct (obj_get (cache_index (storage w)) cid); simpl.
  - apply obj_delete_length_le.
  - reflexivity.
Qed.

(** The loop over the excess items removes one entry per round. *)
Lemma removeExcess_length entries n : forall i w,
  NoDup (map fst entries) ->
  NoDup (obj_keys (cache_index (storage w))) ->
  (forall j item, (i <= j)%nat -> entries !! j = Some item ->
                  fst item ∈ obj_keys (cache_index (storage w))) ->
  (i + n <= length entries)%nat ->
  (length (cache_index (storage (snd (removeExcess entries i n w)))) + n
   = length (cache_index (storage w)))%nat.
Proof.
  induction n as [| n IH]; intros i w Hent Hkeys Hin Hlen; simpl.
  - lia.
  - destruct (entries !! i) as [item |] eqn:Hitem.
    2: { apply lookup_ge_None in Hitem. lia. }
    unfold bind. rewrite removeCachedFile_run.
    destruct (obj_get_elem_of _ _ (Hin i item (Nat.le_refl i) Hitem))
      as (entry & Hget).
    set (w1 := set_storage _ w).
    assert (Hidx : cache_index (storage w1)
                   = obj_delete (cache_index (storage w)) (fst item)).
    { subst w1. cbn [storage set_storage]. unfold cache_index at 1.
      cbn [CACHE_INDEX]. now rewrite Hget. }
    specialize (IH (S i) w1 Hent). rewrite Hidx in IH.
    rewrite <- (obj_delete_length _ _ _ Hkeys Hget).
    rewrite <- IH; [lia | now apply obj_delete_NoDup | | lia].
    intros j other Hj Hother.
    apply obj_delete_keys_other; [apply (Hin j); [lia | exact Hother] |].
    intros Heq.
    assert (Hi : map fst entries !! i = Some (fst item))
      by (now rewrite list_lookup_fmap, Hitem).
    assert (Hj' : map fst entries !! j = Some (fst item))
      by (rewrite list_lookup_fmap, Hother; simpl; now rewrite Heq).
    pose proof (NoDup_lookup _ _ _ _ Hent Hi Hj'). lia.
Qed.

(** X14.  Once [cleanCache] runs, the index holds at most [MAX_CACHE_ITEMS]
    entries. *)
Lemma cleanCache_item_count cc w :
  0 <= MAX_CACHE_ITEMS cc ->
  NoDup (obj_keys (cache_index (storage w))) ->
  Z.of_nat (length (cache_index (storage (snd (cleanCache cc w)))))
    <= MAX_CACHE_ITEMS cc.
Proof.
  intros Hmax Hkeys.
  destruct (CACHE_INDEX (storage w)) as [cacheIndex |] eqn:Hindex.
  2: { unfold cleanCache, try_catch, bind, getItem. rewrite Hindex.
       cbn [snd ret]. unfold cache_index. rewrite Hindex. simpl. lia. }
  assert (Hci : cache_index (storage w) = cacheIndex)
    by (unfold cache_index; now rewrite Hindex).
  destruct (Z.ltb_spec (MAX_CACHE_ITEMS cc) (Z.of_nat (length cacheIndex)))
    as [Hover | Hwithin].
  - set (entries := sort_by (fun e => ie_timestamp (snd e)) cacheIndex).
    assert (Hperm : Permutation entries cacheIndex)
      by apply sort_by_Permutation.
    assert (Hlen : length entries = length cacheIndex)
      by now apply Permutation_length.
    set (n := Z.to_nat (Z.of_nat (length entries) - MAX_CACHE_ITEMS cc)).
    assert (Hrun : cleanCache cc w
                   = (let (r, w') := removeExcess entries 0 n w in
                      match r with
                      | Return a => (Return a, w')
                      | Throw _ => (Return tt, w')
                      end)).
    { unfold cleanCache, try_catch, bind at 1, getItem at 1. rewrite Hindex.
      cbv zeta. fold entries. rewrite Hlen.
      destruct (Z.ltb_spec (MAX_CACHE_ITEMS cc) (Z.of_nat (length cacheIndex)));
        [| lia].
      subst n. rewrite Hlen. reflexivity. }
    assert (Hcount :
      (length (cache_index (storage (snd (removeExcess entries 0 n w)))) + n
       = length (cache_index (storage w)))%nat).
    { apply removeExcess_length.
      - rewrite Hperm. rewrite Hci in Hkeys. exact Hkeys.
      - exact Hkeys.
      - intros j item _ Hitem. rewrite Hci.
        apply list_elem_of_fmap. exists item. split; [reflexivity |].
        rewrite <- Hperm. eapply list_elem_of_lookup_2, Hitem.
      - subst n. lia. }
    rewrite Hrun.
    destruct (removeExcess entries 0 n w) as [[[] | e] w']; cbn [snd] in *;
      rewrite Hci in Hcount; subst n; lia.
  - assert (Hbound : forall w0 : World,
              (length (cache_index (storage w0)) <= length cacheIndex)%nat ->
              (length (cache_index (storage (snd (cleanCache cc w0))))
               <= length cacheIndex)%nat).
    { apply (preserves_cleanCache
               (fun s => (length (cache_index s) <= length cacheIndex)%nat)).
      intros cid w0 Hw0. etransitivity; [apply removeCachedFile_length | exact Hw0]. }
    specialize (Hbound w ltac:(rewrite Hci; lia)). lia.
Qed.

(** Sizes and the counter are byte counts: non-negative, and every
    operation of the cache keeps them so. *)
Lemma removeCachedFile_sizes_ok cid w :
  sizes_ok (storage w) -> sizes_ok (storage (snd (removeCachedFile cid w))).
Proof.
  intros [Hc Hs]. rewrite removeCachedFile_run. cbn [snd storage set_storage].
  split.
  - unfold counter in *. cbn [CACHE_SIZE].
    destruct (CACHE_SIZE (storage w)) as [total |]; simpl in *; [| lia].
    destruct (0 <? indexed_size (storage w) cid); simpl; lia.
  - unfold cache_index at 1. cbn [CACHE_INDEX].
    destruct (obj_get (cache_index (storage w)) cid); simpl;
      [now apply obj_delete_Forall | exact Hs].
Qed.

Lemma trackCachedFile_sizes_ok cc cid size w :
  0 <= size -> sizes_ok (storage w) ->
  sizes_ok (storage (snd (trackCachedFile cc cid size w))).
Proof.
  intros Hsize [Hc Hs]. rewrite trackCachedFile_run.
  match goal with
  | |- context [cleanCache cc ?w1] => assert (Hins : sizes_ok (storage w1))
  end.
  { split.
    - unfold counter in *. simpl in *. lia.
    - unfold cache_index at 1. simpl. now apply obj_set_Forall. }
  destruct (_ <? _); [| exact Hins].
  apply preserves_cleanCache; [| exact Hins].
  intros c w'. apply removeCachedFile_sizes_ok.
Qed.

Lemma sizes_ok_indexed_size s cid :
  sizes_ok s -> 0 <= counter s /\ 0 <= indexed_size s cid.
Proof.
  intros [Hc Hs]. split; [exact Hc |]. unfold indexed_size.
  destruct (obj_get (cache_index s) cid) as [entry |] eqn:Hget; [| lia].
  clear Hc. induction Hs as [| [k v] o Hv Ho IH]; simpl in *; [discriminate |].
  destruct (String.eqb k cid); [injection Hget as <-; exact Hv | auto].
Qed.

(** ** Gateway selection *)

(** X9.  A speed test measured less than one hour ago is reused:
    [findFastestGateway] returns its gateway without probing and changes
    nothing. *)
Lemma findFastestGateway_fresh cfg cached w :
  GATEWAY_SPEED_TEST (storage w) = Some cached ->
  clock w - st_timestamp cached < 60 * 60 * 1000 ->
  st_fastestGateway cached <> "" ->
  findFastestGateway cfg w = (Return (st_fastestGateway cached), w).
Proof.
  intros Hcached Hage Hgw.
  unfold findFastestGateway, try_catch, bind, getItem, Date_now.
  rewrite Hcached.
  destruct (Z.ltb_spec (clock w - 60 * 60 * 1000) (st_timestamp cached)); [| lia].
  unfold truthy. destruct (String.eqb_spec (st_fastestGateway cached) "");
    [contradiction | reflexivity].
Qed.

Lemma findFastestGateway_probes cfg w round rest :
  fresh_speed_test w = false ->
  net_probes w = round :: rest ->
  findFastestGateway cfg w =
  let w1 := probed (IPFS_GATEWAYS cfg) round rest w in
  match ranking (IPFS_GATEWAYS cfg) round with
  | [] => (Return (IPFS_GATEWAY_URL cfg), w1)
  | fastest :: others =>
      (Return (sr_gateway fastest),
       set_storage
         (set_GATEWAY_SPEED_TEST
            (Some {| st_timestamp := clock w1;
                     st_fastestGateway := sr_gateway fastest;
                     st_allResults := fastest :: others |})
            (storage w)) w1)
  end.
Proof.
  intros Hstale Hround. unfold fresh_speed_test in Hstale.
  unfold findFastestGateway, try_catch, bind at 1, getItem at 1.
  assert (Hprobe :
    bind (runSpeedTests (IPFS_GATEWAYS cfg))
      (fun testResults =>
         match sort_by sr_responseTime testResults with
         | [] => ret (IPFS_GATEWAY_URL cfg)
         | fastest :: others =>
             bind Date_now (fun now =>
               bind (setItem
                       (set_GATEWAY_SPEED_TEST
                          (Some {| st_timestamp := now;
                                   st_fastestGateway := sr_gateway fastest;
                                   st_allResults := fastest :: others |})))
                 (fun _ => ret (sr_gateway fastest)))
         end) w =
    let w1 := probed (IPFS_GATEWAYS cfg) round rest w in
    match ranking (IPFS_GATEWAYS cfg) round with
    | [] => (Return (IPFS_GATEWAY_URL cfg), w1)
    | fastest :: others =>
        (Return (sr_gateway fastest),
         set_storage
           (set_GATEWAY_SPEED_TEST
              (Some {| st_timestamp := clock w1;
                       st_fastestGateway := sr_gateway fastest;
                       st_allResults := fastest :: others |})
              (storage w)) w1)
    end).
  { unfold bind at 1, runSpeedTests. rewrite Hround. cbv zeta.
    fold (testResults (IPFS_GATEWAYS cfg) round).
    fold (ranking (IPFS_GATEWAYS cfg) round).
    fold (probed (IPFS_GATEWAYS cfg) round rest w).
    destruct (ranking (IPFS_GATEWAYS cfg) round); reflexivity. }
  cbv zeta in *.
  destruct (GATEWAY_SPEED_TEST (storage w)) as [cached |].
  - unfold bind at 1, Date_now at 1. rewrite Hstale. rewrite Hprobe.
    now destruct (ranking (IPFS_GATEWAYS cfg) round).
  - rewrite Hprobe. now destruct (ranking (IPFS_GATEWAYS cfg) round).
Qed.

Lemma gateway_step_refl w : gateway_step w w.
Proof. now split. Qed.

Lemma findFastestGateway_frame cfg w :
  exists gateway w',
    findFastestGateway cfg w = (Return gateway, w') /\ gateway_step w w'.
Proof.
  destruct (fresh_speed_test w) eqn:Hfresh.
  - unfold fresh_speed_test in Hfresh.
    exists (match GATEWAY_SPEED_TEST (storage w) with
            | Some cached => st_fastestGateway cached | None => "" end), w.
    split; [| apply gateway_step_refl].
    unfold findFastestGateway, try_catch, bind, getItem, Date_now.
    destruct (GATEWAY_SPEED_TEST (storage w)); [| discriminate].
    now rewrite Hfresh.
  - destruct (net_probes w) as [| round rest] eqn:Hround.
    + exists (IPFS_GATEWAY_URL cfg). eexists. split.
      * unfold fresh_speed_test in Hfresh.
        unfold findFastestGateway, try_catch, bind, getItem, Date_now,
          runSpeedTests.
        destruct (GATEWAY_SPEED_TEST (storage w)); cbv beta;
          [rewrite Hfresh |]; rewrite Hround; reflexivity.
      * now split.
    + rewrite (findFastestGateway_probes cfg w round rest Hfresh Hround).
      cbv zeta. destruct (ranking _ _); eexists _, _;
        (split; [reflexivity | now split]).
Qed.

Lemma getPreferredGateway_frame cfg forceRefresh w :
  exists gateway w',
    getPreferredGateway cfg forceRefresh w = (Return gateway, w') /\
    gateway_step w w'.
Proof.
  destruct (findFastestGateway_frame cfg w) as (g & w' & E & Hstep).
  unfold getPreferredGateway, try_catch.
  destruct forceRefresh; [rewrite E; eauto |].
  unfold bind at 1, getItem at 1.
  assert (Hrefresh :
    exists w'',
      bind (findFastestGateway cfg)
        (fun fastestGateway =>
           bind (setItem (set_PREFERRED_GATEWAY (Some fastestGateway)))
             (fun _ => ret fastestGateway)) w = (Return g, w'') /\
      gateway_step w w'').
  { eexists. unfold bind at 1. rewrite E. split; [reflexivity |].
    destruct Hstep. now split. }
  destruct Hrefresh as (w'' & E' & Hstep').
  destruct (PREFERRED_GATEWAY (storage w)) as [stored |].
  - destruct (truthy stored).
    + exists stored, w. split; [reflexivity | apply gateway_step_refl].
    + rewrite E'. eauto.
  - rewrite E'. eauto.
Qed.

(** C4 (as amended).  With [forceRefresh = false], a non-empty persisted
    preferred gateway is returned as it is, whatever its age: nothing is
    probed and the world does not change. *)
Theorem getPreferredGateway_stored cfg gateway w :
  PREFERRED_GATEWAY (storage w) = Some gateway ->
  gateway <> "" ->
  getPreferredGateway cfg false w = (Return gateway, w).
Proof.
  intros Hstored Hne.
  unfold getPreferredGateway, try_catch, bind, getItem. rewrite Hstored.
  unfold truthy. destruct (String.eqb_spec gateway ""); [contradiction |].
  reflexivity.
Qed.

Lemma getPreferredGateway_stored_witness :
  PREFERRED_GATEWAY (storage two_hours_later)
    = Some "https://gateway.pinata.cloud/ipfs" /\
  "https://gateway.pinata.cloud/ipfs" <> "" /\
  getPreferredGateway default_config false two_hours_later
    = (Return "https://gateway.pinata.cloud/ipfs", two_hours_later).
Proof.
  split; [reflexivity |]. split; [discriminate |].
  apply (getPreferredGateway_stored default_config
           "https://gateway.pinata.cloud/ipfs" two_hours_later);
    [reflexivity | discriminate].
Defined.

(** C4, the claim as stated fails: the preferred gateway was persisted by
    a probe, two hours pass, and [getPreferredGateway(false)] still returns
    it; the pending probe round is not consumed and no request is logged. *)
Lemma getPreferredGateway_returns_stale :
  PREFERRED_GATEWAY (storage two_hours_later)
    = Some "https://gateway.pinata.cloud/ipfs" /\
  (st_timestamp <$> GATEWAY_SPEED_TEST (storage two_hours_later)) = Some 5000 /\
  60 * 60 * 1000 <= clock two_hours_later - 5000 /\
  fst (getPreferredGateway default_config false two_hours_later)
    = Return "https://gateway.pinata.cloud/ipfs" /\
  net_probes (snd (getPreferredGateway default_config false two_hours_later))
    = [later_round] /\
  netlog (snd (getPreferredGateway default_config false two_hours_later))
    = netlog two_hours_later.
Proof. vm_compute. repeat split; discriminate. Qed.

(** When the pointer is absent, the one-hour rule of [findFastestGateway]
    decides: a stale speed-test record is replaced by a new probe. *)
Lemma getPreferredGateway_unset cfg w gateway w' :
  PREFERRED_GATEWAY (storage w) = None ->
  findFastestGateway cfg w = (Return gateway, w') ->
  getPreferredGateway cfg false w =
  (Return gateway,
   set_storage (set_PREFERRED_GATEWAY (Some gateway) (storage w')) w').
Proof.
  intros Hunset E.
  unfold getPreferredGateway, try_catch, bind, getItem.
  rewrite Hunset, E. reflexivity.
Qed.

Lemma getPreferredGateway_probes_when_unset cfg w round rest :
  PREFERRED_GATEWAY (storage w) = None ->
  fresh_speed_test w = false ->
  net_probes w = round :: rest ->
  net_probes (snd (getPreferredGateway cfg false w)) = rest /\
  netlog (snd (getPreferredGateway cfg false w)) =
    (netlog w ++
     map (fun gateway => NetGet (gateway +:+ "/" +:+ testCid +:+ "/readme"))
       (IPFS_GATEWAYS cfg))%list.
Proof.
  intros Hunset Hstale Hround.
  pose proof (findFastestGateway_probes cfg w round rest Hstale Hround) as E.
  cbv zeta in E.
  destruct (ranking (IPFS_GATEWAYS cfg) round);
    rewrite (getPreferredGateway_unset _ _ _ _ Hunset E); split; reflexivity.
Qed.

(** ** The speed test *)

Lemma responsiveb_spec reply : responsiveb reply = true <-> responsive reply.
Proof.
  unfold responsiveb, responsive. destruct (pr_status reply) as [status |].
  - rewrite andb_true_iff, orb_true_iff, Z.ltb_lt, !Z.eqb_eq.
    split; intros [Hl Hs]; (split; [exact Hl |]);
      destruct Hs as [Hs | Hs]; (left + right); congruence.
  - split; [discriminate | intros [_ [[=] | [=]]]].
Qed.

Lemma speedTest_responsive gateways round i :
  speedTest gateways round i =
  match gateways !! i, round_replies round !! i with
  | Some gateway, Some reply =>
      if responsiveb reply
      then [ {| sr_gateway := gateway; sr_responseTime := pr_latency reply |} ]
      else []
  | _, _ => []
  end.
Proof.
  unfold speedTest, axios_get_resolves, responsiveb.
  destruct (gateways !! i); [| reflexivity].
  destruct (round_replies round !! i) as [reply |]; [| reflexivity].
  destruct (pr_status reply) as [status |]; [| reflexivity].
  destruct (Z.ltb_spec (pr_latency reply) 5000), (Z.leb_spec 200 status),
    (Z.ltb_spec status 300); simpl;
    destruct (Z.eqb_spec status 200), (Z.eqb_spec status 206);
    simpl; try reflexivity; lia.
Qed.

Lemma speedTest_spec gateways round i x :
  x ∈ speedTest gateways round i <->
  exists gateway reply,
    gateways !! i = Some gateway /\ round_replies round !! i = Some reply /\
    responsive reply /\
    x = {| sr_gateway := gateway; sr_responseTime := pr_latency reply |}.
Proof.
  rewrite speedTest_responsive.
  destruct (gateways !! i) as [gateway |];
    [| split; [intros H; inversion H | intros (? & ? & [=] & _)]].
  destruct (round_replies round !! i) as [reply |];
    [| split; [intros H; inversion H | intros (? & ? & _ & [=] & _)]].
  destruct (responsiveb reply) eqn:Hr.
  - apply responsiveb_spec in Hr. rewrite list_elem_of_singleton. split.
    + intros ->. eauto 10.
    + intros (? & ? & [= <-] & [= <-] & _ & ->). reflexivity.
  - split; [intros H; inversion H |].
    intros (? & ? & _ & [= <-] & Hresp & _).
    apply responsiveb_spec in Hresp. congruence.
Qed.

Lemma ranking_spec gateways round x :
  Permutation (round_arrival round) (seq 0 (length gateways)) ->
  x ∈ ranking gateways round <->
  exists i gateway reply,
    gateways !! i = Some gateway /\ round_replies round !! i = Some reply /\
    responsive reply /\
    x = {| sr_gateway := gateway; sr_responseTime := pr_latency reply |}.
Proof.
  intros Harrival. unfold ranking. rewrite sort_by_Permutation.
  unfold testResults. rewrite list_elem_of_In, in_flat_map. split.
  - intros (i & _ & Hx). apply list_elem_of_In, speedTest_spec in Hx.
    destruct Hx as (g & r & ?). eauto.
  - intros (i & g & r & Hg & Hrest). exists i. split.
    + apply (Permutation_in _ (Permutation_sym Harrival)), in_seq.
      apply lookup_lt_Some in Hg. lia.
    + apply list_elem_of_In, speedTest_spec. eauto.
Qed.

Lemma permutation_of_three (l : list nat) :
  Permutation l [0; 1; 2]%nat ->
  l ∈ [ [0; 1; 2]; [0; 2; 1]; [1; 0; 2]; [1; 2; 0]; [2; 0; 1]; [2; 1; 0] ]%nat.
Proof.
  intros H. pose proof (Permutation_length H) as Hlen.
  destruct l as [| a [| b [| c [| ? ?]]]]; try discriminate.
  assert (Hnd : NoDup [a; b; c]) by (rewrite H; compute_done).
  assert (Hin : forall x, x ∈ [a; b; c] -> x = 0%nat \/ x = 1%nat \/ x = 2%nat).
  { intros x Hx. rewrite H in Hx.
    rewrite !elem_of_cons, elem_of_nil in Hx. tauto. }
  assert (Ha := Hin a ltac:(rewrite !elem_of_cons; tauto)).
  assert (Hb := Hin b ltac:(rewrite !elem_of_cons; tauto)).
  assert (Hc := Hin c ltac:(rewrite !elem_of_cons; tauto)).
  apply NoDup_cons in Hnd as [Hab Hnd]. apply NoDup_cons in Hnd as [Hbc _].
  apply not_elem_of_cons in Hab as [Hab Hac].
  apply not_elem_of_cons in Hac as [Hac _].
  apply not_elem_of_cons in Hbc as [Hbc _].
  rewrite !elem_of_cons.
  destruct Ha as [-> | [-> | ->]], Hb as [-> | [-> | ->]],
    Hc as [-> | [-> | ->]];
    first [ exfalso; intuition congruence | auto 10 ].
Qed.

(** C7.  When no fresh speed-test record exists, [findFastestGateway]
    probes: a gateway is ranked exactly when its reply is HTTP 200 or 206
    within the 5-second timeout; the ranking is ascending in latency; with
    no responsive gateway the first configured gateway is returned, and
    otherwise the head of the ranking is returned and the ranking is
    persisted.  With A at 300 ms, B at 50 ms and C timing out, B is ranked
    first, A second and C is left out, in whatever order the replies
    arrive. *)
Theorem findFastestGateway_ranks_responsive cfg w round rest :
  fresh_speed_test w = false ->
  net_probes w = round :: rest ->
  Permutation (round_arrival round) (seq 0 (length (IPFS_GATEWAYS cfg))) ->
  (forall x,
     x ∈ ranking (IPFS_GATEWAYS cfg) round <->
     exists i gateway reply,
       IPFS_GATEWAYS cfg !! i = Some gateway /\
       round_replies round !! i = Some reply /\
       responsive reply /\
       x = {| sr_gateway := gateway; sr_responseTime := pr_latency reply |}) /\
  StronglySorted (fun a b => sr_responseTime a <= sr_responseTime b)
    (ranking (IPFS_GATEWAYS cfg) round) /\
  match ranking (IPFS_GATEWAYS cfg) round with
  | [] => fst (findFastestGateway cfg w) = Return (IPFS_GATEWAY_URL cfg)
  | fastest :: others =>
      fst (findFastestGateway cfg w) = Return (sr_gateway fastest) /\
      (st_allResults <$> GATEWAY_SPEED_TEST (storage (snd (findFastestGateway cfg w))))
        = Some (fastest :: others)
  end /\
  (forall arrival,
     Permutation arrival [0; 1; 2]%nat ->
     fst (findFastestGateway abc_config (abc_world arrival)) = Return "B" /\
     (st_allResults <$>
        GATEWAY_SPEED_TEST
          (storage (snd (findFastestGateway abc_config (abc_world arrival)))))
       = Some [ {| sr_gateway := "B"; sr_responseTime := 50 |};
                {| sr_gateway := "A"; sr_responseTime := 300 |} ]).
Proof.
  intros Hstale Hround Harrival. split; [| split; [| split]].
  - intros x. now apply ranking_spec.
  - apply sort_by_sorted.
  - rewrite (findFastestGateway_probes cfg w round rest Hstale Hround).
    cbv zeta. destruct (ranking _ _); [reflexivity | split; reflexivity].
  - intros arrival Hperm. apply permutation_of_three in Hperm.
    rewrite !elem_of_cons, elem_of_nil in Hperm.
    destruct Hperm as [-> | [-> | [-> | [-> | [-> | [-> | []]]]]]];
      vm_compute; split; reflexivity.
Qed.

Lemma findFastestGateway_ranks_responsive_witness :
  fresh_speed_test (abc_world [1; 0; 2]%nat) = false /\
  net_probes (abc_world [1; 0; 2]%nat) = [abc_round [1; 0; 2]%nat] /\
  Permutation [1; 0; 2]%nat (seq 0 (length (IPFS_GATEWAYS abc_config))) /\
  StronglySorted (fun a b => sr_responseTime a <= sr_responseTime b)
    (ranking (IPFS_GATEWAYS abc_config) (abc_round [1; 0; 2]%nat)).
Proof.
  assert (Hperm : Permutation [1; 0; 2]%nat
                    (seq 0 (length (IPFS_GATEWAYS abc_config))))
    by apply perm_swap.
  split; [reflexivity |]. split; [reflexivity |]. split; [exact Hperm |].
  apply (findFastestGateway_ranks_responsive abc_config
           (abc_world [1; 0; 2]%nat) (abc_round [1; 0; 2]%nat) []
           eq_refl eq_refl Hperm).
Defined.

(** ** Cache hits *)

(** C1 (as amended).  When the cache holds a non-empty blob for the cid,
    [downloadFromFilecoin] with [skipCache = false] returns exactly that
    blob, reports 5 and then 100, and changes nothing else: no request is
    issued and no scripted reply is consumed. *)
Theorem downloadFromFilecoin_cache_hit cfg cid data w :
  FILE_CACHE (storage w) !! cid = Some data ->
  data <> "" ->
  downloadFromFilecoin cfg cid false w
    = (Return data, set_progress (progress w ++ [JNum 5; JNum 100]) w) /\
  netlog (snd (downloadFromFilecoin cfg cid false w)) = netlog w /\
  last (progress (snd (downloadFromFilecoin cfg cid false w))) = Some (JNum 100).
Proof.
  intros Hhit Hne.
  assert (E : downloadFromFilecoin cfg cid false w
              = (Return data, set_progress (progress w ++ [JNum 5; JNum 100]) w)).
  { unfold downloadFromFilecoin, try_catch, bind, onProgress, getItem. simpl.
    rewrite Hhit. unfold truthy.
    destruct (String.eqb_spec data ""); [contradiction |]. simpl.
    now rewrite <- app_assoc. }
  rewrite E. split; [reflexivity |]. split; [reflexivity |].
  cbn [snd progress set_progress].
  change [JNum 5; JNum 100] with ([JNum 5] ++ [JNum 100])%list.
  rewrite app_assoc. apply last_snoc.
Qed.

Lemma downloadFromFilecoin_cache_hit_witness :
  FILE_CACHE (storage cached_world) !! "QmA" = Some "QUJD" /\
  "QUJD" <> "" /\
  fst (downloadFromFilecoin default_config "QmA" false cached_world)
    = Return "QUJD" /\
  netlog (snd (downloadFromFilecoin default_config "QmA" false cached_world))
    = netlog cached_world.
Proof.
  split; [reflexivity |]. split; [discriminate |].
  destruct (downloadFromFilecoin_cache_hit default_config "QmA" "QUJD"
              cached_world eq_refl ltac:(discriminate)) as (E & Hlog & _).
  split; [now rewrite E | exact Hlog].
Defined.

(** C1, the claim as stated fails: the blob of an empty file is present
    in the cache, yet the fetch goes to the network. *)
Lemma downloadFromFilecoin_empty_blob_refetched :
  FILE_CACHE (storage empty_blob_world) !! "QmEmpty" = Some "" /\
  netlog empty_blob_world = [] /\
  netlog (snd (downloadFromFilecoin default_config "QmEmpty" false empty_blob_world))
    = [NetDownload "https://dweb.link/ipfs/QmEmpty"] /\
  net_downloads (snd (downloadFromFilecoin default_config "QmEmpty" false empty_blob_world))
    = [].
Proof. vm_compute. repeat split. Qed.

(** ** Download attempts *)

Lemma for_each_onProgress {A} (f : A -> jsnum) l w :
  for_each l (fun x => onProgress (f x)) w
  = (Return tt, set_progress (progress w ++ map f l) w).
Proof.
  revert w. induction l as [| x l IH]; intros w; simpl.
  - unfold ret. rewrite app_nil_r. now destruct w.
  - unfold bind, onProgress at 1. rewrite IH. simpl.
    now rewrite <- app_assoc.
Qed.

Lemma downloadAsync_run url path base span d rest w :
  net_downloads w = d :: rest ->
  downloadAsync url path (downloadProgressCallback base span) w =
  let w3 := transferred url base span d rest w in
  match dl_result d with
  | DlReject message => (Throw message, w3)
  | DlNoResult => (Return None, w3)
  | DlDone data =>
      (Return (Some path), set_files (<[path := data]> (files w3)) w3)
  end.
Proof.
  intros Hscript. unfold downloadAsync. rewrite Hscript.
  change (downloadProgressCallback base span)
    with (fun e => onProgress (percent base span e)).
  rewrite for_each_onProgress. reflexivity.
Qed.

Lemma attemptDownload_offline cfg cid path gateway base span promote w :
  net_downloads w = [] ->
  exists e w',
    attemptDownload cfg cid path gateway base span promote w = (Throw e, w') /\
    failed_attempt w w'.
Proof.
  intros Hscript. unfold attemptDownload, bind, downloadAsync.
  rewrite Hscript. eexists _, _. split; [reflexivity |].
  split; try reflexivity. now rewrite Hscript.
Qed.

Lemma attemptDownload_fails cfg cid path gateway base span promote d rest w :
  net_downloads w = d :: rest -> dl_fails d ->
  exists e w',
    attemptDownload cfg cid path gateway base span promote w = (Throw e, w') /\
    failed_attempt w w'.
Proof.
  intros Hscript Hfails. unfold attemptDownload. cbv zeta. unfold bind at 1.
  rewrite (downloadAsync_run _ _ _ _ _ _ _ Hscript). cbv zeta.
  unfold dl_fails in Hfails. destruct (dl_result d); [| | contradiction].
  - eexists _, _. split; [reflexivity |].
    split; try reflexivity. now rewrite Hscript.
  - eexists _, _. split; [reflexivity |].
    split; try reflexivity. now rewrite Hscript.
Qed.

Lemma cacheTheResult_run cfg cid data gateway promote w :
  exists s,
    cacheTheResult cfg cid data gateway promote w = (Return tt, set_storage s w) /\
    (promote = true -> PREFERRED_GATEWAY s = Some gateway).
Proof.
  unfold cacheTheResult, try_catch, bind at 1, setItem at 1. cbv zeta.
  unfold bind at 1.
  match goal with
  | |- context [trackCachedFile ?cc ?c ?sz ?w1] =>
      destruct (storage_only_trackCachedFile cc c sz w1) as ([] & s & ->)
  end.
  destruct promote.
  - eexists. split; [reflexivity |]. reflexivity.
  - eexists. split; [reflexivity |]. discriminate.
Qed.

Lemma fs_call_ok w : fs_faults w = [] -> fs_call w = (Return tt, w).
Proof. intros H. unfold fs_call. now rewrite H. Qed.

Lemma readAsStringAsync_ok path data w :
  fs_faults w = [] -> files w !! path = Some data ->
  readAsStringAsync path w = (Return data, w).
Proof.
  intros Hfaults Hfile. unfold readAsStringAsync.
  rewrite (bind_Return _ _ _ _ _ (fs_call_ok w Hfaults)). now rewrite Hfile.
Qed.

Lemma deleteAsync_ok path idempotent data w :
  fs_faults w = [] -> files w !! path = Some data ->
  deleteAsync path idempotent w
  = (Return tt, set_files (delete path (files w)) w).
Proof.
  intros Hfaults Hfile. unfold deleteAsync.
  rewrite (bind_Return _ _ _ _ _ (fs_call_ok w Hfaults)). now rewrite Hfile.
Qed.

Lemma attemptDownload_done cfg cid path gateway base span promote d rest data w :
  net_downloads w = d :: rest -> dl_result d = DlDone data ->
  fs_faults w = [] ->
  exists w',
    attemptDownload cfg cid path gateway base span promote w = (Return data, w') /\
    (promote = true -> PREFERRED_GATEWAY (storage w') = Some gateway) /\
    progress w' =
      (progress w ++ map (percent base span) (dl_events d)
         ++ [JNum 90; JNum 100])%list.
Proof.
  intros Hscript Hdone Hfaults. unfold attemptDownload. cbv zeta.
  pose proof (downloadAsync_run (gateway +:+ "/" +:+ cid) path base span
                d rest w Hscript) as E.
  cbv zeta in E. rewrite Hdone in E.
  rewrite (bind_Return _ _ _ _ _ E).
  rewrite (bind_Return (onProgress _) _ _ tt _ eq_refl).
  erewrite (bind_Return (readAsStringAsync path));
    [| apply readAsStringAsync_ok; [exact Hfaults | apply lookup_insert_eq]].
  match goal with
  | |- context [bind (cacheTheResult ?c ?i ?dt ?g ?p) _ ?w1] =>
      destruct (cacheTheResult_run c i dt g p w1) as (s & Ecache & Hpromote);
      rewrite (bind_Return _ _ _ _ _ Ecache)
  end.
  erewrite (bind_Return (deleteAsync path true));
    [| eapply deleteAsync_ok; [exact Hfaults | apply lookup_insert_eq]].
  rewrite (bind_Return (onProgress _) _ _ tt _ eq_refl).
  eexists. split; [reflexivity |]. split; [exact Hpromote |].
  cbn [progress set_progress set_files set_storage transferred tick set_clock].
  now rewrite <- !app_assoc.
Qed.

(** ** The fallback loop *)

Lemma downloadFromFilecoin_miss cfg cid skipCache w :
  cache_miss cid skipCache w ->
  downloadFromFilecoin cfg cid skipCache w
  = fetchFromGateways cfg cid (set_progress (progress w ++ [JNum 5]) w).
Proof.
  intros Hmiss. unfold downloadFromFilecoin.
  rewrite (bind_Return (onProgress _) _ _ tt _ eq_refl).
  destruct Hmiss as [-> | Hfalsy].
  - now rewrite (bind_Return (ret None) _ _ None _ eq_refl).
  - destruct skipCache.
    + now rewrite (bind_Return (ret None) _ _ None _ eq_refl).
    + match goal with
      | |- bind ?m _ ?w0 = _ => assert (E : m w0 = (Return None, w0))
      end.
      { unfold try_catch, bind, getItem.
        cbn [storage set_progress]. unfold truthy_item in Hfalsy.
        destruct (FILE_CACHE (storage w) !! cid); [rewrite Hfalsy |];
          reflexivity. }
      now rewrite (bind_Return _ _ _ _ _ E).
Qed.

Lemma fetchFromGateways_preferred_fails cfg cid w d rest :
  net_downloads w = d :: rest -> dl_fails d ->
  exists w1,
    fetchFromGateways cfg cid w
      = tryGateways cfg cid (cacheDirectory cfg +:+ "ipfs_" +:+ cid)
          (IPFS_GATEWAYS cfg) 0 None w1 /\
    net_downloads w1 = rest /\
    fs_faults w1 = fs_faults w /\
    FILE_CACHE (storage w1) = FILE_CACHE (storage w) /\
    CACHE_INDEX (storage w1) = CACHE_INDEX (storage w) /\
    CACHE_SIZE (storage w1) = CACHE_SIZE (storage w).
Proof.
  intros Hscript Hd. unfold fetchFromGateways. cbv zeta.
  rewrite (bind_Return (onProgress _) _ _ tt _ eq_refl).
  set (w0 := set_progress _ w).
  destruct (getPreferredGateway_frame cfg false w0) as (g & wg & Eg & Hstep).
  destruct Hstep as [_ _ Hdl _ Hff Hfc _ Hci Hcs].
  destruct (attemptDownload_fails cfg cid
              (cacheDirectory cfg +:+ "ipfs_" +:+ cid) g 10 80 false
              d rest wg ltac:(rewrite Hdl; exact Hscript) Hd)
    as (e & w1 & E & [Hs Hf Hff1 Hn]).
  exists w1. split.
  - rewrite (bind_Return _ _ _ None w1); [reflexivity |].
    apply try_catch_Return. rewrite (bind_Return _ _ _ _ _ Eg).
    rewrite (try_catch_Throw _ _ _ e w1); [reflexivity |].
    now apply bind_Throw.
  - subst w0. cbn [net_downloads fs_faults storage set_progress] in *.
    rewrite Hn, Hdl, Hscript, Hff1, Hff, Hs, Hfc, Hci, Hcs. now repeat split.
Qed.







(** ** Exhaustion *)

Lemma tryGateways_exhausted cfg cid path gateways :
  forall i lastError w,
    Forall dl_fails (net_downloads w) ->
    exists w',
      tryGateways cfg cid path gateways i lastError w
        = (Throw exhausted_message, w') /\
      storage w' = storage w.
Proof.
  induction gateways as [| gateway gateways IH]; intros i lastError w Hfails.
  - exists w. split; reflexivity.
  - simpl.
    assert (Hattempt : exists e w1,
              attemptDownload cfg cid path gateway 20 70 true w = (Throw e, w1) /\
              failed_attempt w w1).
    { destruct (net_downloads w) as [| d rest] eqn:Hscript.
      - now apply attemptDownload_offline.
      - apply Forall_cons in Hfails as [Hd _].
        now apply (attemptDownload_fails _ _ _ _ _ _ _ d rest). }
    destruct Hattempt as (e & w1 & E & [Hs Hf Hff Hn]).
    rewrite (try_catch_Throw _ _ _ _ _ E).
    rewrite (bind_Return (onProgress _) _ _ tt _ eq_refl).
    destruct (IH (i + 1) (Some e) (set_progress (progress w1 ++ [JNum (20 + (i + 1) * 3)]) w1))
      as (w' & E' & Hs').
    + cbn [net_downloads set_progress]. rewrite Hn.
      destruct (net_downloads w); [constructor |].
      now apply Forall_cons in Hfails as [_ Hrest].
    + exists w'. split; [exact E' |]. rewrite Hs'. exact Hs.
Qed.

(** C6 (as amended).  When the cache gives nothing and every transfer
    fails, [downloadFromFilecoin] throws the fixed exhaustion message and
    writes nothing to the cache: the blobs, the index and the counter are
    as before. *)
Theorem downloadFromFilecoin_exhausted cfg cid skipCache w :
  cache_miss cid skipCache w ->
  Forall dl_fails (net_downloads w) ->
  fst (downloadFromFilecoin cfg cid skipCache w) = Throw exhausted_message /\
  FILE_CACHE (storage (snd (downloadFromFilecoin cfg cid skipCache w)))
    = FILE_CACHE (storage w) /\
  CACHE_INDEX (storage (snd (downloadFromFilecoin cfg cid skipCache w)))
    = CACHE_INDEX (storage w) /\
  CACHE_SIZE (storage (snd (downloadFromFilecoin cfg cid skipCache w)))
    = CACHE_SIZE (storage w).
Proof.
  intros Hmiss Hfails.
  rewrite (downloadFromFilecoin_miss _ _ _ _ Hmiss).
  set (w0 := set_progress (progress w ++ [JNum 5]) w).
  assert (Hpref : exists w1,
            fetchFromGateways cfg cid w0
              = tryGateways cfg cid (cacheDirectory cfg +:+ "ipfs_" +:+ cid)
                  (IPFS_GATEWAYS cfg) 0 None w1 /\
            Forall dl_fails (net_downloads w1) /\
            FILE_CACHE (storage w1) = FILE_CACHE (storage w) /\
            CACHE_INDEX (storage w1) = CACHE_INDEX (storage w) /\
            CACHE_SIZE (storage w1) = CACHE_SIZE (storage w)).
  { destruct (net_downloads w) as [| d rest] eqn:Hscript.
    - unfold fetchFromGateways. cbv zeta.
      rewrite (bind_Return (onProgress _) _ _ tt _ eq_refl).
      set (w0' := set_progress _ w0).
      destruct (getPreferredGateway_frame cfg false w0')
        as (g & wg & Eg & [_ _ Hdl _ Hff Hfc _ Hci Hcs]).
      destruct (attemptDownload_offline cfg cid
                  (cacheDirectory cfg +:+ "ipfs_" +:+ cid) g 10 80 false wg
                  ltac:(rewrite Hdl; exact Hscript))
        as (e & w1 & E & [Hs Hf Hff1 Hn]).
      exists w1. split.
      + rewrite (bind_Return _ _ _ None w1); [reflexivity |].
        apply try_catch_Return. rewrite (bind_Return _ _ _ _ _ Eg).
        rewrite (try_catch_Throw _ _ _ e w1); [reflexivity |].
        now apply bind_Throw.
      + subst w0' w0. cbn [net_downloads fs_faults storage set_progress] in *.
        rewrite Hn, Hdl, Hs, Hfc, Hci, Hcs, Hscript. now repeat split.
    - apply Forall_cons in Hfails as [Hd Hrest].
      destruct (fetchFromGateways_preferred_fails cfg cid w0 d rest
                  Hscript Hd) as (w1 & E & Hn & _ & Hfc & Hci & Hcs).
      exists w1. rewrite Hn. now repeat split. }
  destruct Hpref as (w1 & -> & Hfails1 & Hfc & Hci & Hcs).
  destruct (tryGateways_exhausted cfg cid
              (cacheDirectory cfg +:+ "ipfs_" +:+ cid) (IPFS_GATEWAYS cfg)
              0 None w1 Hfails1) as (w' & -> & Hs).
  cbn [fst snd]. rewrite Hs. now repeat split.
Qed.

Lemma downloadFromFilecoin_exhausted_witness :
  fst (downloadFromFilecoin default_config "QmA" false
         (unreachable_world "timeout of 60000ms exceeded"))
    = Throw exhausted_message /\
  FILE_CACHE
    (storage (snd (downloadFromFilecoin default_config "QmA" false
                     (unreachable_world "timeout of 60000ms exceeded"))))
    = FILE_CACHE (storage (unreachable_world "timeout of 60000ms exceeded")).
Proof.
  destruct (downloadFromFilecoin_exhausted default_config "QmA" false
              (unreachable_world "timeout of 60000ms exceeded"))
    as (Hthrow & Hcache & _).
  - right. reflexivity.
  - simpl. repeat constructor.
  - split; [exact Hthrow | exact Hcache].
Defined.

(** C6, the claim as stated fails: whatever the last gateway error was,
    the error thrown is the same fixed message; the underlying error is
    not part of it. *)
Lemma downloadFromFilecoin_drops_last_error :
  fst (downloadFromFilecoin default_config "QmA" false
         (unreachable_world "timeout of 60000ms exceeded"))
    = Throw "Failed to download from all IPFS gateways. Please try again later."
  /\
  fst (downloadFromFilecoin default_config "QmA" false
         (unreachable_world "Network request failed"))
    = Throw "Failed to download from all IPFS gateways. Please try again later.".
Proof. vm_compute. split; reflexivity. Qed.

(** The hypothesis on the transfers is needed for the second half: an
    attempt can also fail after the file has been cached.  When every
    gateway delivers the file and every deletion of the temporary file
    rejects, all six attempts fail, the same fixed message is thrown, and
    the blob is in the cache. *)
Lemma downloadFromFilecoin_fails_after_caching :
  Forall (fun d => dl_result d = DlDone "QUJD")
    (net_downloads cleanup_fault_world) /\
  FILE_CACHE (storage cleanup_fault_world) !! "QmA" = None /\
  fst (downloadFromFilecoin default_config "QmA" false cleanup_fault_world)
    = Throw exhausted_message /\
  FILE_CACHE
    (storage (snd (downloadFromFilecoin default_config "QmA" false
                     cleanup_fault_world))) !! "QmA" = Some "QUJD" /\
  net_downloads
    (snd (downloadFromFilecoin default_config "QmA" false cleanup_fault_world))
    = [].
Proof.
  split; [repeat constructor |]. vm_compute. repeat split.
Qed.

(** ** Upload and the staging file *)

Lemma axios_post_run url base span u rest w :
  net_uploads w = u :: rest ->
  axios_post url
    (fun progressEvent =>
       let percentCompleted :=
         Math_round_div (fst progressEvent * span) (snd progressEvent) in
       onProgress (js_add base percentCompleted)) w =
  match up_result u with
  | UpReject message => (Throw message, posted url base span u rest w)
  | UpDone data => (Return data, posted url base span u rest w)
  end.
Proof.
  intros Hscript. unfold axios_post. rewrite Hscript. cbv zeta.
  rewrite (for_each_onProgress (upload_percent base span)). reflexivity.
Qed.

(** One [POST]: either it yields a cid and the staging file is gone, or it
    throws and the staging file is still there. *)
Lemma postFile_outcome url path base span noCid staged w :
  fs_faults w = [] -> files w !! path = Some staged ->
  (exists cid w',
     postFile url path base span noCid w = (Return cid, w') /\
     files w' !! path = None /\ fs_faults w' = []) \/
  (exists e w',
     postFile url path base span noCid w = (Throw e, w') /\
     files w' = files w /\ fs_faults w' = []).
Proof.
  intros Hfaults Hfile. unfold postFile.
  destruct (net_uploads w) as [| u rest] eqn:Hscript.
  - right. eexists _, _. split.
    + apply bind_Throw. unfold axios_post. now rewrite Hscript.
    + split; [reflexivity | exact Hfaults].
  - pose proof (axios_post_run url base span u rest w Hscript) as E.
    cbv zeta in E.
    destruct (up_result u) as [message | data].
    + right. eexists _, _. split; [apply bind_Throw; exact E |].
      split; [reflexivity | exact Hfaults].
    + rewrite (bind_Return _ _ _ _ _ E).
      destruct (response_cid data) as [cid |];
        [| right; eexists _, _; split; [reflexivity |];
           split; [reflexivity | exact Hfaults]].
      destruct (truthy cid);
        [| right; eexists _, _; split; [reflexivity |];
           split; [reflexivity | exact Hfaults]].
      left. rewrite (bind_Return (onProgress _) _ _ tt _ eq_refl).
      erewrite (bind_Return (deleteAsync path false));
        [| eapply deleteAsync_ok; [exact Hfaults | exact Hfile]].
      eexists _, _. split; [reflexivity |].
      split; [apply lookup_delete_eq | exact Hfaults].
Qed.

(** X21.  When no FileSystem call rejects, every exit of [uploadToFilecoin]
    removes the staging file. *)
Lemma uploadToFilecoin_cleans_up cfg fileData fileName w :
  fs_faults w = [] ->
  files (snd (uploadToFilecoin cfg fileData fileName w))
    !! (cacheDirectory cfg +:+ fileName) = None.
Proof.
  intros Hfaults. unfold uploadToFilecoin. cbv zeta.
  set (path := cacheDirectory cfg +:+ fileName).
  assert (Hbody : forall (body : Async string) r w',
            body w = (r, w') -> files w' !! path = None ->
            files (snd (try_catch body
                          (fun error => throw ("IPFS upload failed: " +:+ error)) w))
              !! path = None).
  { intros body r w' E Hgone. unfold try_catch. rewrite E.
    now destruct r. }
  set (w1 := set_progress (progress w ++ [JNum 10]) w).
  set (w2 := set_files (<[path := fileData]> (files w1)) w1).
  set (w3 := set_progress (progress w2 ++ [JNum 20]) w2).
  assert (Hf3 : fs_faults w3 = []) by exact Hfaults.
  assert (Hfile3 : files w3 !! path = Some fileData) by apply lookup_insert_eq.
  match goal with
  | |- context [try_catch (postFile ?url path 20 70 ?msg) ?handler] =>
      assert (Hinner : exists r w',
                try_catch (postFile url path 20 70 msg) handler w3 = (r, w') /\
                files w' !! path = None)
  end.
  { destruct (postFile_outcome (IPFS_API_URL cfg +:+ "/add") path 20 70
                "Failed to retrieve CID from upload response" fileData w3
                Hf3 Hfile3)
      as [(cid & w' & E & Hgone & _) | (e & w' & E & Hkept & Hf')].
    - exists (Return cid), w'. split; [now apply try_catch_Return | exact Hgone].
    - rewrite (try_catch_Throw _ _ _ _ _ E).
      assert (Hfile' : files w' !! path = Some fileData) by (now rewrite Hkept).
      assert (Hgive_up : forall w4,
                fs_faults w4 = [] -> files w4 !! path = Some fileData ->
                exists r w5,
                  bind (deleteAsync path false)
                    (fun _ => @throw string
                                ("All IPFS upload attempts failed. Primary error: "
                                   +:+ e)) w4 = (r, w5) /\
                  files w5 !! path = None).
      { intros w4 Hf4 Hfile4. eexists _, _. split.
        - erewrite (bind_Return (deleteAsync path false));
            [reflexivity | eapply deleteAsync_ok; eassumption].
        - apply lookup_delete_eq. }
      destruct (truthy (INFURA_PROJECT_ID cfg) && truthy (INFURA_PROJECT_SECRET cfg)).
      + set (w'' := set_progress (progress w' ++ [JNum 30]) w').
        destruct (postFile_outcome "https://ipfs.infura.io:5001/api/v0/add"
                    path 30 60 "Failed to retrieve CID from Infura response"
                    fileData w'' Hf' Hfile')
          as [(cid & w5 & E5 & Hgone & _) | (e5 & w5 & E5 & Hkept5 & Hf5)].
        * exists (Return cid), w5. split; [| exact Hgone].
          rewrite (bind_Return _ _ _ (Some cid) w5); [reflexivity |].
          apply try_catch_Return.
          rewrite (bind_Return (onProgress _) _ _ tt _ eq_refl).
          now rewrite (bind_Return _ _ _ _ _ E5).
        * destruct (Hgive_up w5 Hf5 ltac:(rewrite Hkept5; exact Hfile'))
            as (r & w6 & E6 & Hgone).
          exists r, w6. split; [| exact Hgone].
          rewrite (bind_Return _ _ _ None w5); [exact E6 |].
          rewrite (try_catch_Throw _ _ _ e5 w5); [reflexivity |].
          rewrite (bind_Return (onProgress _) _ _ tt _ eq_refl).
          now apply bind_Throw.
      + destruct (Hgive_up w' Hf' Hfile') as (r & w6 & E6 & Hgone).
        exists r, w6. split; [| exact Hgone].
        now rewrite (bind_Return (ret None) _ _ None w' eq_refl). }
  destruct Hinner as (r & w' & Einner & Hgone).
  eapply Hbody; [| exact Hgone].
  rewrite (bind_Return (onProgress _) _ _ tt w1 eq_refl).
  erewrite (bind_Return (writeAsStringAsync path fileData) _ _ tt w2).
  2: { unfold writeAsStringAsync.
       now rewrite (bind_Return _ _ _ _ _ (fs_call_ok w1 Hfaults)). }
  erewrite (bind_Return (getInfoAsync path) _ _ tt w2).
  2: { unfold getInfoAsync.
       now rewrite (bind_Return _ _ _ _ _ (fs_call_ok w2 Hfaults)). }
  rewrite (bind_Return (onProgress _) _ _ tt w3 eq_refl).
  exact Einner.
Qed.

(** C9.  When [getInfoAsync] rejects after the staging file has been
    written, [uploadToFilecoin] rethrows from its outer [catch], which has
    no clean-up: the staging file stays, and no upload request was issued. *)
Theorem uploadToFilecoin_leaves_staging_file :
  fst (uploadToFilecoin default_config "QUJD" "report.pdf" getInfo_fault_world)
    = Throw "IPFS upload failed: EIO: i/o error" /\
  files (snd (uploadToFilecoin default_config "QUJD" "report.pdf"
                getInfo_fault_world))
    !! "file:///cache/report.pdf" = Some "QUJD" /\
  netlog (snd (uploadToFilecoin default_config "QUJD" "report.pdf"
                 getInfo_fault_world)) = [].
Proof. vm_compute. repeat split. Qed.

(** ** Progress values *)

Lemma emits_quiet {A} (m : Async A) :
  (forall w, progress (snd (m w)) = progress w /\
             net_downloads (snd (m w)) = net_downloads w) ->
  emits m.
Proof.
  intros H w Hw. destruct (H w) as [Hp Hn]. exists [].
  rewrite app_nil_r, Hn. auto.
Qed.

Lemma emits_ret {A} (a : A) : emits (ret a).
Proof. now apply emits_quiet. Qed.

Lemma emits_throw {A} e : emits (@throw A e).
Proof. now apply emits_quiet. Qed.

Lemma emits_bind {A B} (m : Async A) (k : A -> Async B) :
  emits m -> (forall a, emits (k a)) -> emits (bind m k).
Proof.
  intros Hm Hk w Hw. destruct (Hm w Hw) as (t1 & Hp1 & Ht1 & Hn1).
  unfold bind. destruct (m w) as [[a | e] w1]; simpl in *.
  - destruct (Hk a w1 Hn1) as (t2 & Hp2 & Ht2 & Hn2).
    exists (t1 ++ t2)%list. rewrite Hp2, Hp1, app_assoc.
    split; [reflexivity |]. split; [now apply Forall_app | exact Hn2].
  - exists t1. auto.
Qed.

Lemma emits_try_catch {A} (m : Async A) handler :
  emits m -> (forall e, emits (handler e)) -> emits (try_catch m handler).
Proof.
  intros Hm Hh w Hw. destruct (Hm w Hw) as (t1 & Hp1 & Ht1 & Hn1).
  unfold try_catch. destruct (m w) as [[a | e] w1]; simpl in *.
  - exists t1. auto.
  - destruct (Hh e w1 Hn1) as (t2 & Hp2 & Ht2 & Hn2).
    exists (t1 ++ t2)%list. rewrite Hp2, Hp1, app_assoc.
    split; [reflexivity |]. split; [now apply Forall_app | exact Hn2].
Qed.

Lemma emits_onProgress z : 5 <= z <= 100 -> emits (onProgress (JNum z)).
Proof.
  intros Hz w Hw. exists [JNum z]. simpl.
  split; [reflexivity |]. split; [| exact Hw].
  constructor; [| constructor]. now exists z.
Qed.

Lemma emits_storage_framed {A} (m : Async A) : storage_framed m -> emits m.
Proof.
  intros Hm. apply emits_quiet. intros w.
  destruct (Hm w) as (r & s & ->). now split.
Qed.

Lemma emits_fs_call : emits fs_call.
Proof.
  apply emits_quiet. intros w. unfold fs_call.
  destruct (fs_faults w) as [| [message |] rest]; now split.
Qed.

Lemma emits_readAsStringAsync path : emits (readAsStringAsync path).
Proof.
  unfold readAsStringAsync. apply emits_bind; [apply emits_fs_call |].
  intros _. apply emits_quiet. intros w.
  destruct (files w !! path); now split.
Qed.

Lemma emits_deleteAsync path idempotent : emits (deleteAsync path idempotent).
Proof.
  unfold deleteAsync. apply emits_bind; [apply emits_fs_call |].
  intros _. apply emits_quiet. intros w.
  destruct (files w !! path); [now split |].
  destruct idempotent; now split.
Qed.

Lemma emits_getPreferredGateway cfg forceRefresh :
  emits (getPreferredGateway cfg forceRefresh).
Proof.
  apply emits_quiet. intros w.
  destruct (getPreferredGateway_frame cfg forceRefresh w)
    as (g & w' & -> & [_ Hp Hn _ _ _ _ _ _]).
  now split.
Qed.

Lemma emits_cacheTheResult cfg cid data gateway promote :
  emits (cacheTheResult cfg cid data gateway promote).
Proof.
  apply emits_quiet. intros w.
  destruct (cacheTheResult_run cfg cid data gateway promote w) as (s & -> & _).
  now split.
Qed.

(** The percentage of a well-formed event lies in the window of its
    attempt. *)
Lemma percent_window base span event :
  0 <= span -> event_ok event ->
  exists z, percent base span event = JNum z /\ Z.min base 90 <= z <= 90.
Proof.
  intros Hspan [[Hw Hwe] He]. unfold percent, Math_round_div.
  destruct (Z.eqb_spec (snd event) 0); [lia |]. simpl.
  eexists. split; [reflexivity |].
  assert (base <= (2 * (base * snd event + fst event * span) + snd event)
                  / (2 * snd event))
    by (apply Z.div_le_lower_bound; [lia | nia]).
  lia.
Qed.

Lemma emits_downloadAsync url path base span :
  5 <= base <= 90 -> 0 <= span ->
  emits (downloadAsync url path (downloadProgressCallback base span)).
Proof.
  intros Hbase Hspan w Hw.
  destruct (net_downloads w) as [| d rest] eqn:Hscript.
  - exists []. unfold downloadAsync. rewrite Hscript. simpl.
    rewrite app_nil_r, Hscript. auto.
  - rewrite (downloadAsync_run _ _ _ _ _ _ _ Hscript). cbv zeta.
    apply Forall_cons in Hw as [Hd Hrest].
    exists (map (percent base span) (dl_events d)).
    split; [now destruct (dl_result d) |].
    split; [| now destruct (dl_result d)].
    apply Forall_map. eapply Forall_impl; [exact Hd |].
    intros event Hevent. simpl.
    destruct (percent_window base span event Hspan Hevent) as (z & -> & Hz).
    exists z. split; [reflexivity | lia].
Qed.

Lemma emits_attemptDownload cfg cid path gateway base span promote :
  5 <= base <= 90 -> 0 <= span ->
  emits (attemptDownload cfg cid path gateway base span promote).
Proof.
  intros Hbase Hspan. unfold attemptDownload. cbv zeta.
  apply emits_bind; [now apply emits_downloadAsync | intros result].
  apply emits_bind; [apply emits_onProgress; lia | intros _].
  destruct result as [uri |]; [| apply emits_throw].
  apply emits_bind; [apply emits_readAsStringAsync | intros data].
  apply emits_bind; [apply emits_cacheTheResult | intros _].
  apply emits_bind; [apply emits_deleteAsync | intros _].
  apply emits_bind; [apply emits_onProgress; lia | intros _].
  apply emits_ret.
Qed.

Lemma emits_tryGateways cfg cid path gateways : forall i lastError,
  0 <= i -> i + Z.of_nat (length gateways) <= 26 ->
  emits (tryGateways cfg cid path gateways i lastError).
Proof.
  induction gateways as [| gateway gateways IH]; intros i lastError Hi Hlen;
    simpl in *.
  - apply emits_throw.
  - apply emits_try_catch; [apply emits_attemptDownload; lia | intros e].
    apply emits_bind; [apply emits_onProgress; lia | intros _].
    apply IH; lia.
Qed.

Lemma emits_downloadFromFilecoin cfg cid skipCache :
  (length (IPFS_GATEWAYS cfg) <= 26)%nat ->
  emits (downloadFromFilecoin cfg cid skipCache).
Proof.
  intros Hlen. unfold downloadFromFilecoin.
  apply emits_bind; [apply emits_onProgress; lia | intros _].
  apply emits_bind.
  - destruct skipCache; [apply emits_ret |].
    apply emits_try_catch; [| intros; apply emits_ret].
    apply emits_bind; [now apply emits_quiet | intros [data |]];
      [| apply emits_ret].
    destruct (truthy data); [| apply emits_ret].
    apply emits_bind; [apply emits_onProgress; lia | intros _; apply emits_ret].
  - intros [cachedData |]; [apply emits_ret |].
    unfold fetchFromGateways. cbv zeta.
    apply emits_bind; [apply emits_onProgress; lia | intros _].
    apply emits_bind.
    + apply emits_try_catch; [| intros; apply emits_ret].
      apply emits_bind; [apply emits_getPreferredGateway | intros g].
      apply emits_try_catch; [| intros; apply emits_ret].
      apply emits_bind; [apply emits_attemptDownload; lia | intros data].
      apply emits_ret.
    + intros [data |]; [apply emits_ret |].
      apply emits_tryGateways; lia.
Qed.

Lemma fetchFromGateways_preferred_done cfg cid w d rest data :
  net_downloads w = d :: rest -> dl_result d = DlDone data ->
  fs_faults w = [] ->
  exists w',
    fetchFromGateways cfg cid w = (Return data, w') /\
    progress w' =
      (progress w ++ JNum 10 :: map (percent 10 80) (dl_events d)
         ++ [JNum 90; JNum 100])%list.
Proof.
  intros Hscript Hdone Hfaults. unfold fetchFromGateways. cbv zeta.
  rewrite (bind_Return (onProgress _) _ _ tt _ eq_refl).
  set (w0 := set_progress _ w).
  destruct (getPreferredGateway_frame cfg false w0)
    as (g & wg & Eg & [_ Hp Hdl _ Hff _ _ _ _]).
  destruct (attemptDownload_done cfg cid
              (cacheDirectory cfg +:+ "ipfs_" +:+ cid) g 10 80 false
              d rest data wg ltac:(rewrite Hdl; exact Hscript) Hdone
              ltac:(rewrite Hff; exact Hfaults))
    as (w' & E & _ & Hprogress).
  exists w'. split.
  - rewrite (bind_Return _ _ _ (Some data) w'); [reflexivity |].
    apply try_catch_Return. rewrite (bind_Return _ _ _ _ _ Eg).
    apply try_catch_Return. now rewrite (bind_Return _ _ _ _ _ E).
  - rewrite Hprogress, Hp. subst w0. cbn [progress set_progress].
    now rewrite <- app_assoc.
Qed.

Lemma percent_monotone base span a b :
  0 <= span -> event_ok a -> event_ok b ->
  fst a <= fst b -> snd a = snd b ->
  js_le (percent base span a) (percent base span b).
Proof.
  intros Hspan [_ Ha] [_ Hb] Hab Heq. unfold percent, Math_round_div.
  destruct (Z.eqb_spec (snd a) 0); [lia |].
  destruct (Z.eqb_spec (snd b) 0); [lia |]. simpl.
  apply Z.min_le_compat_r. rewrite <- Heq.
  apply Z.div_le_mono; [lia | nia].
Qed.

Lemma percent_steady base span events :
  0 <= span -> Forall event_ok events -> steady events ->
  StronglySorted js_le (map (percent base span) events).
Proof.
  intros Hspan Hok Hsteady. induction Hsteady as [| a rest Hrest IH Ha];
    simpl; [constructor |].
  apply Forall_cons in Hok as [Hoka Hokrest].
  constructor; [now apply IH |].
  apply Forall_map. rewrite Forall_forall in Ha, Hokrest |- *.
  intros b Hb. destruct (Ha b Hb). simpl.
  apply percent_monotone; auto.
Qed.

Lemma Sorted_app_pair {A} (R : A -> A -> Prop) l1 a b l2 :
  Sorted R (l1 ++ a :: b :: l2) -> R a b.
Proof.
  induction l1 as [| x l1 IH]; simpl; intros H.
  - apply Sorted_inv in H as [_ H]. now inversion H.
  - apply Sorted_inv in H as [H _]. now apply IH.
Qed.

(** C8 (as amended).  As long as the transfers report well-formed events
    and the gateway list has at most 26 entries, every value passed to
    [onProgress] is an integer between 5 and 100.  The sequence is
    non-decreasing when the attempt on the preferred gateway succeeds with
    steady byte counts; nothing of the kind holds once an attempt has
    failed. *)
Theorem downloadFromFilecoin_progress cfg cid skipCache w :
  (length (IPFS_GATEWAYS cfg) <= 26)%nat ->
  Forall events_ok (net_downloads w) ->
  (exists trace,
     progress (snd (downloadFromFilecoin cfg cid skipCache w))
       = (progress w ++ trace)%list /\
     Forall in_range trace) /\
  (forall d rest data,
     cache_miss cid skipCache w -> fs_faults w = [] ->
     net_downloads w = d :: rest -> dl_result d = DlDone data ->
     steady (dl_events d) ->
     exists trace,
       progress (snd (downloadFromFilecoin cfg cid skipCache w))
         = (progress w ++ trace)%list /\
       nondecreasing trace).
Proof.
  intros Hlen Hevents. split.
  - destruct (emits_downloadFromFilecoin cfg cid skipCache Hlen w Hevents)
      as (trace & Hp & Ht & _).
    eauto.
  - intros d rest data Hmiss Hfaults Hscript Hdone Hsteady.
    rewrite (downloadFromFilecoin_miss _ _ _ _ Hmiss).
    destruct (fetchFromGateways_preferred_done cfg cid
                (set_progress (progress w ++ [JNum 5]) w) d rest data
                Hscript Hdone Hfaults) as (w' & -> & Hp).
    exists (JNum 5 :: JNum 10 :: map (percent 10 80) (dl_events d)
              ++ [JNum 90; JNum 100])%list.
    split.
    + cbn [snd]. rewrite Hp. cbn [progress set_progress].
      now rewrite <- app_assoc.
    + rewrite Hscript in Hevents. apply Forall_cons in Hevents as [Hd _].
      assert (Hwin : forall v, v ∈ map (percent 10 80) (dl_events d) ->
                exists z, v = JNum z /\ 10 <= z <= 90).
      { intros v Hv. apply list_elem_of_fmap in Hv as (event & -> & Hin).
        unfold events_ok in Hd. rewrite Forall_forall in Hd.
        destruct (percent_window 10 80 event ltac:(lia) (Hd event Hin))
          as (z & Hz & Hb).
        exists z. split; [exact Hz | lia]. }
      apply StronglySorted_Sorted.
      apply StronglySorted_cons. split.
      { constructor; [simpl; lia |]. apply Forall_app. split.
        - apply Forall_forall. intros v Hv.
          destruct (Hwin v Hv) as (z & -> & Hz). simpl. lia.
        - repeat constructor; simpl; lia. }
      apply StronglySorted_cons. split.
      { apply Forall_app. split.
        - apply Forall_forall. intros v Hv.
          destruct (Hwin v Hv) as (z & -> & Hz). simpl. lia.
        - repeat constructor; simpl; lia. }
      apply StronglySorted_app_2.
      * intros v1 v2 Hv1 Hv2. destruct (Hwin v1 Hv1) as (z & -> & Hz).
        rewrite !elem_of_cons, elem_of_nil in Hv2.
        destruct Hv2 as [-> | [-> | []]]; simpl; lia.
      * now apply percent_steady.
      * repeat constructor; simpl; lia.
Qed.

Lemma downloadFromFilecoin_progress_witness :
  (length (IPFS_GATEWAYS default_config) <= 26)%nat /\
  Forall events_ok (net_downloads retry_world) /\
  exists trace,
    progress (snd (downloadFromFilecoin default_config "QmA" false retry_world))
      = (progress retry_world ++ trace)%list /\
    Forall in_range trace.
Proof.
  assert (Hlen : (length (IPFS_GATEWAYS default_config) <= 26)%nat)
    by (simpl; lia).
  assert (Hevents : Forall events_ok (net_downloads retry_world)).
  { unfold events_ok, event_ok. simpl. repeat constructor; simpl; lia. }
  split; [exact Hlen |]. split; [exact Hevents |].
  apply (downloadFromFilecoin_progress default_config "QmA" false retry_world
           Hlen Hevents).
Defined.

(** C8, the claim as stated fails: the preferred gateway fails after
    reporting 50, the first gateway of the list gets to 90 and fails, and
    the next value reported is 23. *)
Lemma downloadFromFilecoin_progress_drops :
  progress (snd (downloadFromFilecoin default_config "QmA" false retry_world))
    = [ JNum 5; JNum 10; JNum 50; JNum 55; JNum 90; JNum 23; JNum 55;
        JNum 90; JNum 90; JNum 100 ] /\
  ~ nondecreasing
      (progress (snd (downloadFromFilecoin default_config "QmA" false
                        retry_world))).
Proof.
  assert (E : progress (snd (downloadFromFilecoin default_config "QmA" false
                               retry_world))
              = [ JNum 5; JNum 10; JNum 50; JNum 55; JNum 90; JNum 23; JNum 55;
                  JNum 90; JNum 90; JNum 100 ]) by (vm_compute; reflexivity).
  split; [exact E |]. rewrite E. intros Hsorted.
  apply (Sorted_app_pair js_le [JNum 5; JNum 10; JNum 50; JNum 55]
           (JNum 90) (JNum 23)) in Hsorted.
  simpl in Hsorted. lia.
Qed.

(** Without a known length the bound fails as well: a gateway that
    reports [totalBytesExpectedToWrite = -1] makes the callback report a
    negative value. *)
Lemma downloadFromFilecoin_unknown_length :
  progress (snd (downloadFromFilecoin default_config "QmA" false
                   unknown_length_world))
    = [ JNum 5; JNum 10; JNum (-327670); JNum 90; JNum 100 ].
Proof. vm_compute. reflexivity. Qed.

(** * The rest of the service *)

(** ** Unpinning *)

Lemma for_each_skip {A} (l : list A) w :
  for_each l (fun _ => ret tt) w = (Return tt, w).
Proof.
  induction l as [| x l IH]; simpl; [reflexivity |].
  unfold bind, ret at 1. exact IH.
Qed.

(** A pin management call logs one [POST], consumes one scripted reply
    and touches neither the storage nor the files. *)
Lemma axios_post_empty_run url w :
  exists r w',
    axios_post_empty url w = (r, w') /\
    storage w' = storage w /\
    files w' = files w /\
    clock w' = clock w + match net_uploads w with
                         | [] => 0
                         | u :: _ => up_elapsed u
                         end /\
    netlog w' = (netlog w ++ [NetPost url])%list /\
    net_uploads w' = tail (net_uploads w) /\
    (post_fails w -> exists e, r = Throw e).
Proof.
  unfold axios_post_empty, bind, axios_post, post_fails.
  destruct (net_uploads w) as [| u rest] eqn:Hscript.
  - eexists _, _. split; [reflexivity |]. simpl.
    rewrite Hscript, Z.add_0_r. repeat split; eauto.
  - rewrite for_each_skip.
    destruct (up_result u) as [message | data]; eexists _, _;
      (split; [reflexivity |]); simpl; repeat split; eauto.
    intros (message & [=]).
Qed.

Lemma deleteFromFilecoin_run cfg cid w :
  exists w',
    deleteFromFilecoin cfg cid w = (Return true, w') /\
    netlog w' =
      (netlog w ++ [NetPost (IPFS_API_URL cfg +:+ "/pin/rm?arg=" +:+ cid)])%list /\
    storage w' = storage (snd (removeCachedFile cid w)).
Proof.
  destruct (storage_only_removeCachedFile cid w) as ([] & s & Erm).
  rewrite Erm. cbn [snd storage set_storage].
  destruct (axios_post_empty_run
              (IPFS_API_URL cfg +:+ "/pin/rm?arg=" +:+ cid) (set_storage s w))
    as (r & w' & Epost & Hs & _ & _ & Hlog & _).
  exists w'. split; [| split; [exact Hlog | exact Hs]].
  unfold deleteFromFilecoin. apply try_catch_Return.
  rewrite (bind_Return _ _ _ tt (set_storage s w));
    [| now apply try_catch_Return].
  destruct r as [[] | e].
  - apply try_catch_Return. now rewrite (bind_Return _ _ _ _ _ Epost).
  - rewrite (try_catch_Throw _ _ _ e w'); [reflexivity |].
    now apply bind_Throw.
Qed.

(** X1.  [deleteFromFilecoin] answers [true] whatever the pin service replies
    (it never throws); it issues exactly one request, the [POST] to
    [pin/rm] for the cid, and its effect on AsyncStorage is that of
    [removeCachedFile]. *)
Theorem deleteFromFilecoin_always_true cfg cid w :
  fst (deleteFromFilecoin cfg cid w) = Return true /\
  netlog (snd (deleteFromFilecoin cfg cid w)) =
    (netlog w ++ [NetPost (IPFS_API_URL cfg +:+ "/pin/rm?arg=" +:+ cid)])%list /\
  storage (snd (deleteFromFilecoin cfg cid w)) =
    storage (snd (removeCachedFile cid w)).
Proof.
  destruct (deleteFromFilecoin_run cfg cid w) as (w' & -> & Hlog & Hs).
  now repeat split.
Qed.

(** ** Transfers started by a fetch *)

Lemma keeps_downloads_quiet {A} (m : Async A) :
  (forall w, netlog (snd (m w)) = netlog w) -> keeps_downloads m.
Proof. intros H w. unfold downloads_issued. now rewrite H. Qed.

Lemma keeps_downloads_bind {A B} (m : Async A) (k : A -> Async B) :
  keeps_downloads m -> (forall a, keeps_downloads (k a)) ->
  keeps_downloads (bind m k).
Proof.
  intros Hm Hk w. specialize (Hm w). unfold bind.
  destruct (m w) as [[a | e] w1]; simpl in *; [| exact Hm].
  etransitivity; [exact Hm | apply Hk].
Qed.

Lemma keeps_downloads_try_catch {A} (m : Async A) handler :
  keeps_downloads m -> (forall e, keeps_downloads (handler e)) ->
  keeps_downloads (try_catch m handler).
Proof.
  intros Hm Hh w. specialize (Hm w). unfold try_catch.
  destruct (m w) as [[a | e] w1]; simpl in *; [exact Hm |].
  etransitivity; [exact Hm | apply Hh].
Qed.

Lemma starts_download_bind {A B} (m : Async A) (k : A -> Async B) :
  starts_download m -> (forall a, keeps_downloads (k a)) ->
  starts_download (bind m k).
Proof.
  intros Hm Hk w. specialize (Hm w). unfold bind.
  destruct (m w) as [[a | e] w1]; simpl in *; [| exact Hm].
  eapply Nat.lt_le_trans; [exact Hm | apply Hk].
Qed.

Lemma keeps_then_starts {A B} (m : Async A) (k : A -> Async B) :
  keeps_downloads m -> (forall a, starts_download (k a)) ->
  (forall w e w', m w <> (Throw e, w')) ->
  starts_download (bind m k).
Proof.
  intros Hm Hk Hreturns w. specialize (Hm w). unfold bind.
  destruct (m w) as [[a | e] w1] eqn:E; simpl in *.
  - eapply Nat.le_lt_trans; [exact Hm | apply Hk].
  - now destruct (Hreturns w e w1).
Qed.

Lemma starts_download_try_catch {A} (m : Async A) handler :
  starts_download m -> (forall e, keeps_downloads (handler e)) ->
  starts_download (try_catch m handler).
Proof.
  intros Hm Hh w. specialize (Hm w). unfold try_catch.
  destruct (m w) as [[a | e] w1]; simpl in *; [exact Hm |].
  eapply Nat.lt_le_trans; [exact Hm | apply Hh].
Qed.

Lemma starts_keeps {A} (m : Async A) : starts_download m -> keeps_downloads m.
Proof. intros H w. apply Nat.lt_le_incl, H. Qed.

Lemma keeps_downloads_storage_framed {A} (m : Async A) :
  storage_framed m -> keeps_downloads m.
Proof.
  intros Hm. apply keeps_downloads_quiet. intros w.
  now destruct (Hm w) as (r & s & ->).
Qed.

Lemma keeps_downloads_fs_call : keeps_downloads fs_call.
Proof.
  apply keeps_downloads_quiet. intros w. unfold fs_call.
  now destruct (fs_faults w) as [| [message |] rest].
Qed.

Lemma downloads_issued_gets (gateways : list string) (f : string -> string) w :
  downloads_issued (log_call (map (fun g => NetGet (f g)) gateways) w)
  = downloads_issued w.
Proof.
  unfold downloads_issued, log_call. cbn [netlog set_netlog].
  rewrite filter_app, length_app.
  replace (filter is_download (map (fun g => NetGet (f g)) gateways))
    with (@nil NetCall); [simpl; lia |].
  induction gateways as [| g gateways IH]; simpl; [reflexivity | exact IH].
Qed.

Lemma findFastestGateway_downloads cfg w :
  downloads_issued (snd (findFastestGateway cfg w)) = downloads_issued w.
Proof.
  destruct (fresh_speed_test w) eqn:Hfresh.
  - unfold fresh_speed_test in Hfresh.
    unfold findFastestGateway, try_catch, bind, getItem, Date_now.
    destruct (GATEWAY_SPEED_TEST (storage w)); [| discriminate].
    now rewrite Hfresh.
  - destruct (net_probes w) as [| round rest] eqn:Hround.
    + unfold fresh_speed_test in Hfresh.
      unfold findFastestGateway, try_catch, bind, getItem, Date_now,
        runSpeedTests.
      destruct (GATEWAY_SPEED_TEST (storage w)); cbv beta;
        [rewrite Hfresh |]; rewrite Hround; cbn [snd ret sort_by];
        apply (downloads_issued_gets _
                 (fun g => g +:+ "/" +:+ testCid +:+ "/readme")).
    + rewrite (findFastestGateway_probes cfg w round rest Hfresh Hround).
      cbv zeta.
      destruct (ranking _ _); cbn [snd]; unfold probed;
        apply (downloads_issued_gets _
                 (fun g => g +:+ "/" +:+ testCid +:+ "/readme")).
Qed.

Lemma getPreferredGateway_downloads cfg forceRefresh w :
  downloads_issued (snd (getPreferredGateway cfg forceRefresh w))
  = downloads_issued w.
Proof.
  pose proof (findFastestGateway_downloads cfg w) as Hfind.
  destruct (findFastestGateway_frame cfg w) as (g & w' & E & _).
  rewrite E in Hfind. cbn [snd] in Hfind.
  unfold getPreferredGateway, try_catch.
  destruct forceRefresh; [now rewrite E |].
  unfold bind at 1, getItem at 1.
  assert (Hrefresh :
    downloads_issued
      (snd (bind (findFastestGateway cfg)
              (fun fastestGateway =>
                 bind (setItem (set_PREFERRED_GATEWAY (Some fastestGateway)))
                   (fun _ => ret fastestGateway)) w))
    = downloads_issued w).
  { unfold bind at 1. rewrite E. exact Hfind. }
  destruct (PREFERRED_GATEWAY (storage w)) as [stored |].
  - destruct (truthy stored); [reflexivity |].
    destruct (bind (findFastestGateway cfg) _ w) as [[a | e] w1];
      exact Hrefresh.
  - destruct (bind (findFastestGateway cfg) _ w) as [[a | e] w1];
      exact Hrefresh.
Qed.

Lemma starts_download_downloadAsync url path base span :
  starts_download (downloadAsync url path (downloadProgressCallback base span)).
Proof.
  intros w. unfold downloads_issued.
  assert (Hone : forall w0 : World,
            length (filter is_download (netlog w0 ++ [NetDownload url])%list)
            = S (length (filter is_download (netlog w0)))).
  { intros w0. rewrite filter_app, length_app. simpl. lia. }
  destruct (net_downloads w) as [| d rest] eqn:Hscript.
  - unfold downloadAsync. rewrite Hscript. cbn [snd log_call netlog set_netlog].
    rewrite Hone. lia.
  - rewrite (downloadAsync_run _ _ _ _ _ _ _ Hscript). cbv zeta.
    destruct (dl_result d); cbn; rewrite Hone; lia.
Qed.

Lemma starts_download_attemptDownload cfg cid path gateway base span promote :
  starts_download (attemptDownload cfg cid path gateway base span promote).
Proof.
  unfold attemptDownload. cbv zeta.
  apply starts_download_bind; [apply starts_download_downloadAsync |].
  intros result.
  apply keeps_downloads_bind; [now apply keeps_downloads_quiet | intros _].
  destruct result as [uri |]; [| now apply keeps_downloads_quiet].
  apply keeps_downloads_bind.
  { unfold readAsStringAsync.
    apply keeps_downloads_bind; [apply keeps_downloads_fs_call | intros _].
    apply keeps_downloads_quiet. intros w. now destruct (files w !! uri). }
  intros data. apply keeps_downloads_bind.
  { apply keeps_downloads_quiet. intros w.
    now destruct (cacheTheResult_run cfg cid data gateway promote w)
      as (s & -> & _). }
  intros _. apply keeps_downloads_bind.
  { unfold deleteAsync.
    apply keeps_downloads_bind; [apply keeps_downloads_fs_call | intros _].
    apply keeps_downloads_quiet. intros w. now destruct (files w !! path). }
  intros _. apply keeps_downloads_bind;
    [now apply keeps_downloads_quiet | intros _; now apply keeps_downloads_quiet].
Qed.

Lemma keeps_downloads_tryGateways cfg cid path gateways : forall i lastError,
  keeps_downloads (tryGateways cfg cid path gateways i lastError).
Proof.
  induction gateways as [| gateway gateways IH]; intros i lastError; simpl.
  - now apply keeps_downloads_quiet.
  - apply keeps_downloads_try_catch.
    + apply starts_keeps, starts_download_attemptDownload.
    + intros e. apply keeps_downloads_bind;
        [now apply keeps_downloads_quiet | intros _; apply IH].
Qed.

Lemma starts_download_fetchFromGateways cfg cid :
  starts_download (fetchFromGateways cfg cid).
Proof.
  unfold fetchFromGateways. cbv zeta.
  apply keeps_then_starts; [now apply keeps_downloads_quiet | | discriminate].
  intros _. apply starts_download_bind.
  - apply starts_download_try_catch;
      [| intros; now apply keeps_downloads_quiet].
    apply keeps_then_starts.
    + intros w. now rewrite getPreferredGateway_downloads.
    + intros g. apply starts_download_try_catch;
        [| intros; now apply keeps_downloads_quiet].
      apply starts_download_bind; [apply starts_download_attemptDownload |].
      intros data. now apply keeps_downloads_quiet.
    + intros w e w' E.
      destruct (getPreferredGateway_frame cfg false w) as (g & w1 & E1 & _).
      congruence.
  - intros [data |]; [now apply keeps_downloads_quiet |].
    apply keeps_downloads_tryGateways.
Qed.

(** X2.  On a cache miss a fetch always starts at least one transfer. *)
Theorem downloadFromFilecoin_miss_starts_download cfg cid skipCache w :
  cache_miss cid skipCache w ->
  (downloads_issued w
   < downloads_issued (snd (downloadFromFilecoin cfg cid skipCache w)))%nat.
Proof.
  intros Hmiss. rewrite (downloadFromFilecoin_miss _ _ _ _ Hmiss).
  apply (starts_download_fetchFromGateways cfg cid
           (set_progress (progress w ++ [JNum 5]) w)).
Qed.

Lemma downloadFromFilecoin_miss_starts_download_witness :
  cache_miss "QmA" false fifth_gateway_world /\
  (downloads_issued fifth_gateway_world
   < downloads_issued
       (snd (downloadFromFilecoin default_config "QmA" false
               fifth_gateway_world)))%nat.
Proof.
  assert (Hmiss : cache_miss "QmA" false fifth_gateway_world)
    by (right; reflexivity).
  split; [exact Hmiss |].
  apply (downloadFromFilecoin_miss_starts_download default_config "QmA" false
           fifth_gateway_world Hmiss).
Defined.

(** X3.  Delete, then fetch: what [deleteFromFilecoin] removed is not served
    from the cache any more; the next fetch of the cid goes to a
    gateway.  The cid is neither [index] nor [size]. *)
Theorem deleteFromFilecoin_then_fetch cfg cid w :
  own_blob_key cid = true ->
  FILE_CACHE (storage (snd (deleteFromFilecoin cfg cid w))) !! cid = None /\
  FILE_STATUS (storage (snd (deleteFromFilecoin cfg cid w))) !! cid = None /\
  obj_get (cache_index (storage (snd (deleteFromFilecoin cfg cid w)))) cid
    = None /\
  (downloads_issued (snd (deleteFromFilecoin cfg cid w))
   < downloads_issued
       (snd (downloadFromFilecoin cfg cid false
               (snd (deleteFromFilecoin cfg cid w)))))%nat.
Proof.
  intros _.
  destruct (deleteFromFilecoin_run cfg cid w) as (w' & -> & _ & Hs).
  cbn [snd].
  assert (Hcache : FILE_CACHE (storage w') !! cid = None).
  { rewrite Hs, removeCachedFile_run. apply lookup_delete_eq. }
  split; [exact Hcache |]. split; [| split].
  - rewrite Hs, removeCachedFile_run. apply lookup_delete_eq.
  - rewrite Hs, removeCachedFile_run. cbn [snd storage set_storage].
    unfold cache_index at 1. cbn [CACHE_INDEX].
    destruct (obj_get (cache_index (storage w)) cid) eqn:Hget; simpl.
    + apply obj_get_delete.
    + exact Hget.
  - rewrite (downloadFromFilecoin_miss cfg cid false w');
      [| right; now rewrite Hcache].
    apply (starts_download_fetchFromGateways cfg cid
             (set_progress (progress w' ++ [JNum 5]) w')).
Qed.

Lemma deleteFromFilecoin_then_fetch_witness :
  FILE_CACHE (storage cached_world) !! "QmA" = Some "QUJD" /\
  FILE_CACHE (storage (snd (deleteFromFilecoin default_config "QmA" cached_world)))
    !! "QmA" = None /\
  (downloads_issued (snd (deleteFromFilecoin default_config "QmA" cached_world))
   < downloads_issued
       (snd (downloadFromFilecoin default_config "QmA" false
               (snd (deleteFromFilecoin default_config "QmA" cached_world)))))%nat.
Proof.
  split; [reflexivity |].
  destruct (deleteFromFilecoin_then_fetch default_config "QmA" cached_world
              eq_refl) as (Hblob & _ & _ & Hfetch).
  split; [exact Hblob | exact Hfetch].
Defined.

(** ** Availability checks *)

Lemma writeStatus_cached cid verdict w :
  status_cached (snd (writeStatus cid verdict w)) cid verdict.
Proof.
  unfold writeStatus, bind, Date_now, setItem.
  cbn [snd storage set_storage FILE_STATUS set_FILE_STATUS clock].
  eexists. split; [apply lookup_insert_eq |]. simpl. split; [reflexivity | lia].
Qed.

Lemma writeStatus_returns cid verdict w :
  fst (writeStatus cid verdict w) = Return tt.
Proof. reflexivity. Qed.

Lemma checkCidStatus_cached_run cfg head cid verdict w :
  status_cached w cid verdict ->
  checkCidStatus cfg head cid false w = (Return verdict, w).
Proof.
  intros (entry & Hentry & Hverdict & Hfresh).
  unfold checkCidStatus.
  rewrite (bind_Return _ _ _ (Some verdict) w); [reflexivity |].
  apply try_catch_Return. unfold bind, getItem, Date_now.
  rewrite Hentry.
  destruct (Z.ltb_spec (clock w - 60 * 60 * 1000) (se_timestamp entry));
    [now rewrite Hverdict | lia].
Qed.

(** X4.  A verdict that is less than one hour old is returned as it is, be it
    positive or negative: no request is issued and nothing changes. *)
Theorem checkCidStatus_cached cfg head cid verdict w :
  status_cached w cid verdict ->
  checkCidStatus cfg head cid false w = (Return verdict, w) /\
  netlog (snd (checkCidStatus cfg head cid false w)) = netlog w.
Proof.
  intros Hcached. rewrite (checkCidStatus_cached_run _ _ _ _ _ Hcached).
  now split.
Qed.

Lemma checkCidStatus_cached_witness :
  status_cached verdict_world "QmA" false /\
  checkCidStatus default_config nothing_found "QmA" false verdict_world
    = (Return false, verdict_world).
Proof.
  assert (Hcached : status_cached verdict_world "QmA" false).
  { eexists. split; [reflexivity |]. split; [reflexivity |]. simpl. lia. }
  split; [exact Hcached |].
  apply (checkCidStatus_cached default_config nothing_found "QmA" false
           verdict_world Hcached).
Defined.

Lemma checkCidStatus_miss cfg head cid skipCache w :
  status_miss cid skipCache w ->
  checkCidStatus cfg head cid skipCache w = checkLive cfg head cid w.
Proof.
  intros Hmiss. unfold checkCidStatus.
  rewrite (bind_Return _ _ _ None w); [reflexivity |].
  destruct skipCache; [reflexivity |].
  destruct Hmiss as [[=] | Hstale].
  apply try_catch_Return. unfold bind, getItem, Date_now.
  destruct (FILE_STATUS (storage w) !! cid) as [entry |]; [| reflexivity].
  destruct (Z.ltb_spec (clock w - 60 * 60 * 1000) (se_timestamp entry));
    [lia | reflexivity].
Qed.

Lemma status_cached_or_miss cid skipCache w :
  (skipCache = false /\ exists verdict, status_cached w cid verdict) \/
  status_miss cid skipCache w.
Proof.
  destruct skipCache; [right; now left |].
  destruct (FILE_STATUS (storage w) !! cid) as [entry |] eqn:Hentry.
  - destruct (Z.lt_ge_cases (clock w - 60 * 60 * 1000) (se_timestamp entry)).
    + left. split; [reflexivity |]. exists (se_status entry), entry. auto.
    + right. right. now rewrite Hentry.
  - right. right. now rewrite Hentry.
Qed.

Lemma headCheck_settles head cid gateway w :
  exists found w1,
    headCheck head cid gateway w = (Return found, w1) /\
    (found = true -> status_cached w1 cid true).
Proof.
  unfold headCheck, try_catch, bind at 1, axios_head.
  destruct (axios_get_resolves 5000 _) as [status |].
  - destruct (status =? 200).
    + eexists true, _. split.
      * unfold bind. rewrite (surjective_pairing (writeStatus cid true _)).
        rewrite writeStatus_returns. reflexivity.
      * intros _. apply writeStatus_cached.
    + eexists false, _. split; [reflexivity | discriminate].
  - eexists false, _. split; [reflexivity | discriminate].
Qed.

Lemma checkGateways_settles head cid gateways : forall w,
  exists found w1,
    checkGateways head cid gateways w = (Return found, w1) /\
    (found = true -> status_cached w1 cid true).
Proof.
  induction gateways as [| gateway gateways IH]; intros w; simpl.
  - exists false, w. split; [reflexivity | discriminate].
  - destruct (headCheck_settles head cid gateway w) as (found & w1 & E & Hfound).
    rewrite (bind_Return _ _ _ _ _ E). destruct found.
    + exists true, w1. split; [reflexivity | exact Hfound].
    + apply IH.
Qed.

Lemma checkLive_settles cfg head cid w :
  exists verdict w1,
    checkLive cfg head cid w = (Return verdict, w1) /\
    status_cached w1 cid verdict.
Proof.
  unfold checkLive.
  assert (Hlocal : exists found w1,
            try_catch
              (bind (getItem (fun s => FILE_CACHE s !! cid))
                 (fun cachedData =>
                    match cachedData with
                    | Some data =>
                        if truthy data
                        then bind (writeStatus cid true) (fun _ => ret true)
                        else ret false
                    | None => ret false
                    end))
              (fun _ => ret false) w = (Return found, w1) /\
            (found = true -> status_cached w1 cid true) /\
            (found = false -> w1 = w)).
  { unfold try_catch, bind at 1, getItem.
    destruct (FILE_CACHE (storage w) !! cid) as [data |];
      [| exists false, w; repeat split; discriminate].
    destruct (truthy data);
      [| exists false, w; repeat split; discriminate].
    eexists true, _. split; [reflexivity |].
    split; [intros _; apply writeStatus_cached | discriminate]. }
  destruct Hlocal as (found & w1 & Elocal & Hfound & Hsame).
  destruct found.
  { exists true, w1. split; [| now apply Hfound].
    apply try_catch_Return. now rewrite (bind_Return _ _ _ _ _ Elocal). }
  specialize (Hsame eq_refl). subst w1.
  destruct (getPreferredGateway_frame cfg false w) as (g & wg & Eg & _).
  destruct (headCheck_settles head cid g wg) as (onPreferred & w2 & Ehead & Hpref).
  assert (Epref :
    try_catch
      (bind (getPreferredGateway cfg false) (fun g => headCheck head cid g))
      (fun _ => ret false) w = (Return onPreferred, w2)).
  { apply try_catch_Return. now rewrite (bind_Return _ _ _ _ _ Eg). }
  destruct onPreferred.
  { exists true, w2. split; [| now apply Hpref].
    apply try_catch_Return. rewrite (bind_Return _ _ _ _ _ Elocal).
    now rewrite (bind_Return _ _ _ _ _ Epref). }
  destruct (axios_post_empty_run (IPFS_API_URL cfg +:+ "/pin/ls?arg=" +:+ cid) w2)
    as (r & w3 & Epost & _).
  destruct r as [[] | e].
  - eexists true, _. split.
    + apply try_catch_Return. rewrite (bind_Return _ _ _ _ _ Elocal).
      rewrite (bind_Return _ _ _ _ _ Epref).
      apply try_catch_Return. rewrite (bind_Return _ _ _ _ _ Epost).
      unfold bind. rewrite (surjective_pairing (writeStatus cid true w3)).
      rewrite writeStatus_returns. reflexivity.
    + apply writeStatus_cached.
  - destruct (checkGateways_settles head cid (IPFS_GATEWAYS cfg) w3)
      as (found & w4 & Esweep & Hsweep).
    destruct found.
    + exists true, w4. split; [| now apply Hsweep].
      apply try_catch_Return. rewrite (bind_Return _ _ _ _ _ Elocal).
      rewrite (bind_Return _ _ _ _ _ Epref).
      rewrite (try_catch_Throw _ _ _ e w3); [| now apply bind_Throw].
      now rewrite (bind_Return _ _ _ _ _ Esweep).
    + eexists false, _. split.
      * apply try_catch_Return. rewrite (bind_Return _ _ _ _ _ Elocal).
        rewrite (bind_Return _ _ _ _ _ Epref).
        rewrite (try_catch_Throw _ _ _ e w3); [| now apply bind_Throw].
        rewrite (bind_Return _ _ _ _ _ Esweep).
        unfold bind. rewrite (surjective_pairing (writeStatus cid false w4)).
        rewrite writeStatus_returns. reflexivity.
      * apply writeStatus_cached.
Qed.

(** X5.  [checkCidStatus] never throws, and asking again right away is free:
    whatever the first call found, a second call returns the same verdict
    from the status cache, issues no request and changes nothing, even if
    the network would now answer differently. *)
Theorem checkCidStatus_twice cfg head cid skipCache w :
  exists verdict w1,
    checkCidStatus cfg head cid skipCache w = (Return verdict, w1) /\
    forall head', checkCidStatus cfg head' cid false w1 = (Return verdict, w1).
Proof.
  destruct (status_cached_or_miss cid skipCache w)
    as [(-> & verdict & Hcached) | Hmiss].
  - exists verdict, w. split; [now apply checkCidStatus_cached_run |].
    intros head'. now apply checkCidStatus_cached_run.
  - rewrite (checkCidStatus_miss _ _ _ _ _ Hmiss).
    destruct (checkLive_settles cfg head cid w) as (verdict & w1 & E & Hcached).
    exists verdict, w1. split; [exact E |].
    intros head'. now apply checkCidStatus_cached_run.
Qed.

(** X6.  A blob in the local file cache settles the question: the answer is
    [true], the verdict is recorded, and no request is issued. *)
Theorem checkCidStatus_local_blob cfg head cid skipCache data w :
  status_miss cid skipCache w ->
  FILE_CACHE (storage w) !! cid = Some data ->
  data <> "" ->
  checkCidStatus cfg head cid skipCache w
    = (Return true, snd (writeStatus cid true w)) /\
  netlog (snd (checkCidStatus cfg head cid skipCache w)) = netlog w /\
  FILE_STATUS (storage (snd (checkCidStatus cfg head cid skipCache w))) !! cid
    = Some {| se_status := true; se_timestamp := clock w |}.
Proof.
  intros Hmiss Hblob Hne.
  assert (E : checkCidStatus cfg head cid skipCache w
              = (Return true, snd (writeStatus cid true w))).
  { rewrite (checkCidStatus_miss _ _ _ _ _ Hmiss). unfold checkLive.
    apply try_catch_Return.
    rewrite (bind_Return _ _ _ true (snd (writeStatus cid true w)));
      [reflexivity |].
    apply try_catch_Return. unfold bind at 1, getItem. rewrite Hblob.
    unfold truthy. destruct (String.eqb_spec data ""); [contradiction |].
    reflexivity. }
  rewrite E. split; [reflexivity |]. split; [reflexivity |].
  apply lookup_insert_eq.
Qed.

Lemma checkCidStatus_local_blob_witness :
  status_miss "QmA" false cached_world /\
  checkCidStatus default_config nothing_found "QmA" false cached_world
    = (Return true, snd (writeStatus "QmA" true cached_world)).
Proof.
  assert (Hmiss : status_miss "QmA" false cached_world) by (right; exact I).
  split; [exact Hmiss |].
  apply (checkCidStatus_local_blob default_config nothing_found "QmA" false
           "QUJD" cached_world Hmiss eq_refl).
  discriminate.
Defined.

Lemma headCheck_not_found head cid gateway w :
  never_found head ->
  exists w1,
    headCheck head cid gateway w = (Return false, w1) /\
    storage w1 = storage w /\
    net_uploads w1 = net_uploads w /\
    netlog w1 = (netlog w ++ [NetGet (gateway +:+ "/" +:+ cid)])%list.
Proof.
  intros Hnever. unfold headCheck, try_catch, bind, axios_head.
  specialize (Hnever (netlog w) (gateway +:+ "/" +:+ cid)).
  destruct (axios_get_resolves 5000 _) as [status |].
  - destruct (Z.eqb_spec status 200); [congruence |].
    eexists. split; [reflexivity |]. now repeat split.
  - eexists. split; [reflexivity |]. now repeat split.
Qed.

Lemma checkGateways_not_found head cid gateways : forall w,
  never_found head ->
  exists w1,
    checkGateways head cid gateways w = (Return false, w1) /\
    storage w1 = storage w /\
    netlog w1 =
      (netlog w ++ map (fun gateway => NetGet (gateway +:+ "/" +:+ cid)) gateways)%list.
Proof.
  induction gateways as [| gateway gateways IH]; intros w Hnever; simpl.
  - exists w. rewrite app_nil_r. now repeat split.
  - destruct (headCheck_not_found head cid gateway w Hnever)
      as (w1 & E & Hs & _ & Hlog).
    rewrite (bind_Return _ _ _ _ _ E).
    destruct (IH w1 Hnever) as (w2 & E2 & Hs2 & Hlog2).
    exists w2. split; [exact E2 |]. split; [congruence |].
    rewrite Hlog2, Hlog, <- app_assoc. reflexivity.
Qed.

(** X8.  When nothing answers, every configured gateway is asked before giving
    up: with no recent verdict, no local blob, a pin service that fails and
    no gateway answering 200, [checkCidStatus] returns [false], the sweep
    over the whole gateway list is the last thing it did, and the negative
    verdict is recorded. *)
Theorem checkCidStatus_not_found cfg head cid skipCache w :
  status_miss cid skipCache w ->
  truthy_item (FILE_CACHE (storage w) !! cid) = false ->
  never_found head ->
  post_fails w ->
  exists w1 before,
    checkCidStatus cfg head cid skipCache w = (Return false, w1) /\
    netlog w1 =
      (before ++ map (fun gateway => NetGet (gateway +:+ "/" +:+ cid))
                   (IPFS_GATEWAYS cfg))%list /\
    FILE_STATUS (storage w1) !! cid
      = Some {| se_status := false; se_timestamp := clock w1 |}.
Proof.
  intros Hmiss Hblob Hnever Hpost.
  rewrite (checkCidStatus_miss _ _ _ _ _ Hmiss). unfold checkLive.
  assert (Elocal :
    try_catch
      (bind (getItem (fun s => FILE_CACHE s !! cid))
         (fun cachedData =>
            match cachedData with
            | Some data =>
                if truthy data
                then bind (writeStatus cid true) (fun _ => ret true)
                else ret false
            | None => ret false
            end))
      (fun _ => ret false) w = (Return false, w)).
  { unfold try_catch, bind at 1, getItem. unfold truthy_item in Hblob.
    destruct (FILE_CACHE (storage w) !! cid); [rewrite Hblob |]; reflexivity. }
  destruct (getPreferredGateway_frame cfg false w)
    as (g & wg & Eg & [_ _ _ Hup _ _ _ _ _]).
  destruct (headCheck_not_found head cid g wg Hnever)
    as (w2 & Ehead & _ & Hup2 & _).
  assert (Epref :
    try_catch
      (bind (getPreferredGateway cfg false) (fun g => headCheck head cid g))
      (fun _ => ret false) w = (Return false, w2)).
  { apply try_catch_Return. now rewrite (bind_Return _ _ _ _ _ Eg). }
  destruct (axios_post_empty_run (IPFS_API_URL cfg +:+ "/pin/ls?arg=" +:+ cid) w2)
    as (r & w3 & Epost & _ & _ & _ & _ & _ & Hfails).
  destruct Hfails as (e & ->).
  { unfold post_fails in *. now rewrite Hup2, Hup. }
  destruct (checkGateways_not_found head cid (IPFS_GATEWAYS cfg) w3 Hnever)
    as (w4 & Esweep & _ & Hlog).
  exists (snd (writeStatus cid false w4)), (netlog w3). split; [| split].
  - apply try_catch_Return. rewrite (bind_Return _ _ _ _ _ Elocal).
    rewrite (bind_Return _ _ _ _ _ Epref).
    rewrite (try_catch_Throw _ _ _ e w3); [| now apply bind_Throw].
    rewrite (bind_Return _ _ _ _ _ Esweep).
    unfold bind. rewrite (surjective_pairing (writeStatus cid false w4)).
    rewrite writeStatus_returns. reflexivity.
  - exact Hlog.
  - apply lookup_insert_eq.
Qed.

Lemma checkCidStatus_not_found_witness :
  exists w1 before,
    checkCidStatus default_config nothing_found "QmA" false offline_world
      = (Return false, w1) /\
    netlog w1 =
      (before ++ map (fun gateway => NetGet (gateway +:+ "/" +:+ "QmA"))
                   (IPFS_GATEWAYS default_config))%list /\
    FILE_STATUS (storage w1) !! "QmA"
      = Some {| se_status := false; se_timestamp := clock w1 |}.
Proof.
  apply (checkCidStatus_not_found default_config nothing_found "QmA" false
           offline_world).
  - right. exact I.
  - reflexivity.
  - intros log url. discriminate.
  - exact I.
Defined.

Lemma getPreferredGateway_stored_run cfg gateway w :
  PREFERRED_GATEWAY (storage w) = Some gateway -> gateway <> "" ->
  getPreferredGateway cfg false w = (Return gateway, w).
Proof.
  intros Hp Hne.
  unfold getPreferredGateway, try_catch, bind, getItem. rewrite Hp.
  unfold truthy. destruct (String.eqb_spec gateway ""); [contradiction |].
  reflexivity.
Qed.

(** X7.  With no recent verdict and no local blob, a stored preferred gateway
    that answers 200 settles the question after a single [HEAD] request:
    the answer is [true], the pin service is not asked, and the verdict is
    recorded. *)
Theorem checkCidStatus_preferred_gateway cfg head cid skipCache gateway w :
  status_miss cid skipCache w ->
  truthy_item (FILE_CACHE (storage w) !! cid) = false ->
  PREFERRED_GATEWAY (storage w) = Some gateway ->
  gateway <> "" ->
  axios_get_resolves 5000 (head (netlog w) (gateway +:+ "/" +:+ cid))
    = Some 200 ->
  exists w1,
    checkCidStatus cfg head cid skipCache w = (Return true, w1) /\
    netlog w1 = (netlog w ++ [NetGet (gateway +:+ "/" +:+ cid)])%list /\
    net_uploads w1 = net_uploads w /\
    status_cached w1 cid true.
Proof.
  intros Hmiss Hblob Hp Hne H200.
  rewrite (checkCidStatus_miss _ _ _ _ _ Hmiss). unfold checkLive.
  assert (Elocal :
    try_catch
      (bind (getItem (fun s => FILE_CACHE s !! cid))
         (fun cachedData =>
            match cachedData with
            | Some data =>
                if truthy data
                then bind (writeStatus cid true) (fun _ => ret true)
                else ret false
            | None => ret false
            end))
      (fun _ => ret false) w = (Return false, w)).
  { unfold try_catch, bind at 1, getItem. unfold truthy_item in Hblob.
    destruct (FILE_CACHE (storage w) !! cid); [rewrite Hblob |]; reflexivity. }
  set (w0 := tick (Z.min (pr_latency (head (netlog w) (gateway +:+ "/" +:+ cid)))
                     5000)
               (log_call [NetGet (gateway +:+ "/" +:+ cid)] w)).
  assert (Ehead : headCheck head cid gateway w
                  = (Return true, snd (writeStatus cid true w0))).
  { unfold headCheck. apply try_catch_Return.
    rewrite (bind_Return _ _ _ 200 w0).
    - reflexivity.
    - unfold axios_head. cbv zeta. now rewrite H200. }
  exists (snd (writeStatus cid true w0)). split; [| split; [| split]].
  - apply try_catch_Return. rewrite (bind_Return _ _ _ _ _ Elocal).
    rewrite (bind_Return _ _ _ true (snd (writeStatus cid true w0)));
      [reflexivity |].
    apply try_catch_Return.
    now rewrite (bind_Return _ _ _ _ _
                   (getPreferredGateway_stored_run cfg gateway w Hp Hne)).
  - reflexivity.
  - reflexivity.
  - apply writeStatus_cached.
Qed.

Lemma checkCidStatus_preferred_gateway_witness :
  exists w1,
    checkCidStatus default_config everything_found "QmA" false offline_world
      = (Return true, w1) /\
    netlog w1 = [NetGet "https://dweb.link/ipfs/QmA"].
Proof.
  destruct (checkCidStatus_preferred_gateway default_config everything_found
              "QmA" false "https://dweb.link/ipfs" offline_world
              (or_intror I) eq_refl eq_refl ltac:(discriminate) eq_refl)
    as (w1 & E & Hlog & _).
  exists w1. split; [exact E | exact Hlog].
Defined.

(** ** More on gateway selection *)

Lemma findFastestGateway_fresh_witness :
  GATEWAY_SPEED_TEST (storage measured_world)
    = Some {| st_timestamp := 1000;
              st_fastestGateway := "https://ipfs.fleek.co/ipfs";
              st_allResults := [] |} /\
  findFastestGateway default_config measured_world
    = (Return "https://ipfs.fleek.co/ipfs", measured_world).
Proof.
  split; [reflexivity |].
  apply (findFastestGateway_fresh default_config
           {| st_timestamp := 1000;
              st_fastestGateway := "https://ipfs.fleek.co/ipfs";
              st_allResults := [] |} measured_world eq_refl);
    [simpl; lia | discriminate].
Defined.

Lemma findFastestGateway_pointer cfg w :
  PREFERRED_GATEWAY (storage (snd (findFastestGateway cfg w)))
  = PREFERRED_GATEWAY (storage w).
Proof.
  destruct (fresh_speed_test w) eqn:Hfresh.
  - unfold fresh_speed_test in Hfresh.
    unfold findFastestGateway, try_catch, bind, getItem, Date_now.
    destruct (GATEWAY_SPEED_TEST (storage w)); [| discriminate].
    now rewrite Hfresh.
  - destruct (net_probes w) as [| round rest] eqn:Hround.
    + unfold fresh_speed_test in Hfresh.
      unfold findFastestGateway, try_catch, bind, getItem, Date_now,
        runSpeedTests.
      destruct (GATEWAY_SPEED_TEST (storage w)); cbv beta;
        [rewrite Hfresh |]; rewrite Hround; reflexivity.
    + rewrite (findFastestGateway_probes cfg w round rest Hfresh Hround).
      cbv zeta. now destruct (ranking _ _).
Qed.

(** X10.  When it probes, [findFastestGateway] answers with one of the
    configured gateways, whatever the network replies. *)
Theorem findFastestGateway_configured cfg w :
  IPFS_GATEWAYS cfg <> [] ->
  fresh_speed_test w = false ->
  exists gateway w',
    findFastestGateway cfg w = (Return gateway, w') /\
    gateway ∈ IPFS_GATEWAYS cfg.
Proof.
  intros Hne Hstale.
  assert (Hdefault : IPFS_GATEWAY_URL cfg ∈ IPFS_GATEWAYS cfg).
  { unfold IPFS_GATEWAY_URL. destruct (IPFS_GATEWAYS cfg); [congruence |].
    apply list_elem_of_here. }
  destruct (net_probes w) as [| round rest] eqn:Hround.
  - exists (IPFS_GATEWAY_URL cfg). eexists. split; [| exact Hdefault].
    unfold fresh_speed_test in Hstale.
    unfold findFastestGateway, try_catch, bind, getItem, Date_now,
      runSpeedTests.
    destruct (GATEWAY_SPEED_TEST (storage w)); cbv beta;
      [rewrite Hstale |]; rewrite Hround; reflexivity.
  - rewrite (findFastestGateway_probes cfg w round rest Hstale Hround).
    cbv zeta.
    destruct (ranking (IPFS_GATEWAYS cfg) round) as [| fastest others] eqn:Hrank.
    + eexists _, _. split; [reflexivity | exact Hdefault].
    + eexists _, _. split; [reflexivity |].
      assert (Hin : fastest ∈ testResults (IPFS_GATEWAYS cfg) round).
      { rewrite <- (sort_by_Permutation sr_responseTime).
        fold (ranking (IPFS_GATEWAYS cfg) round). rewrite Hrank.
        apply list_elem_of_here. }
      unfold testResults in Hin.
      apply list_elem_of_In, in_flat_map in Hin as (i & _ & Hin).
      apply list_elem_of_In, speedTest_spec in Hin
        as (g & reply & Hg & _ & _ & ->).
      simpl. eapply list_elem_of_lookup_2, Hg.
Qed.

Lemma findFastestGateway_configured_witness :
  exists gateway w',
    findFastestGateway default_config pointer_world = (Return gateway, w') /\
    gateway ∈ IPFS_GATEWAYS default_config.
Proof.
  apply (findFastestGateway_configured default_config pointer_world).
  - discriminate.
  - reflexivity.
Defined.

(** X11.  A forced refresh probes but does not store what it found: the
    persisted pointer is as before, so the next ordinary call still
    returns the old gateway. *)
Theorem getPreferredGateway_forced_keeps_pointer cfg stored w :
  PREFERRED_GATEWAY (storage w) = Some stored ->
  stored <> "" ->
  PREFERRED_GATEWAY (storage (snd (getPreferredGateway cfg true w)))
    = Some stored /\
  fst (getPreferredGateway cfg false (snd (getPreferredGateway cfg true w)))
    = Return stored.
Proof.
  intros Hstored Hne.
  assert (Hkept : PREFERRED_GATEWAY
                    (storage (snd (getPreferredGateway cfg true w)))
                  = Some stored).
  { pose proof (findFastestGateway_pointer cfg w) as Hp.
    destruct (findFastestGateway_frame cfg w) as (g & w' & E & _).
    unfold getPreferredGateway, try_catch. rewrite E in *.
    cbn [snd] in *. congruence. }
  split; [exact Hkept |].
  unfold getPreferredGateway at 1. unfold try_catch, bind, getItem.
  rewrite Hkept. unfold truthy.
  destruct (String.eqb_spec stored ""); [contradiction | reflexivity].
Qed.

Lemma getPreferredGateway_forced_keeps_pointer_witness :
  fst (getPreferredGateway default_config true pointer_world)
    = Return "https://gateway.pinata.cloud/ipfs" /\
  PREFERRED_GATEWAY
    (storage (snd (getPreferredGateway default_config true pointer_world)))
    = Some "https://dweb.link/ipfs" /\
  fst (getPreferredGateway default_config false
         (snd (getPreferredGateway default_config true pointer_world)))
    = Return "https://dweb.link/ipfs".
Proof.
  split; [reflexivity |].
  apply (getPreferredGateway_forced_keeps_pointer default_config
           "https://dweb.link/ipfs" pointer_world eq_refl).
  discriminate.
Defined.

(** X12.  An ordinary call never throws, and the gateway it returns is the one
    the next ordinary call returns, without any request. *)
Theorem getPreferredGateway_twice cfg w :
  exists gateway w1,
    getPreferredGateway cfg false w = (Return gateway, w1) /\
    (gateway <> "" ->
     getPreferredGateway cfg false w1 = (Return gateway, w1)).
Proof.
  assert (Hagain : forall gateway (w1 : World),
            PREFERRED_GATEWAY (storage w1) = Some gateway -> gateway <> "" ->
            getPreferredGateway cfg false w1 = (Return gateway, w1)).
  { intros gateway w1 Hp Hne.
    unfold getPreferredGateway, try_catch, bind, getItem. rewrite Hp.
    unfold truthy. destruct (String.eqb_spec gateway ""); [contradiction |].
    reflexivity. }
  destruct (findFastestGateway_frame cfg w) as (g & w' & E & _).
  assert (Hrefresh :
    bind (findFastestGateway cfg)
      (fun fastestGateway =>
         bind (setItem (set_PREFERRED_GATEWAY (Some fastestGateway)))
           (fun _ => ret fastestGateway)) w
    = (Return g, set_storage (set_PREFERRED_GATEWAY (Some g) (storage w')) w')).
  { unfold bind at 1. now rewrite E. }
  destruct (PREFERRED_GATEWAY (storage w)) as [stored |] eqn:Hstored.
  - destruct (truthy stored) eqn:Htruthy.
    + exists stored, w. split; [| now apply Hagain].
      unfold getPreferredGateway, try_catch, bind, getItem.
      now rewrite Hstored, Htruthy.
    + eexists g, _. split.
      * unfold getPreferredGateway, try_catch, bind at 1, getItem at 1.
        rewrite Hstored, Htruthy, Hrefresh. reflexivity.
      * now apply Hagain.
  - eexists g, _. split.
    + unfold getPreferredGateway, try_catch, bind at 1, getItem at 1.
      rewrite Hstored, Hrefresh. reflexivity.
    + now apply Hagain.
Qed.

(** ** More on the cache index *)

Lemma removeCachedFile_index cid w :
  cache_index (storage (snd (removeCachedFile cid w)))
  = obj_delete (cache_index (storage w)) cid.
Proof.
  rewrite removeCachedFile_run. cbn [snd storage set_storage].
  unfold cache_index at 1. cbn [CACHE_INDEX].
  destruct (obj_get (cache_index (storage w)) cid) eqn:Hget; [reflexivity |].
  symmetry. now apply obj_delete_notin, obj_get_None_notin.
Qed.

Lemma obj_get_delete_other {V} (o : list (string * V)) k x :
  x <> k -> obj_get (obj_delete o k) x = obj_get o x.
Proof.
  intros Hne. induction o as [| [k' v] o IH]; simpl; [reflexivity |].
  destruct (String.eqb_spec k' k) as [-> | Hk].
  - destruct (String.eqb_spec k x); [congruence | exact IH].
  - simpl. now rewrite IH.
Qed.

Lemma elem_of_obj_delete {V} (o : list (string * V)) k x :
  x ∈ obj_delete o k <-> x ∈ o /\ fst x <> k.
Proof.
  induction o as [| [k' v] o IH]; simpl.
  - split; [intros H | intros [H _]]; now apply elem_of_nil in H.
  - destruct (String.eqb_spec k' k) as [-> | Hk].
    + rewrite IH, elem_of_cons. split; [tauto |].
      intros [[-> | Hin] Hne]; [now simpl in Hne | tauto].
    + rewrite !elem_of_cons, IH. split; [| tauto].
      intros [-> | [Hin Hne]]; [split; [now left | exact Hk] | tauto].
Qed.

Lemma elem_of_foldl_obj_delete {V} keys : forall (o : list (string * V)) x,
  x ∈ foldl obj_delete o keys <-> x ∈ o /\ fst x ∉ keys.
Proof.
  induction keys as [| k keys IH]; intros o x; simpl.
  - split; [intros H; split; [exact H | apply not_elem_of_nil] | tauto].
  - rewrite IH, elem_of_obj_delete, not_elem_of_cons. tauto.
Qed.

Lemma obj_entry_unique {V} (o : list (string * V)) x y :
  NoDup (obj_keys o) -> x ∈ o -> y ∈ o -> fst x = fst y -> x = y.
Proof.
  induction o as [| [k v] o IH]; simpl; intros Hnd Hx Hy Heq.
  - now apply elem_of_nil in Hx.
  - apply NoDup_cons in Hnd as [Hk Hnd].
    apply elem_of_cons in Hx as [-> | Hx], Hy as [-> | Hy].
    + reflexivity.
    + exfalso. apply Hk. simpl in Heq. rewrite Heq.
      apply list_elem_of_fmap. now exists y.
    + exfalso. apply Hk. simpl in Heq. rewrite <- Heq.
      apply list_elem_of_fmap. now exists x.
    + now apply IH.
Qed.

(** The index left by the loop over the excess items. *)
Lemma removeExcess_index entries n : forall i w,
  (i + n <= length entries)%nat ->
  cache_index (storage (snd (removeExcess entries i n w)))
  = foldl obj_delete (cache_index (storage w))
      (map fst (take n (drop i entries))).
Proof.
  induction n as [| n IH]; intros i w Hlen; simpl; [reflexivity |].
  destruct (entries !! i) as [item |] eqn:Hitem.
  2: { apply lookup_ge_None in Hitem. lia. }
  rewrite (drop_S _ _ _ Hitem). simpl.
  unfold bind. rewrite removeCachedFile_run.
  rewrite IH by lia. f_equal.
  pose proof (removeCachedFile_index (fst item) w) as E.
  now rewrite removeCachedFile_run in E.
Qed.

Lemma inserted_cache_ok cid size (w : World) :
  cid <> "__proto__" ->
  cache_ok (storage w) -> obj_get (cache_index (storage w)) cid = None ->
  0 <= size ->
  cache_ok
    (set_CACHE_SIZE (Some (counter (storage w) + size))
       (set_CACHE_INDEX
          (Some (obj_set (cache_index (storage w)) cid
                   {| ie_size := size; ie_timestamp := clock w |}))
          (storage w))).
Proof.
  intros Hcid [Hk Hs Ht] Hfresh Hsize.
  split; unfold cache_index, counter in *;
    cbn [CACHE_INDEX CACHE_SIZE set_CACHE_SIZE set_CACHE_INDEX from_option];
    unfold id.
  - rewrite obj_set_keys_fresh by assumption.
    apply NoDup_app. split; [exact Hk |]. split.
    + intros x Hx Hx'. apply list_elem_of_singleton in Hx' as ->.
      now apply (obj_get_None_notin _ _ Hfresh).
    + apply NoDup_singleton.
  - now apply obj_set_Forall.
  - rewrite sum_sizes_set_fresh by assumption. simpl. unfold id in *. lia.
Qed.

Lemma removeCachedFile_ordinary_keys cid w :
  ordinary_keys (storage w) ->
  ordinary_keys (storage (snd (removeCachedFile cid w))).
Proof.
  unfold ordinary_keys. rewrite removeCachedFile_index, !Forall_forall.
  intros Hkeys k Hk. apply Hkeys. eapply obj_delete_keys_incl, Hk.
Qed.

Lemma inserted_ordinary_keys cid size (w : World) :
  ordinary_keys (storage w) -> ordinary_cid cid = true ->
  obj_get (cache_index (storage w)) cid = None ->
  ordinary_keys
    (set_CACHE_SIZE (Some (counter (storage w) + size))
       (set_CACHE_INDEX
          (Some (obj_set (cache_index (storage w)) cid
                   {| ie_size := size; ie_timestamp := clock w |}))
          (storage w))).
Proof.
  intros Hkeys Hcid Hfresh. unfold ordinary_keys, cache_index in *.
  cbn [CACHE_INDEX set_CACHE_SIZE set_CACHE_INDEX from_option]. unfold id.
  rewrite obj_set_keys_fresh
    by (try apply ordinary_cid_not_proto; assumption).
  apply Forall_app. split; [exact Hkeys | now repeat constructor].
Qed.

(** X13.  On a cache whose index holds ordinary cids only, the three
    operations of the cache keep it well formed: distinct keys, byte
    counts as sizes, a counter equal to the sum of the sizes, and again
    ordinary cids only.  The cid removed or inserted is an ordinary cid
    (none of [index], [size], [__proto__]), and an insert is that of a cid
    the index does not hold yet. *)
Theorem cache_ok_invariant cc cid size w :
  cache_ok (storage w) ->
  ordinary_keys (storage w) ->
  ordinary_cid cid = true ->
  (cache_ok (storage (snd (removeCachedFile cid w))) /\
   ordinary_keys (storage (snd (removeCachedFile cid w)))) /\
  (cache_ok (storage (snd (cleanCache cc w))) /\
   ordinary_keys (storage (snd (cleanCache cc w)))) /\
  (obj_get (cache_index (storage w)) cid = None -> 0 <= size ->
   cache_ok (storage (snd (trackCachedFile cc cid size w))) /\
   ordinary_keys (storage (snd (trackCachedFile cc cid size w)))).
Proof.
  intros Hok Hkeys Hcid.
  assert (Hclean : forall w0 : World,
            cache_ok (storage w0) /\ ordinary_keys (storage w0) ->
            cache_ok (storage (snd (cleanCache cc w0))) /\
            ordinary_keys (storage (snd (cleanCache cc w0)))).
  { apply (preserves_cleanCache
             (fun s => cache_ok s /\ ordinary_keys s)).
    intros c w0 [Hok0 Hkeys0]. split.
    - now apply removeCachedFile_cache_ok.
    - now apply removeCachedFile_ordinary_keys. }
  split; [| split].
  - split; [now apply removeCachedFile_cache_ok
           | now apply removeCachedFile_ordinary_keys].
  - apply Hclean. now split.
  - intros Hfresh Hsize.
    pose proof (inserted_cache_ok cid size w
                  (ordinary_cid_not_proto cid Hcid) Hok Hfresh Hsize) as Hins.
    pose proof (inserted_ordinary_keys cid size w Hkeys Hcid Hfresh) as Hord.
    rewrite trackCachedFile_run. cbv zeta.
    destruct (_ <? _); [| now split].
    apply Hclean. now split.
Qed.

Lemma tracked_world_ok : cache_ok (storage tracked_world).
Proof.
  split.
  - compute_done.
  - repeat constructor; simpl; lia.
  - reflexivity.
Qed.

Lemma tracked_world_ordinary : ordinary_keys (storage tracked_world).
Proof. repeat constructor. Qed.

Lemma cache_ok_invariant_witness :
  cache_ok (storage tracked_world) /\
  ordinary_keys (storage tracked_world) /\
  cache_ok (storage (snd (removeCachedFile "QmA" tracked_world))) /\
  cache_ok (storage (snd (cleanCache CACHE_CONFIG tracked_world))) /\
  cache_ok (storage (snd (trackCachedFile CACHE_CONFIG "QmC" 7 tracked_world))).
Proof.
  split; [exact tracked_world_ok |]. split; [exact tracked_world_ordinary |].
  destruct (cache_ok_invariant CACHE_CONFIG "QmA" 0 tracked_world
              tracked_world_ok tracked_world_ordinary eq_refl)
    as ((Hremove & _) & (Hclean & _) & _).
  destruct (cache_ok_invariant CACHE_CONFIG "QmC" 7 tracked_world
              tracked_world_ok tracked_world_ordinary eq_refl)
    as (_ & _ & Htrack).
  split; [exact Hremove |]. split; [exact Hclean |].
  apply Htrack; [reflexivity | lia].
Defined.

Lemma cleanCache_item_count_witness :
  0 <= MAX_CACHE_ITEMS two_items /\
  Z.of_nat (length (cache_index (storage three_inserts))) = 3 /\
  Z.of_nat (length (cache_index
                      (storage (snd (cleanCache two_items three_inserts)))))
    <= MAX_CACHE_ITEMS two_items.
Proof.
  split; [vm_compute; discriminate |]. split; [reflexivity |].
  apply (cleanCache_item_count two_items three_inserts).
  - vm_compute; discriminate.
  - compute_done.
Defined.

(** X18.  Removing a cid twice is removing it once: the second call finds
    nothing to delete and leaves the world as it is.  The cid is neither
    [index] nor [size]. *)
Theorem removeCachedFile_twice cid w :
  own_blob_key cid = true ->
  removeCachedFile cid (snd (removeCachedFile cid w))
  = (Return tt, snd (removeCachedFile cid w)).
Proof.
  intros _.
  rewrite (removeCachedFile_run cid (snd (removeCachedFile cid w))).
  f_equal.
  assert (Hsize : indexed_size (storage (snd (removeCachedFile cid w))) cid = 0).
  { unfold indexed_size. rewrite removeCachedFile_index.
    now rewrite obj_get_delete. }
  assert (Hget : obj_get (cache_index (storage (snd (removeCachedFile cid w))))
                   cid = None).
  { rewrite removeCachedFile_index. apply obj_get_delete. }
  rewrite Hsize, Hget. cbn [Z.ltb Z.compare].
  rewrite removeCachedFile_run. cbn [snd storage set_storage FILE_CACHE
    FILE_STATUS PREFERRED_GATEWAY GATEWAY_SPEED_TEST CACHE_INDEX CACHE_SIZE].
  rewrite !delete_delete_eq.
  destruct w as [s fl ck pr nl np nd nu ff]. unfold set_storage. simpl.
  f_equal. f_equal.
  destruct (CACHE_SIZE s) as [total |]; [| reflexivity].
  now destruct (0 <? indexed_size s cid).
Qed.

Lemma removeCachedFile_twice_witness :
  counter (storage (snd (removeCachedFile "QmA" tracked_world))) = 20 /\
  removeCachedFile "QmA" (snd (removeCachedFile "QmA" tracked_world))
  = (Return tt, snd (removeCachedFile "QmA" tracked_world)).
Proof.
  split; [reflexivity |].
  apply (removeCachedFile_twice "QmA" tracked_world eq_refl).
Defined.

(** X19.  Removing one cid leaves the blob, the status record and the index
    entry of every other cid as they were, and the gateway slots too.
    Neither cid is [index] or [size]. *)
Theorem removeCachedFile_other_cids cid other w :
  own_blob_key cid = true ->
  own_blob_key other = true ->
  other <> cid ->
  FILE_CACHE (storage (snd (removeCachedFile cid w))) !! other
    = FILE_CACHE (storage w) !! other /\
  FILE_STATUS (storage (snd (removeCachedFile cid w))) !! other
    = FILE_STATUS (storage w) !! other /\
  obj_get (cache_index (storage (snd (removeCachedFile cid w)))) other
    = obj_get (cache_index (storage w)) other /\
  PREFERRED_GATEWAY (storage (snd (removeCachedFile cid w)))
    = PREFERRED_GATEWAY (storage w) /\
  GATEWAY_SPEED_TEST (storage (snd (removeCachedFile cid w)))
    = GATEWAY_SPEED_TEST (storage w).
Proof.
  intros _ _ Hne. rewrite removeCachedFile_index.
  rewrite removeCachedFile_run. cbn [snd storage set_storage FILE_CACHE
    FILE_STATUS PREFERRED_GATEWAY GATEWAY_SPEED_TEST].
  split; [now apply lookup_delete_ne |].
  split; [now apply lookup_delete_ne |].
  split; [now apply obj_get_delete_other |].
  split; reflexivity.
Qed.

Lemma removeCachedFile_other_cids_witness :
  "QmB" <> "QmA" /\
  FILE_CACHE (storage (snd (removeCachedFile "QmA" tracked_world))) !! "QmB"
    = Some "BBBB" /\
  obj_get (cache_index (storage (snd (removeCachedFile "QmA" tracked_world))))
    "QmB" = Some {| ie_size := 20; ie_timestamp := 2 |}.
Proof.
  split; [discriminate |].
  destruct (removeCachedFile_other_cids "QmA" "QmB" tracked_world
              eq_refl eq_refl ltac:(discriminate))
    as (Hblob & _ & Hentry & _).
  split; [rewrite Hblob | rewrite Hentry]; reflexivity.
Defined.

(** ** Eviction order *)

(** X15.  Over the item limit, [cleanCache] brings the index down to exactly
    [MAX_CACHE_ITEMS] entries, keeps only entries that were there, and
    evicts oldest first: no evicted entry is more recent than a kept one. *)
Theorem cleanCache_evicts_oldest cc w :
  0 <= MAX_CACHE_ITEMS cc ->
  NoDup (obj_keys (cache_index (storage w))) ->
  MAX_CACHE_ITEMS cc < Z.of_nat (length (cache_index (storage w))) ->
  Z.of_nat (length (cache_index (storage (snd (cleanCache cc w)))))
    = MAX_CACHE_ITEMS cc /\
  forall kept,
    kept ∈ cache_index (storage (snd (cleanCache cc w))) ->
    kept ∈ cache_index (storage w) /\
    forall evicted,
      evicted ∈ cache_index (storage w) ->
      evicted ∉ cache_index (storage (snd (cleanCache cc w))) ->
      ie_timestamp (snd evicted) <= ie_timestamp (snd kept).
Proof.
  intros Hmax Hkeys Hover.
  destruct (CACHE_INDEX (storage w)) as [cacheIndex |] eqn:Hindex.
  2: { unfold cache_index in Hover. rewrite Hindex in Hover. simpl in Hover. lia. }
  assert (Hci : cache_index (storage w) = cacheIndex)
    by (unfold cache_index; now rewrite Hindex).
  rewrite Hci in *.
  set (entries := sort_by (fun e => ie_timestamp (snd e)) cacheIndex).
  assert (Hperm : Permutation entries cacheIndex)
    by apply sort_by_Permutation.
  assert (Hlen : length entries = length cacheIndex)
    by now apply Permutation_length.
  set (n := Z.to_nat (Z.of_nat (length entries) - MAX_CACHE_ITEMS cc)).
  assert (Hrun : cleanCache cc w
                 = (let (r, w') := removeExcess entries 0 n w in
                    match r with
                    | Return a => (Return a, w')
                    | Throw _ => (Return tt, w')
                    end)).
  { unfold cleanCache, try_catch, bind at 1, getItem at 1. rewrite Hindex.
    cbv zeta. fold entries. rewrite Hlen.
    destruct (Z.ltb_spec (MAX_CACHE_ITEMS cc) (Z.of_nat (length cacheIndex)));
      [| lia].
    subst n. rewrite Hlen. reflexivity. }
  assert (Hafter : cache_index (storage (snd (cleanCache cc w)))
                   = foldl obj_delete cacheIndex (map fst (take n entries))).
  { rewrite Hrun.
    pose proof (removeExcess_index entries n 0 w ltac:(subst n; lia)) as E.
    rewrite Hci in E. simpl in E.
    destruct (removeExcess entries 0 n w) as [[[] | e] w']; exact E. }
  assert (Hcount :
    (length (cache_index (storage (snd (removeExcess entries 0 n w)))) + n
     = length (cache_index (storage w)))%nat).
  { apply removeExcess_length.
    - now rewrite Hperm.
    - now rewrite Hci.
    - intros j item _ Hitem. rewrite Hci.
      apply list_elem_of_fmap. exists item. split; [reflexivity |].
      rewrite <- Hperm. eapply list_elem_of_lookup_2, Hitem.
    - subst n. lia. }
  split.
  - rewrite Hrun.
    destruct (removeExcess entries 0 n w) as [[[] | e] w']; cbn [snd] in *;
      rewrite Hci in Hcount; subst n; lia.
  - rewrite Hafter. intros kept Hkept.
    apply elem_of_foldl_obj_delete in Hkept as [Hin Hnot].
    split; [exact Hin |]. intros evicted Hwas Hgone.
    assert (Hsorted : StronglySorted
                        (fun a b : string * IndexEntry =>
                           ie_timestamp (snd a) <= ie_timestamp (snd b))
                        (take n entries ++ drop n entries)).
    { rewrite take_drop. apply sort_by_sorted. }
    apply (StronglySorted_app_1_elem_of _ _ _ _ _ Hsorted).
    + destruct (decide (fst evicted ∈ map fst (take n entries)))
        as [Hthere | Hnotthere].
      * apply list_elem_of_fmap in Hthere as (y & Hfst & Hy).
        assert (Hy' : y ∈ cacheIndex).
        { rewrite <- Hperm. rewrite <- (take_drop n entries).
          apply elem_of_app. now left. }
        now rewrite (obj_entry_unique cacheIndex evicted y Hkeys Hwas Hy' Hfst).
      * exfalso. apply Hgone. apply elem_of_foldl_obj_delete. now split.
    + assert (Hk : kept ∈ (take n entries ++ drop n entries)%list).
      { rewrite take_drop. now rewrite Hperm. }
      apply elem_of_app in Hk as [Hk | Hk]; [| exact Hk].
      exfalso. apply Hnot. apply list_elem_of_fmap. now exists kept.
Qed.

Lemma cleanCache_evicts_oldest_witness :
  cache_index (storage (snd (cleanCache two_items shuffled_world)))
    = [ ("QmNew", {| ie_size := 10; ie_timestamp := 30 |});
        ("QmMid", {| ie_size := 30; ie_timestamp := 20 |}) ] /\
  Z.of_nat (length (cache_index
                      (storage (snd (cleanCache two_items shuffled_world)))))
    = MAX_CACHE_ITEMS two_items.
Proof.
  split; [reflexivity |].
  apply (cleanCache_evicts_oldest two_items shuffled_world).
  - vm_compute; discriminate.
  - compute_done.
  - vm_compute; reflexivity.
Defined.

(** ** The counter under size pressure *)

Lemma removeCachedFile_counter_value cid w :
  counter (storage (snd (removeCachedFile cid w)))
  = if 0 <? indexed_size (storage w) cid
    then Z.max 0 (counter (storage w) - indexed_size (storage w) cid)
    else counter (storage w).
Proof.
  rewrite removeCachedFile_run. cbn [snd storage set_storage].
  unfold counter. cbn [CACHE_SIZE].
  destruct (CACHE_SIZE (storage w)) as [total |]; simpl.
  - now destruct (0 <? indexed_size (storage w) cid).
  - destruct (Z.ltb_spec 0 (indexed_size (storage w) cid)); lia.
Qed.

Lemma removeCachedFile_counter_le bound cid w :
  0 <= bound -> counter (storage w) <= bound ->
  counter (storage (snd (removeCachedFile cid w))) <= bound.
Proof.
  intros Hbound Hc. rewrite removeCachedFile_counter_value.
  destruct (Z.ltb_spec 0 (indexed_size (storage w) cid)); lia.
Qed.

Lemma obj_get_of_elem {V} (o : list (string * V)) x :
  NoDup (obj_keys o) -> x ∈ o -> obj_get o (fst x) = Some (snd x).
Proof.
  induction o as [| [k v] o IH]; simpl; intros Hnd Hx.
  - now apply elem_of_nil in Hx.
  - apply NoDup_cons in Hnd as [Hk Hnd].
    apply elem_of_cons in Hx as [-> | Hx]; simpl.
    + now rewrite String.eqb_refl.
    + destruct (String.eqb_spec k (fst x)) as [-> | Hne]; [| now apply IH].
      exfalso. apply Hk. apply list_elem_of_fmap. now exists x.
Qed.

Lemma removeCachedFile_counter_entry item w :
  cache_ok (storage w) -> item ∈ cache_index (storage w) ->
  counter (storage (snd (removeCachedFile (fst item) w)))
  = counter (storage w) - ie_size (snd item).
Proof.
  intros [Hk Hs Ht] Hitem.
  pose proof (obj_get_of_elem _ _ Hk Hitem) as Hget.
  pose proof (sum_sizes_bound _ _ _ Hs Hget) as Hb.
  rewrite removeCachedFile_counter_value. unfold indexed_size. rewrite Hget.
  destruct (Z.ltb_spec 0 (ie_size (snd item))); lia.
Qed.

(** The loop that frees space stops at 80% of the maximum, or with an
    empty cache. *)
Lemma removeForSize_counter maxSize total entries : forall removed w,
  0 <= maxSize ->
  cache_ok (storage w) ->
  NoDup (map fst entries) ->
  (forall x, x ∈ cache_index (storage w) <-> x ∈ entries) ->
  counter (storage w) = total - removed ->
  5 * counter (storage (snd (removeForSize maxSize total removed entries w)))
    <= 4 * maxSize.
Proof.
  induction entries as [| item rest IH]; intros removed w Hmax Hok Hnd Hsame Hc.
  - simpl. destruct Hok as [_ _ Ht].
    destruct (cache_index (storage w)) as [| x idx].
    + simpl in Ht. lia.
    + exfalso. eapply elem_of_nil, Hsame, list_elem_of_here.
  - simpl.
    set (w1 := snd (removeCachedFile (fst item) w)).
    assert (E : removeCachedFile (fst item) w = (Return tt, w1))
      by (subst w1; now rewrite removeCachedFile_run).
    rewrite (bind_Return _ _ _ _ _ E).
    assert (Hitem : item ∈ cache_index (storage w))
      by (apply Hsame, list_elem_of_here).
    assert (Hc1 : counter (storage w1)
                  = total - (removed + ie_size (snd item))).
    { subst w1. rewrite removeCachedFile_counter_entry by assumption. lia. }
    destruct (Z.leb_spec (5 * (total - (removed + ie_size (snd item))))
                (4 * maxSize)) as [Hdone | Hmore].
    + cbn [snd ret]. lia.
    + apply NoDup_cons in Hnd as [Hfirst Hnd].
      apply IH; try assumption.
      * subst w1. now apply removeCachedFile_cache_ok.
      * intros x. subst w1. rewrite removeCachedFile_index.
        rewrite elem_of_obj_delete, Hsame, elem_of_cons. split.
        -- intros [[-> | Hx] Hne]; [contradiction | exact Hx].
        -- intros Hx. split; [now right |]. intros Heq. apply Hfirst.
           rewrite <- Heq. apply list_elem_of_fmap. now exists x.
Qed.

Lemma cleanCache_counter_bound cc w :
  cache_ok (storage w) ->
  0 <= MAX_CACHE_SIZE cc ->
  Z.of_nat (length (cache_index (storage w))) <= MAX_CACHE_ITEMS cc ->
  counter (storage (snd (cleanCache cc w)))
    <= Z.max (counter (storage w)) 0 /\
  (MAX_CACHE_SIZE cc < counter (storage w) ->
   5 * counter (storage (snd (cleanCache cc w))) <= 4 * MAX_CACHE_SIZE cc).
Proof.
  intros Hok Hmax Hcount. split.
  - apply (preserves_cleanCache
             (fun s => counter s <= Z.max (counter (storage w)) 0)).
    + intros cid w0 Hw0. apply removeCachedFile_counter_le; [lia | exact Hw0].
    + lia.
  - intros Hover.
    destruct (CACHE_INDEX (storage w)) as [cacheIndex |] eqn:Hindex.
    2: { destruct Hok as [_ _ Ht]. unfold cache_index in Ht.
         rewrite Hindex in Ht. simpl in Ht. lia. }
    assert (Hci : cache_index (storage w) = cacheIndex)
      by (unfold cache_index; now rewrite Hindex).
    set (entries := sort_by (fun e => ie_timestamp (snd e)) cacheIndex).
    assert (Hperm : Permutation entries cacheIndex)
      by apply sort_by_Permutation.
    set (w2 := snd (removeForSize (MAX_CACHE_SIZE cc) (counter (storage w)) 0
                      entries w)).
    assert (Hfreed : 5 * counter (storage w2) <= 4 * MAX_CACHE_SIZE cc).
    { subst w2. apply removeForSize_counter; try assumption.
      - rewrite Hperm. rewrite <- Hci. apply (ok_keys _ Hok).
      - intros x. now rewrite Hci, Hperm.
      - lia. }
    assert (Hrun : cleanCache cc w
                   = try_catch
                       (removeExpired (clock w2 - MAX_CACHE_AGE cc) entries)
                       (fun _ => ret tt) w2).
    { unfold cleanCache, try_catch at 1, bind at 1, getItem at 1.
      rewrite Hindex. cbv zeta. fold entries.
      rewrite (Permutation_length Hperm), <- Hci.
      destruct (Z.ltb_spec (MAX_CACHE_ITEMS cc)
                  (Z.of_nat (length (cache_index (storage w))))); [lia |].
      unfold bind at 1, getItem at 1. fold (counter (storage w)).
      destruct (Z.ltb_spec (MAX_CACHE_SIZE cc) (counter (storage w))); [| lia].
      destruct (storage_only_removeForSize (MAX_CACHE_SIZE cc)
                  (counter (storage w)) entries 0 w) as ([] & s & E).
      unfold bind at 1. subst w2. rewrite E. cbn [snd].
      unfold bind at 1, Date_now at 1. reflexivity. }
    rewrite Hrun.
    apply (preserves_try_catch
             (fun s => 5 * counter s <= 4 * MAX_CACHE_SIZE cc));
      [| intros e w0 Hw0; exact Hw0 | exact Hfreed].
    apply preserves_removeExpired.
    intros cid w0 Hw0.
    pose proof (removeCachedFile_counter_le (Z.max (counter (storage w0)) 0)
                  cid w0 ltac:(lia) ltac:(lia)).
    rewrite removeCachedFile_counter_value in *.
    destruct (Z.ltb_spec 0 (indexed_size (storage w0) cid)); lia.
Qed.

(** X16.  As long as the item limit is not reached, tracking a new blob never
    leaves the counter above [MAX_CACHE_SIZE]; when the insert overflows
    the maximum, eviction brings the counter down to 80% of it or less.
    The new cid and the cids of the index are ordinary cids (none of
    [index], [size], [__proto__]). *)
Theorem trackCachedFile_size_bound cc cid size w :
  ordinary_cid cid = true ->
  ordinary_keys (storage w) ->
  cache_ok (storage w) ->
  obj_get (cache_index (storage w)) cid = None ->
  0 <= size ->
  0 <= MAX_CACHE_SIZE cc ->
  Z.of_nat (length (cache_index (storage w))) < MAX_CACHE_ITEMS cc ->
  counter (storage (snd (trackCachedFile cc cid size w))) <= MAX_CACHE_SIZE cc /\
  (MAX_CACHE_SIZE cc < counter (storage w) + size ->
   5 * counter (storage (snd (trackCachedFile cc cid size w)))
     <= 4 * MAX_CACHE_SIZE cc).
Proof.
  intros Hcid%ordinary_cid_not_proto _ Hok Hfresh Hsize Hmax Hcount.
  pose proof (inserted_cache_ok cid size w Hcid Hok Hfresh Hsize) as Hins.
  rewrite trackCachedFile_run. cbv zeta.
  set (inserted := set_storage _ w) in *.
  assert (Hc : counter (storage inserted) = counter (storage w) + size)
    by reflexivity.
  assert (Hlen : Z.of_nat (length (cache_index (storage inserted)))
                 <= MAX_CACHE_ITEMS cc).
  { subst inserted. cbn [storage set_storage]. unfold cache_index at 1.
    cbn [CACHE_INDEX set_CACHE_SIZE set_CACHE_INDEX from_option]. unfold id.
    rewrite <- (length_map fst). change (map fst ?o) with (obj_keys o).
    rewrite obj_set_keys_fresh by assumption.
    rewrite length_app. unfold obj_keys. rewrite length_map. simpl. lia. }
  destruct (Z.ltb_spec (MAX_CACHE_SIZE cc) (counter (storage w) + size))
    as [Hover | Hfits].
  - destruct (cleanCache_counter_bound cc inserted Hins Hmax Hlen)
      as [_ Hfreed].
    specialize (Hfreed ltac:(lia)). split; [lia | intros _; exact Hfreed].
  - cbn [snd]. split; lia.
Qed.

Lemma nearly_full_world_ok : cache_ok (storage nearly_full_world).
Proof.
  split.
  - compute_done.
  - repeat constructor; simpl; lia.
  - reflexivity.
Qed.

Lemma trackCachedFile_size_bound_witness :
  counter (storage nearly_full_world) + 4 = 12 /\
  MAX_CACHE_SIZE ten_bytes = 10 /\
  counter (storage (snd (trackCachedFile ten_bytes "QmC" 4 nearly_full_world)))
    <= MAX_CACHE_SIZE ten_bytes.
Proof.
  split; [reflexivity |]. split; [reflexivity |].
  apply (trackCachedFile_size_bound ten_bytes "QmC" 4 nearly_full_world
           eq_refl ltac:(repeat constructor) nearly_full_world_ok eq_refl);
    vm_compute; [discriminate | discriminate | reflexivity].
Defined.

(** ** A blob that is too large for the cache *)

Lemma removal_keeps_absent cid c w :
  obj_get (cache_index (storage w)) cid = None /\
  FILE_CACHE (storage w) !! cid = None ->
  obj_get (cache_index (storage (snd (removeCachedFile c w)))) cid = None /\
  FILE_CACHE (storage (snd (removeCachedFile c w))) !! cid = None.
Proof.
  intros [Hindex Hblob]. rewrite removeCachedFile_index. split.
  - destruct (String.eqb_spec cid c) as [-> | Hne];
      [apply obj_get_delete | now rewrite obj_get_delete_other].
  - rewrite removeCachedFile_run. cbn [snd storage set_storage FILE_CACHE].
    destruct (decide (c = cid)) as [-> | Hne];
      [apply lookup_delete_eq | now rewrite lookup_delete_ne].
Qed.

(** The loop that frees space cannot stop before an entry of more than
    80% of the maximum is gone. *)
Lemma removeForSize_evicts maxSize total entries : forall removed w item0,
  cache_ok (storage w) ->
  NoDup (map fst entries) ->
  (forall x, x ∈ cache_index (storage w) <-> x ∈ entries) ->
  counter (storage w) = total - removed ->
  item0 ∈ entries ->
  4 * maxSize < 5 * ie_size (snd item0) ->
  obj_get (cache_index
             (storage (snd (removeForSize maxSize total removed entries w))))
    (fst item0) = None /\
  FILE_CACHE (storage (snd (removeForSize maxSize total removed entries w)))
    !! fst item0 = None.
Proof.
  induction entries as [| item rest IH];
    intros removed w item0 Hok Hnd Hsame Hc Hin Hbig.
  - now apply elem_of_nil in Hin.
  - simpl.
    set (w1 := snd (removeCachedFile (fst item) w)).
    assert (E : removeCachedFile (fst item) w = (Return tt, w1))
      by (subst w1; now rewrite removeCachedFile_run).
    rewrite (bind_Return _ _ _ _ _ E).
    assert (Hitem : item ∈ cache_index (storage w))
      by (apply Hsame, list_elem_of_here).
    assert (Hc1 : counter (storage w1)
                  = total - (removed + ie_size (snd item))).
    { subst w1. rewrite removeCachedFile_counter_entry by assumption. lia. }
    assert (Hok1 : cache_ok (storage w1))
      by (subst w1; now apply removeCachedFile_cache_ok).
    apply NoDup_cons in Hnd as [Hfirst Hnd].
    assert (Hsame1 : forall x, x ∈ cache_index (storage w1) <-> x ∈ rest).
    { intros x. subst w1. rewrite removeCachedFile_index.
      rewrite elem_of_obj_delete, Hsame, elem_of_cons. split.
      - intros [[-> | Hx] Hne]; [contradiction | exact Hx].
      - intros Hx. split; [now right |]. intros Heq. apply Hfirst.
        rewrite <- Heq. apply list_elem_of_fmap. now exists x. }
    destruct (String.eqb_spec (fst item) (fst item0)) as [Hkey | Hkey].
    + assert (Hgone : obj_get (cache_index (storage w1)) (fst item0) = None /\
                      FILE_CACHE (storage w1) !! fst item0 = None).
      { subst w1. rewrite <- Hkey, removeCachedFile_index. split.
        - apply obj_get_delete.
        - rewrite removeCachedFile_run.
          cbn [snd storage set_storage FILE_CACHE]. apply lookup_delete_eq. }
      destruct (_ <=? _); [exact Hgone |].
      apply (preserves_removeForSize
               (fun s => obj_get (cache_index s) (fst item0) = None /\
                         FILE_CACHE s !! fst item0 = None));
        [| exact Hgone].
      intros c w0. apply removal_keeps_absent.
    + apply elem_of_cons in Hin as [-> | Hin]; [contradiction |].
      assert (Hstill : item0 ∈ cache_index (storage w1)) by now apply Hsame1.
      pose proof (obj_get_of_elem _ _ (ok_keys _ Hok1) Hstill) as Hget.
      pose proof (sum_sizes_bound _ _ _ (ok_sizes _ Hok1) Hget) as Hb.
      rewrite (ok_total _ Hok1) in Hb.
      destruct (Z.leb_spec (5 * (total - (removed + ie_size (snd item))))
                  (4 * maxSize)) as [Hdone | Hmore]; [lia |].
      now apply IH.
Qed.

(** A blob of more than 80% of [MAX_CACHE_SIZE] does not stay in the
    cache when its insert overflows the maximum: the eviction that
    [trackCachedFile] triggers removes the new entry itself, and its blob
    with it. *)
Lemma trackCachedFile_evicts_oversized cc cid size w :
  cid <> "__proto__" ->
  cache_ok (storage w) ->
  obj_get (cache_index (storage w)) cid = None ->
  Z.of_nat (length (cache_index (storage w))) < MAX_CACHE_ITEMS cc ->
  MAX_CACHE_SIZE cc < counter (storage w) + size ->
  4 * MAX_CACHE_SIZE cc < 5 * size ->
  0 <= size ->
  obj_get (cache_index (storage (snd (trackCachedFile cc cid size w)))) cid
    = None /\
  FILE_CACHE (storage (snd (trackCachedFile cc cid size w))) !! cid = None.
Proof.
  intros Hcid Hok Hfresh Hcount Hover Hbig Hsize.
  pose proof (inserted_cache_ok cid size w Hcid Hok Hfresh Hsize) as Hins.
  rewrite trackCachedFile_run. cbv zeta.
  set (inserted := set_storage _ w) in *.
  set (entry := {| ie_size := size; ie_timestamp := clock w |}).
  set (cacheIndex := obj_set (cache_index (storage w)) cid entry).
  assert (Hindex : CACHE_INDEX (storage inserted) = Some cacheIndex)
    by reflexivity.
  assert (Hci : cache_index (storage inserted) = cacheIndex) by reflexivity.
  assert (Hc : counter (storage inserted) = counter (storage w) + size)
    by reflexivity.
  assert (Hlen : Z.of_nat (length cacheIndex) <= MAX_CACHE_ITEMS cc).
  { subst cacheIndex.
    rewrite <- (length_map fst). change (map fst ?o) with (obj_keys o).
    rewrite obj_set_keys_fresh by assumption.
    rewrite length_app. unfold obj_keys. rewrite length_map. simpl. lia. }
  destruct (Z.ltb_spec (MAX_CACHE_SIZE cc) (counter (storage w) + size));
    [| lia].
  set (entries := sort_by (fun e => ie_timestamp (snd e)) cacheIndex).
  assert (Hperm : Permutation entries cacheIndex)
    by apply sort_by_Permutation.
  set (w2 := snd (removeForSize (MAX_CACHE_SIZE cc) (counter (storage inserted))
                    0 entries inserted)).
  assert (Hnew : (cid, entry) ∈ cacheIndex).
  { subst cacheIndex. clear -Hfresh Hcid.
    induction (cache_index (storage w)) as [| [k v] o IH]; simpl in *.
    - destruct (String.eqb_spec cid "__proto__"); [contradiction |].
      apply list_elem_of_here.
    - destruct (String.eqb k cid); [discriminate |].
      apply list_elem_of_further. now apply IH. }
  assert (Hgone : obj_get (cache_index (storage w2)) cid = None /\
                  FILE_CACHE (storage w2) !! cid = None).
  { subst w2.
    apply (removeForSize_evicts (MAX_CACHE_SIZE cc)
             (counter (storage inserted)) entries 0 inserted (cid, entry)).
    - exact Hins.
    - rewrite Hperm. rewrite <- Hci. apply (ok_keys _ Hins).
    - intros x. now rewrite Hci, Hperm.
    - lia.
    - now rewrite Hperm.
    - exact Hbig. }
  assert (Hrun : cleanCache cc inserted
                 = try_catch
                     (removeExpired (clock w2 - MAX_CACHE_AGE cc) entries)
                     (fun _ => ret tt) w2).
  { unfold cleanCache, try_catch at 1, bind at 1, getItem at 1.
    rewrite Hindex. cbv zeta. fold entries.
    rewrite (Permutation_length Hperm).
    destruct (Z.ltb_spec (MAX_CACHE_ITEMS cc) (Z.of_nat (length cacheIndex)));
      [lia |].
    unfold bind at 1, getItem at 1. fold (counter (storage inserted)).
    destruct (Z.ltb_spec (MAX_CACHE_SIZE cc) (counter (storage inserted)));
      [| lia].
    destruct (storage_only_removeForSize (MAX_CACHE_SIZE cc)
                (counter (storage inserted)) entries 0 inserted)
      as ([] & s & E).
    unfold bind at 1. subst w2. rewrite E. cbn [snd].
    unfold bind at 1, Date_now at 1. reflexivity. }
  rewrite Hrun.
  apply (preserves_try_catch
           (fun s => obj_get (cache_index s) cid = None /\
                     FILE_CACHE s !! cid = None));
    [| intros e w0 Hw0; exact Hw0 | exact Hgone].
  apply preserves_removeExpired.
  intros c w0. apply removal_keeps_absent.
Qed.

Lemma obj_delete_set_fresh {V} (o : list (string * V)) k v :
  k <> "__proto__" ->
  obj_get o k = None -> obj_delete (obj_set o k v) k = o.
Proof.
  intros Hk. induction o as [| [k' v'] o IH]; simpl.
  - intros _. destruct (String.eqb_spec k "__proto__"); [contradiction |].
    simpl. now rewrite String.eqb_refl.
  - destruct (String.eqb_spec k' k) as [-> | Hne]; [discriminate |].
    intros Hget. simpl.
    destruct (String.eqb_spec k' k); [contradiction |]. now rewrite IH.
Qed.

(** X17.  Tracking a new blob and removing it again gives back the index and
    the counter, as long as the insert did not trigger an eviction.  The
    cid is an ordinary cid (none of [index], [size], [__proto__]). *)
Theorem trackCachedFile_then_remove cc cid size w :
  ordinary_cid cid = true ->
  obj_get (cache_index (storage w)) cid = None ->
  0 <= size ->
  0 <= counter (storage w) ->
  counter (storage w) + size <= MAX_CACHE_SIZE cc ->
  cache_index
    (storage (snd (removeCachedFile cid (snd (trackCachedFile cc cid size w)))))
    = cache_index (storage w) /\
  counter
    (storage (snd (removeCachedFile cid (snd (trackCachedFile cc cid size w)))))
    = counter (storage w).
Proof.
  intros Hcid%ordinary_cid_not_proto Hfresh Hsize Hc Hfits.
  rewrite trackCachedFile_run. cbv zeta.
  destruct (Z.ltb_spec (MAX_CACHE_SIZE cc) (counter (storage w) + size));
    [lia |].
  cbn [snd]. set (inserted := set_storage _ w).
  assert (Hidx : cache_index (storage inserted)
                 = obj_set (cache_index (storage w)) cid
                     {| ie_size := size; ie_timestamp := clock w |})
    by reflexivity.
  split.
  - rewrite removeCachedFile_index, Hidx. now apply obj_delete_set_fresh.
  - rewrite removeCachedFile_counter_value. unfold indexed_size.
    rewrite Hidx, obj_get_set by exact Hcid. cbn [ie_size].
    change (counter (storage inserted)) with (counter (storage w) + size).
    destruct (Z.ltb_spec 0 size); lia.
Qed.

Lemma trackCachedFile_then_remove_witness :
  cache_index
    (storage (snd (removeCachedFile "QmC"
                     (snd (trackCachedFile CACHE_CONFIG "QmC" 7 tracked_world)))))
    = cache_index (storage tracked_world) /\
  counter
    (storage (snd (removeCachedFile "QmC"
                     (snd (trackCachedFile CACHE_CONFIG "QmC" 7 tracked_world)))))
    = 30.
Proof.
  apply (trackCachedFile_then_remove CACHE_CONFIG "QmC" 7 tracked_world
           eq_refl eq_refl);
    vm_compute; discriminate.
Defined.

(** ** A fetch fills the cache *)

Lemma cacheTheResult_stores cfg cid data gateway promote w :
  counter (storage w) + Z.of_nat (String.length data) * 3 / 4
    <= MAX_CACHE_SIZE (cache_config cfg) ->
  exists s,
    cacheTheResult cfg cid data gateway promote w = (Return tt, set_storage s w) /\
    FILE_CACHE s !! cid = Some data /\
    counter s = counter (storage w) + Z.of_nat (String.length data) * 3 / 4.
Proof.
  intros Hfits.
  unfold cacheTheResult, try_catch, bind at 1, setItem at 1. cbv zeta.
  unfold bind at 1. rewrite trackCachedFile_run. cbv zeta.
  cbn [storage set_storage clock].
  change (counter (set_FILE_CACHE ?m ?s)) with (counter s).
  destruct (Z.ltb_spec (MAX_CACHE_SIZE (cache_config cfg))
              (counter (storage w) + Z.of_nat (String.length data) * 3 / 4));
    [lia |].
  destruct promote.
  - eexists. split; [reflexivity |]. split; [apply lookup_insert_eq |].
    reflexivity.
  - eexists. split; [reflexivity |]. split; [apply lookup_insert_eq |].
    reflexivity.
Qed.

Lemma attemptDownload_caches cfg cid path gateway base span promote d rest data w :
  net_downloads w = d :: rest -> dl_result d = DlDone data ->
  fs_faults w = [] ->
  counter (storage w) + Z.of_nat (String.length data) * 3 / 4
    <= MAX_CACHE_SIZE (cache_config cfg) ->
  exists w',
    attemptDownload cfg cid path gateway base span promote w = (Return data, w') /\
    FILE_CACHE (storage w') !! cid = Some data /\
    counter (storage w')
      = counter (storage w) + Z.of_nat (String.length data) * 3 / 4 /\
    netlog w' = (netlog w ++ [NetDownload (gateway +:+ "/" +:+ cid)])%list /\
    files w' !! path = None /\
    net_downloads w' = rest.
Proof.
  intros Hscript Hdone Hfaults Hfits. unfold attemptDownload. cbv zeta.
  pose proof (downloadAsync_run (gateway +:+ "/" +:+ cid) path base span
                d rest w Hscript) as E.
  cbv zeta in E. rewrite Hdone in E.
  rewrite (bind_Return _ _ _ _ _ E).
  rewrite (bind_Return (onProgress _) _ _ tt _ eq_refl).
  erewrite (bind_Return (readAsStringAsync path));
    [| apply readAsStringAsync_ok; [exact Hfaults | apply lookup_insert_eq]].
  match goal with
  | |- context [bind (cacheTheResult ?c ?i ?dt ?g ?p) _ ?w1] =>
      destruct (cacheTheResult_stores c i dt g p w1 Hfits)
        as (s & Ecache & Hblob & Hcounter);
      rewrite (bind_Return _ _ _ _ _ Ecache)
  end.
  erewrite (bind_Return (deleteAsync path true));
    [| eapply deleteAsync_ok; [exact Hfaults | apply lookup_insert_eq]].
  rewrite (bind_Return (onProgress _) _ _ tt _ eq_refl).
  eexists. split; [reflexivity |].
  cbn [storage netlog files set_progress set_files set_storage transferred
       tick set_clock set_net_downloads log_call set_netlog].
  split; [exact Hblob |]. split; [exact Hcounter |].
  split; [reflexivity |]. split; [apply lookup_delete_eq | reflexivity].
Qed.

Lemma downloadFromFilecoin_hit_run cfg cid data w :
  FILE_CACHE (storage w) !! cid = Some data -> data <> "" ->
  downloadFromFilecoin cfg cid false w
  = (Return data, set_progress (progress w ++ [JNum 5; JNum 100]) w).
Proof.
  intros Hhit Hne.
  unfold downloadFromFilecoin, try_catch, bind, onProgress, getItem. simpl.
  rewrite Hhit. unfold truthy.
  destruct (String.eqb_spec data ""); [contradiction |]. simpl.
  now rewrite <- app_assoc.
Qed.

(** X20.  A fetch that misses the cache and is served at the first request
    stores the blob, adds three quarters of its length to the counter and
    removes the temporary file; the next fetch of the same cid returns the
    blob from the cache without any request.  When a preferred gateway is
    stored, the one request of the first fetch is the download of the cid
    from that gateway.  The cid is an ordinary cid (none of [index],
    [size], [__proto__]), the data is padded base64 (its length is a
    multiple of 4), and the blob must fit: the counter plus its size may
    not exceed [MAX_CACHE_SIZE]. *)
Theorem downloadFromFilecoin_then_cached cfg cid skipCache w d rest data :
  ordinary_cid cid = true ->
  cache_miss cid skipCache w ->
  net_downloads w = d :: rest -> dl_result d = DlDone data ->
  data <> "" ->
  Z.of_nat (String.length data) mod 4 = 0 ->
  fs_faults w = [] ->
  counter (storage w) + Z.of_nat (String.length data) * 3 / 4
    <= MAX_CACHE_SIZE (cache_config cfg) ->
  exists w1,
    downloadFromFilecoin cfg cid skipCache w = (Return data, w1) /\
    FILE_CACHE (storage w1) !! cid = Some data /\
    counter (storage w1)
      = counter (storage w) + Z.of_nat (String.length data) * 3 / 4 /\
    files w1 !! (cacheDirectory cfg +:+ "ipfs_" +:+ cid) = None /\
    (forall gateway,
       PREFERRED_GATEWAY (storage w) = Some gateway -> gateway <> "" ->
       netlog w1
       = (netlog w ++ [NetDownload (gateway +:+ "/" +:+ cid)])%list) /\
    fst (downloadFromFilecoin cfg cid false w1) = Return data /\
    netlog (snd (downloadFromFilecoin cfg cid false w1)) = netlog w1 /\
    net_downloads (snd (downloadFromFilecoin cfg cid false w1)) = rest.
Proof.
  intros _ Hmiss Hscript Hdone Hne Hpadded Hfaults Hfits.
  rewrite (downloadFromFilecoin_miss cfg cid skipCache w Hmiss).
  unfold fetchFromGateways. cbv zeta.
  rewrite (bind_Return (onProgress _) _ _ tt _ eq_refl).
  set (w0 := set_progress _ (set_progress _ w)).
  destruct (getPreferredGateway_frame cfg false w0)
    as (g & wg & Eg & [_ _ Hdl _ Hff _ _ _ Hsize]).
  assert (Hcounter : counter (storage wg) = counter (storage w))
    by (unfold counter; now rewrite Hsize).
  destruct (attemptDownload_caches cfg cid
              (cacheDirectory cfg +:+ "ipfs_" +:+ cid) g 10 80 false
              d rest data wg ltac:(rewrite Hdl; exact Hscript) Hdone
              ltac:(rewrite Hff; exact Hfaults)
              ltac:(rewrite Hcounter; exact Hfits))
    as (w1 & E & Hblob & Hc1 & Hlog & Htemp & Hrest).
  exists w1. split.
  - rewrite (bind_Return _ _ _ (Some data) w1); [reflexivity |].
    apply try_catch_Return. rewrite (bind_Return _ _ _ _ _ Eg).
    apply try_catch_Return. now rewrite (bind_Return _ _ _ _ _ E).
  - rewrite (downloadFromFilecoin_hit_run cfg cid data w1 Hblob Hne).
    split; [exact Hblob |]. split; [rewrite Hc1, Hcounter; reflexivity |].
    split; [exact Htemp |]. split; [| repeat split; exact Hrest].
    intros gateway Hstored Hgw.
    rewrite (getPreferredGateway_stored_run cfg gateway w0 Hstored Hgw) in Eg.
    injection Eg as <- <-. exact Hlog.
Qed.

Lemma downloadFromFilecoin_then_cached_witness :
  exists w1,
    downloadFromFilecoin default_config "QmA" true served_twice_world
      = (Return "QUJD", w1) /\
    FILE_CACHE (storage w1) !! "QmA" = Some "QUJD" /\
    counter (storage w1) = 3 /\
    netlog (snd (downloadFromFilecoin default_config "QmA" false w1))
      = netlog w1.
Proof.
  destruct (downloadFromFilecoin_then_cached default_config "QmA" true
              served_twice_world
              {| dl_events := [(4, 4)]; dl_result := DlDone "QUJD";
                 dl_elapsed := 100 |}
              [ {| dl_events := [(4, 4)]; dl_result := DlDone "QUJD";
                   dl_elapsed := 100 |} ]
              "QUJD" eq_refl (or_introl eq_refl) eq_refl eq_refl
              ltac:(discriminate) eq_refl eq_refl
              ltac:(vm_compute; discriminate))
    as (w1 & E & Hblob & Hc & _ & _ & _ & Hlog & _).
  exists w1. split; [exact E |]. split; [exact Hblob |].
  split; [exact Hc | exact Hlog].
Defined.

(** ** Upload: which endpoint answers, and what an error says *)

Lemma staging_run path fileData (body : Async string) handler w :
  fs_faults w = [] ->
  try_catch
    (bind (onProgress (JNum 10)) (fun _ =>
     bind (writeAsStringAsync path fileData) (fun _ =>
     bind (getInfoAsync path) (fun _ =>
     bind (onProgress (JNum 20)) (fun _ => body)))))
    handler w
  = try_catch body handler (staged path fileData w).
Proof.
  intros Hfaults. unfold try_catch at 1, staged. cbv zeta.
  set (w1 := set_progress (progress w ++ [JNum 10]) w).
  set (w2 := set_files (<[path := fileData]> (files w1)) w1).
  rewrite (bind_Return (onProgress _) _ _ tt w1 eq_refl).
  rewrite (bind_Return (writeAsStringAsync path fileData) _ _ tt w2).
  2: { unfold writeAsStringAsync.
       now rewrite (bind_Return _ _ _ _ _ (fs_call_ok w1 Hfaults)). }
  rewrite (bind_Return (getInfoAsync path) _ _ tt w2).
  2: { unfold getInfoAsync.
       now rewrite (bind_Return _ _ _ _ _ (fs_call_ok w2 Hfaults)). }
  rewrite (bind_Return (onProgress _) _ _ tt _ eq_refl).
  reflexivity.
Qed.

Lemma postFile_rejects url path base span noCid u rest message w :
  net_uploads w = u :: rest -> up_result u = UpReject message ->
  postFile url path base span noCid w
  = (Throw message, posted url base span u rest w).
Proof.
  intros Hscript Hres. unfold postFile.
  pose proof (axios_post_run url base span u rest w Hscript) as E.
  cbv zeta in E. rewrite Hres in E. apply bind_Throw. exact E.
Qed.

Lemma postFile_delivers url path base span noCid u rest data cid staged_data w :
  net_uploads w = u :: rest -> up_result u = UpDone data ->
  response_cid data = Some cid -> cid <> "" ->
  fs_faults w = [] -> files w !! path = Some staged_data ->
  postFile url path base span noCid w
  = (Return cid,
     set_files (delete path (files w))
       (set_progress
          (progress (posted url base span u rest w) ++ [JNum 100])
          (posted url base span u rest w))).
Proof.
  intros Hscript Hres Hcid Hne Hfaults Hfile. unfold postFile.
  pose proof (axios_post_run url base span u rest w Hscript) as E.
  cbv zeta in E. rewrite Hres in E.
  rewrite (bind_Return _ _ _ _ _ E). rewrite Hcid. unfold truthy.
  destruct (String.eqb_spec cid ""); [contradiction |]. cbn [negb].
  rewrite (bind_Return (onProgress _) _ _ tt _ eq_refl).
  erewrite (bind_Return (deleteAsync path false));
    [| eapply deleteAsync_ok; [exact Hfaults | exact Hfile]].
  reflexivity.
Qed.

(** X22.  When the primary endpoint accepts the file, [uploadToFilecoin]
    returns the identifier of the reply after exactly one [POST], to
    [IPFS_API_URL/add]; the reported values run from 10 and 20 over the
    upload percentages to 100. *)
Theorem uploadToFilecoin_primary cfg fileData fileName w u rest data cid :
  fs_faults w = [] ->
  net_uploads w = u :: rest -> up_result u = UpDone data ->
  response_cid data = Some cid -> cid <> "" ->
  fst (uploadToFilecoin cfg fileData fileName w) = Return cid /\
  netlog (snd (uploadToFilecoin cfg fileData fileName w))
    = (netlog w ++ [NetPost (IPFS_API_URL cfg +:+ "/add")])%list /\
  progress (snd (uploadToFilecoin cfg fileData fileName w))
    = (progress w ++ [JNum 10; JNum 20]
         ++ map (upload_percent 20 70) (up_events u) ++ [JNum 100])%list /\
  net_uploads (snd (uploadToFilecoin cfg fileData fileName w)) = rest.
Proof.
  intros Hfaults Hscript Hres Hcid Hne.
  unfold uploadToFilecoin. cbv zeta.
  rewrite staging_run by exact Hfaults.
  set (path := cacheDirectory cfg +:+ fileName).
  pose proof (postFile_delivers (IPFS_API_URL cfg +:+ "/add") path 20 70
                "Failed to retrieve CID from upload response" u rest data cid
                fileData (staged path fileData w) Hscript Hres Hcid Hne
                Hfaults (lookup_insert_eq _ _ _)) as E.
  rewrite (try_catch_Return _ _ _ _ _ (try_catch_Return _ _ _ _ _ E)).
  cbn [fst snd netlog progress net_uploads set_files set_progress posted
       tick set_clock set_net_uploads log_call set_netlog staged].
  repeat split. rewrite <- !app_assoc. reflexivity.
Qed.

Lemma uploadToFilecoin_primary_witness :
  fst (uploadToFilecoin default_config "QUJD" "report.pdf"
         (set_net_uploads [accepted "QmNew"] empty_world))
    = Return "QmNew" /\
  netlog (snd (uploadToFilecoin default_config "QUJD" "report.pdf"
                 (set_net_uploads [accepted "QmNew"] empty_world)))
    = [NetPost "https://ipfs.infura.io:5001/api/v0/add"].
Proof.
  destruct (uploadToFilecoin_primary default_config "QUJD" "report.pdf"
              (set_net_uploads [accepted "QmNew"] empty_world)
              (accepted "QmNew") [] _ "QmNew"
              eq_refl eq_refl eq_refl eq_refl ltac:(discriminate))
    as (Hcid & Hlog & _).
  split; [exact Hcid | exact Hlog].
Defined.

(** X23.  Without Infura credentials a rejected upload is final: the error
    carries the message of the primary endpoint, and no second request is
    made. *)
Theorem uploadToFilecoin_no_credentials cfg fileData fileName w u rest message :
  fs_faults w = [] ->
  truthy (INFURA_PROJECT_ID cfg) && truthy (INFURA_PROJECT_SECRET cfg) = false ->
  net_uploads w = u :: rest -> up_result u = UpReject message ->
  fst (uploadToFilecoin cfg fileData fileName w) = Throw (all_failed message) /\
  netlog (snd (uploadToFilecoin cfg fileData fileName w))
    = (netlog w ++ [NetPost (IPFS_API_URL cfg +:+ "/add")])%list /\
  net_uploads (snd (uploadToFilecoin cfg fileData fileName w)) = rest.
Proof.
  intros Hfaults Hcred Hscript Hres.
  assert (Hrun : exists w',
            uploadToFilecoin cfg fileData fileName w
              = (Throw (all_failed message), w') /\
            netlog w'
              = (netlog w ++ [NetPost (IPFS_API_URL cfg +:+ "/add")])%list /\
            net_uploads w' = rest).
  { unfold uploadToFilecoin. cbv zeta.
    rewrite staging_run by exact Hfaults. rewrite Hcred.
    set (path := cacheDirectory cfg +:+ fileName).
    pose proof (postFile_rejects (IPFS_API_URL cfg +:+ "/add") path 20 70
                  "Failed to retrieve CID from upload response" u rest message
                  (staged path fileData w) Hscript Hres) as E.
    unfold try_catch at 1. rewrite (try_catch_Throw _ _ _ _ _ E).
    rewrite (bind_Return (ret None) _ _ None _ eq_refl).
    erewrite (bind_Return (deleteAsync path false));
      [| eapply deleteAsync_ok; [exact Hfaults | apply lookup_insert_eq]].
    eexists. split; [reflexivity |]. split; reflexivity. }
  destruct Hrun as (w' & -> & Hlog & Hup). auto.
Qed.

Lemma uploadToFilecoin_no_credentials_witness :
  fst (uploadToFilecoin default_config "QUJD" "report.pdf"
         (set_net_uploads [rejected "Request failed with status code 401"]
            empty_world))
    = Throw "IPFS upload failed: All IPFS upload attempts failed. Primary error: Request failed with status code 401" /\
  netlog (snd (uploadToFilecoin default_config "QUJD" "report.pdf"
                 (set_net_uploads [rejected "Request failed with status code 401"]
                    empty_world)))
    = [NetPost "https://ipfs.infura.io:5001/api/v0/add"].
Proof.
  destruct (uploadToFilecoin_no_credentials default_config "QUJD" "report.pdf"
              (set_net_uploads [rejected "Request failed with status code 401"]
                 empty_world)
              (rejected "Request failed with status code 401") []
              "Request failed with status code 401"
              eq_refl eq_refl eq_refl eq_refl)
    as (Herr & Hlog & _).
  split; [exact Herr | exact Hlog].
Defined.

(** X24.  With credentials, a rejected upload is retried once at the Infura
    endpoint.  If Infura accepts, its identifier is returned; if Infura
    rejects too, the error still carries the message of the primary
    endpoint and Infura's message is lost. *)
Theorem uploadToFilecoin_infura cfg fileData fileName w u u2 rest message :
  fs_faults w = [] ->
  truthy (INFURA_PROJECT_ID cfg) && truthy (INFURA_PROJECT_SECRET cfg) = true ->
  net_uploads w = u :: u2 :: rest -> up_result u = UpReject message ->
  netlog (snd (uploadToFilecoin cfg fileData fileName w))
    = (netlog w ++ [NetPost (IPFS_API_URL cfg +:+ "/add");
                    NetPost "https://ipfs.infura.io:5001/api/v0/add"])%list /\
  match up_result u2 with
  | UpReject _ =>
      fst (uploadToFilecoin cfg fileData fileName w)
        = Throw (all_failed message)
  | UpDone data =>
      forall cid, response_cid data = Some cid -> cid <> "" ->
        fst (uploadToFilecoin cfg fileData fileName w) = Return cid
  end.
Proof.
  intros Hfaults Hcred Hscript Hres.
  set (path := cacheDirectory cfg +:+ fileName).
  set (w1 := posted (IPFS_API_URL cfg +:+ "/add") 20 70 u (u2 :: rest)
               (staged path fileData w)).
  set (w2 := set_progress (progress w1 ++ [JNum 30]) w1).
  assert (Hscript2 : net_uploads w2 = u2 :: rest) by reflexivity.
  assert (Hfaults2 : fs_faults w2 = []) by exact Hfaults.
  assert (Hfile2 : files w2 !! path = Some fileData)
    by apply lookup_insert_eq.
  assert (Hlog2 : netlog w2
                  = (netlog w ++ [NetPost (IPFS_API_URL cfg +:+ "/add")])%list)
    by reflexivity.
  (* the Infura attempt, whatever its outcome *)
  assert (Hsecond : exists r w3,
            postFile "https://ipfs.infura.io:5001/api/v0/add" path 30 60
              "Failed to retrieve CID from Infura response" w2 = (r, w3) /\
            netlog w3
              = (netlog w2
                   ++ [NetPost "https://ipfs.infura.io:5001/api/v0/add"])%list /\
            fs_faults w3 = [] /\
            match r with
            | Return cid =>
                forall data c, up_result u2 = UpDone data ->
                               response_cid data = Some c -> c <> "" -> cid = c
            | Throw _ =>
                files w3 !! path = Some fileData /\
                forall data c, up_result u2 = UpDone data ->
                               response_cid data = Some c -> c <> "" -> False
            end).
  { unfold postFile.
    pose proof (axios_post_run "https://ipfs.infura.io:5001/api/v0/add"
                  30 60 u2 rest w2 Hscript2) as Ep.
    cbv zeta in Ep.
    destruct (up_result u2) as [message2 | data].
    - eexists _, _. split; [apply bind_Throw; exact Ep |].
      split; [reflexivity |]. split; [exact Hfaults2 |].
      split; [exact Hfile2 | discriminate].
    - rewrite (bind_Return _ _ _ _ _ Ep).
      destruct (response_cid data) as [c |] eqn:Hc.
      + unfold truthy. destruct (String.eqb_spec c "") as [-> | Hne];
          cbn [negb].
        * eexists _, _. split; [reflexivity |]. split; [reflexivity |].
          split; [exact Hfaults2 |]. split; [exact Hfile2 |].
          intros data' c' [= <-] Hc' Hne'. congruence.
        * rewrite (bind_Return (onProgress _) _ _ tt _ eq_refl).
          erewrite (bind_Return (deleteAsync path false));
            [| eapply deleteAsync_ok; [exact Hfaults2 | exact Hfile2]].
          eexists _, _. split; [reflexivity |]. split; [reflexivity |].
          split; [exact Hfaults2 |].
          intros data' c' [= <-] Hc' _. congruence.
      + eexists _, _. split; [reflexivity |]. split; [reflexivity |].
        split; [exact Hfaults2 |]. split; [exact Hfile2 |].
        intros data' c' [= <-] Hc' _. congruence. }
  destruct Hsecond as (r & w3 & E3 & Hlog3 & Hfaults3 & Hr).
  assert (Hrun : exists w',
            uploadToFilecoin cfg fileData fileName w
              = (match r with
                 | Return cid => Return cid
                 | Throw _ => Throw (all_failed message)
                 end, w') /\
            netlog w' = netlog w3).
  { unfold uploadToFilecoin. cbv zeta.
    rewrite staging_run by exact Hfaults. rewrite Hcred.
    fold path.
    pose proof (postFile_rejects (IPFS_API_URL cfg +:+ "/add") path 20 70
                  "Failed to retrieve CID from upload response" u (u2 :: rest)
                  message (staged path fileData w) Hscript Hres) as E.
    unfold try_catch at 1. rewrite (try_catch_Throw _ _ _ _ _ E).
    fold w1.
    destruct r as [cid | e].
    - rewrite (bind_Return _ _ _ (Some cid) w3).
      2: { apply try_catch_Return.
           rewrite (bind_Return (onProgress _) _ _ tt w2 eq_refl).
           now rewrite (bind_Return _ _ _ _ _ E3). }
      eexists. split; reflexivity.
    - destruct Hr as [Hfile3 _].
      rewrite (bind_Return _ _ _ None w3).
      2: { rewrite (try_catch_Throw _ _ _ e w3); [reflexivity |].
           rewrite (bind_Return (onProgress _) _ _ tt w2 eq_refl).
           now apply bind_Throw. }
      erewrite (bind_Return (deleteAsync path false));
        [| eapply deleteAsync_ok; [exact Hfaults3 | exact Hfile3]].
      eexists. split; reflexivity. }
  destruct Hrun as (w' & -> & Hlog). cbn [fst snd].
  split; [rewrite Hlog, Hlog3, Hlog2, <- app_assoc; reflexivity |].
  destruct (up_result u2) as [message2 | data] eqn:Hres2.
  - destruct r as [cid | e]; [| reflexivity].
    exfalso. clear -E3 Hscript2 Hres2.
    unfold postFile in E3.
    pose proof (axios_post_run "https://ipfs.infura.io:5001/api/v0/add"
                  30 60 u2 rest w2 Hscript2) as Ep.
    cbv zeta in Ep. rewrite Hres2 in Ep.
    rewrite (bind_Throw _ _ _ _ _ Ep) in E3. discriminate.
  - intros cid Hcid Hne. destruct r as [c | e].
    + now rewrite (Hr data cid eq_refl Hcid Hne).
    + destruct Hr as [_ Hr]. exfalso. exact (Hr data cid eq_refl Hcid Hne).
Qed.

Lemma uploadToFilecoin_infura_witness :
  fst (uploadToFilecoin infura_config "QUJD" "report.pdf"
         (set_net_uploads [rejected "timeout of 60000ms exceeded";
                           rejected "Request failed with status code 403"]
            empty_world))
    = Throw "IPFS upload failed: All IPFS upload attempts failed. Primary error: timeout of 60000ms exceeded" /\
  netlog (snd (uploadToFilecoin infura_config "QUJD" "report.pdf"
         (set_net_uploads [rejected "timeout of 60000ms exceeded";
                           rejected "Request failed with status code 403"]
            empty_world)))
    = [NetPost "https://ipfs.infura.io:5001/api/v0/add";
       NetPost "https://ipfs.infura.io:5001/api/v0/add"].
Proof.
  destruct (uploadToFilecoin_infura infura_config "QUJD" "report.pdf"
              (set_net_uploads [rejected "timeout of 60000ms exceeded";
                                rejected "Request failed with status code 403"]
                 empty_world)
              (rejected "timeout of 60000ms exceeded")
              (rejected "Request failed with status code 403") []
              "timeout of 60000ms exceeded"
              eq_refl eq_refl eq_refl eq_refl)
    as (Hlog & Herr).
  split; [exact Herr | exact Hlog].
Defined.

Lemma uploadToFilecoin_cleans_up_witness :
  fs_faults (set_net_uploads [rejected "Network Error"] empty_world) = [] /\
  files (snd (uploadToFilecoin default_config "QUJD" "report.pdf"
                (set_net_uploads [rejected "Network Error"] empty_world)))
    !! "file:///cache/report.pdf" = None.
Proof.
  split; [reflexivity |].
  apply (uploadToFilecoin_cleans_up default_config "QUJD" "report.pdf"
           (set_net_uploads [rejected "Network Error"] empty_world) eq_refl).
Defined.

(** * The encryption service *)

(** ** Strings, [split] and [join] *)

Lemma prefix_append (a b : string) : String.prefix a (a +:+ b) = true.
Proof.
  induction a as [| x a IH]; simpl; [now destruct b |].
  destruct (Ascii.ascii_dec x x); [exact IH | contradiction].
Qed.

Lemma prefix_inv (a s : string) :
  String.prefix a s = true -> exists t, s = a +:+ t.
Proof.
  revert s. induction a as [| x a IH]; intros s; simpl.
  - intros _. now exists s.
  - destruct s as [| y s]; [discriminate |].
    change (String.prefix (String x a) (String y s))
      with (if Ascii.ascii_dec x y then String.prefix a s else false).
    destruct (Ascii.ascii_dec x y) as [-> | _]; [| discriminate].
    intros H. destruct (IH s H) as (t & ->). now exists t.
Qed.

Lemma split_colon_not_nil s : split_colon s <> [].
Proof.
  destruct s as [| c s]; simpl; [discriminate |].
  destruct (Ascii.eqb c ":"%char); [discriminate |].
  destruct (split_colon s); discriminate.
Qed.

Lemma split_colon_free_append a b :
  colon_free a = true ->
  split_colon (a +:+ ":" +:+ b) = a :: split_colon b.
Proof.
  induction a as [| c a IH]; simpl; [reflexivity |].
  destruct (Ascii.eqb c ":"%char); simpl; [discriminate |].
  intros Ha. now rewrite (IH Ha).
Qed.

Lemma split_colon_Forall s : Forall (fun part => colon_free part = true) (split_colon s).
Proof.
  induction s as [| c s IH]; simpl; [repeat constructor |].
  destruct (Ascii.eqb c ":"%char) eqn:Hc; [now constructor |].
  destruct (split_colon s) as [| part parts].
  - repeat constructor. simpl. now rewrite Hc.
  - apply Forall_cons in IH as [Hpart Hparts].
    constructor; [| exact Hparts]. simpl. now rewrite Hc.
Qed.

Lemma join_colon_cons part parts :
  parts <> [] ->
  join_colon (part :: parts) = part +:+ ":" +:+ join_colon parts.
Proof. destruct parts; [contradiction | reflexivity]. Qed.

Lemma join_split_colon s : join_colon (split_colon s) = s.
Proof.
  induction s as [| c s IH]; simpl; [reflexivity |].
  destruct (Ascii.eqb_spec c ":"%char) as [-> | Hc].
  - rewrite join_colon_cons by apply split_colon_not_nil.
    simpl. now rewrite IH.
  - pose proof (split_colon_not_nil s) as Hne.
    destruct (split_colon s) as [| part parts]; [contradiction |].
    destruct parts as [| part' parts].
    + simpl in *. now rewrite IH.
    + rewrite join_colon_cons by discriminate.
      rewrite join_colon_cons in IH by discriminate.
      rewrite <- IH. reflexivity.
Qed.

Lemma colon_free_substring s : forall n,
  colon_free s = true -> colon_free (String.substring 0 n s) = true.
Proof.
  induction s as [| c s IH]; intros [| n]; simpl; try reflexivity.
  intros H. apply andb_true_iff in H as [-> H]. simpl. now apply IH.
Qed.

(** ** What [simulatedDecrypt] accepts *)

(** X25.  [simulatedDecrypt] returns [d] exactly on the texts
    [ENCRYPTED:<tag>:<x>:<d>], where the tag is the first eight characters
    of the SHA-1 digest of the key and [x] is any text without a colon: the
    third field and the [iv] argument are not looked at, and [d] may
    itself contain colons. *)
Theorem simulatedDecrypt_accepts p text key ivBuffer d :
  colon_free (String.substring 0 8 (digestStringAsync p SHA1 key)) = true ->
  simulatedDecrypt p text key ivBuffer = Return d <->
  exists x,
    colon_free x = true /\
    text = "ENCRYPTED:"
             +:+ String.substring 0 8 (digestStringAsync p SHA1 key)
             +:+ ":" +:+ x +:+ ":" +:+ d.
Proof.
  intros Htag. set (tag := String.substring 0 8 _) in *.
  unfold simulatedDecrypt. fold tag. split.
  - destruct (String.prefix "ENCRYPTED:" text) eqn:Hprefix; [| discriminate].
    cbn [negb]. apply prefix_inv in Hprefix as (t & ->).
    change ("ENCRYPTED:" +:+ t) with ("ENCRYPTED" +:+ ":" +:+ t).
    rewrite split_colon_free_append by reflexivity.
    pose proof (join_split_colon t) as Hjoin.
    pose proof (split_colon_Forall t) as Hfree.
    destruct (split_colon t) as [| p1 [| p2 [| p3 rest]]]; try discriminate.
    cbn [length Nat.ltb Nat.leb lookup list_lookup drop negb].
    destruct (String.eqb_spec p1 tag) as [-> | Hne]; [| discriminate].
    cbn [negb]. intros [= <-]. exists p2. split.
    + apply Forall_cons in Hfree as [_ Hfree].
      now apply Forall_cons in Hfree as [Hp2 _].
    + rewrite <- Hjoin.
      rewrite (join_colon_cons tag) by discriminate.
      rewrite (join_colon_cons p2) by discriminate.
      reflexivity.
  - intros (x & Hx & ->).
    change ("ENCRYPTED:" +:+ tag +:+ ":" +:+ x +:+ ":" +:+ d)
      with ("ENCRYPTED:" +:+ (tag +:+ ":" +:+ x +:+ ":" +:+ d)) at 1.
    rewrite prefix_append. cbn [negb].
    change ("ENCRYPTED:" +:+ tag +:+ ":" +:+ x +:+ ":" +:+ d)
      with ("ENCRYPTED" +:+ ":" +:+ (tag +:+ ":" +:+ (x +:+ ":" +:+ d))).
    rewrite !split_colon_free_append by (reflexivity || assumption).
    pose proof (split_colon_not_nil d) as Hne.
    destruct (split_colon d) as [| d1 ds] eqn:Hd; [contradiction |].
    cbn [length Nat.ltb Nat.leb lookup list_lookup drop negb].
    rewrite String.eqb_refl. cbn [negb].
    now rewrite <- Hd, join_split_colon.
Qed.

Lemma simulatedDecrypt_accepts_witness :
  simulatedDecrypt example_platform "ENCRYPTED:000212be::12:30:00" "key" []
    = Return "12:30:00".
Proof.
  apply (simulatedDecrypt_accepts example_platform
           "ENCRYPTED:000212be::12:30:00" "key" [] "12:30:00").
  - vm_compute. reflexivity.
  - exists "". split; vm_compute; reflexivity.
Defined.

(** ** Encrypting and decrypting *)

Lemma simulatedDecrypt_simulatedEncrypt p data key key' ivBytes ivBuffer :
  colon_free (String.substring 0 8 (digestStringAsync p SHA1 key)) = true ->
  colon_free (String.substring 0 8 (arrayBufferToBase64 p ivBytes)) = true ->
  simulatedDecrypt p (simulatedEncrypt p data key ivBytes) key' ivBuffer
  = if String.eqb (String.substring 0 8 (digestStringAsync p SHA1 key))
         (String.substring 0 8 (digestStringAsync p SHA1 key'))
    then Return data
    else Throw "Invalid decryption key".
Proof.
  intros Htag Hiv. unfold simulatedDecrypt, simulatedEncrypt. cbv zeta.
  set (tag := String.substring 0 8 (digestStringAsync p SHA1 key)) in *.
  set (tag' := String.substring 0 8 (digestStringAsync p SHA1 key')).
  set (iv8 := String.substring 0 8 (arrayBufferToBase64 p ivBytes)) in *.
  change ("ENCRYPTED:" +:+ tag +:+ ":" +:+ iv8 +:+ ":" +:+ data)
    with ("ENCRYPTED:" +:+ (tag +:+ ":" +:+ iv8 +:+ ":" +:+ data)) at 1.
  rewrite prefix_append. cbn [negb].
  change ("ENCRYPTED:" +:+ tag +:+ ":" +:+ iv8 +:+ ":" +:+ data)
    with ("ENCRYPTED" +:+ ":" +:+ (tag +:+ ":" +:+ (iv8 +:+ ":" +:+ data))).
  rewrite !split_colon_free_append by (reflexivity || assumption).
  pose proof (split_colon_not_nil data) as Hne.
  destruct (split_colon data) as [| d1 ds] eqn:Hd; [contradiction |].
  cbn [length Nat.ltb Nat.leb lookup list_lookup drop negb].
  destruct (String.eqb tag tag'); cbn [negb]; [| reflexivity].
  now rewrite <- Hd, join_split_colon.
Qed.

(** X26.  What [encryptData] produced is decrypted by [decryptData] with the
    same password, whatever base64 text is passed as [iv]; a password
    with another key tag is refused, and a password with the same key tag
    decrypts as well.  The data may contain colons; the digest and the
    base64 text of the iv must not. *)
Theorem decryptData_encryptData p data password ivBytes enc iv' binary :
  encryptData p data password ivBytes = Return enc ->
  colon_free (key_tag p password) = true ->
  colon_free (String.substring 0 8 (iv enc)) = true ->
  atob p iv' = Return binary ->
  decryptData p (encryptedData enc) iv' password = Return data /\
  forall password',
    decryptData p (encryptedData enc) iv' password'
    = if String.eqb (key_tag p password) (key_tag p password')
      then Return data
      else Throw "Decryption failed: Invalid decryption key".
Proof.
  intros Henc Htag Hiv Hatob.
  unfold encryptData, base64ToArrayBuffer in Henc.
  destruct (atob p data) as [decoded | message]; [| discriminate].
  cbn [and_then catch] in Henc. injection Henc as <-. cbn [iv encryptedData] in *.
  assert (Hgen : forall password',
            decryptData p
              (simulatedEncrypt p data (digestStringAsync p SHA256 password)
                 ivBytes) iv' password'
            = if String.eqb (key_tag p password) (key_tag p password')
              then Return data
              else Throw "Decryption failed: Invalid decryption key").
  { intros password'. unfold decryptData, base64ToArrayBuffer.
    rewrite Hatob. cbn [and_then].
    rewrite simulatedDecrypt_simulatedEncrypt by assumption.
    fold (key_tag p password). fold (key_tag p password').
    now destruct (String.eqb _ _). }
  split; [| exact Hgen].
  rewrite Hgen. now rewrite String.eqb_refl.
Qed.

Lemma decryptData_encryptData_witness :
  exists enc,
    encryptData example_platform "SGVsbG8=" "correct horse" example_iv
      = Return enc /\
    encryptedData enc = "ENCRYPTED:578535d5:AAECAzoF:SGVsbG8=" /\
    iv enc = "AAECAzoFBgcICQoLDA0O/w==" /\
    decryptData example_platform (encryptedData enc) (iv enc) "correct horse"
      = Return "SGVsbG8=".
Proof.
  eexists. split; [vm_compute; reflexivity |].
  split; [reflexivity |]. split; [reflexivity |].
  apply (decryptData_encryptData example_platform "SGVsbG8=" "correct horse"
           example_iv _ _
           (fromCharCodes example_iv)).
  - vm_compute. reflexivity.
  - vm_compute. reflexivity.
  - vm_compute. reflexivity.
  - vm_compute. reflexivity.
Defined.

(** ** Buffers and base64 *)

Lemma charCodes_append a b : charCodes (a +:+ b) = (charCodes a ++ charCodes b)%list.
Proof.
  induction a as [| c a IH]; [reflexivity |].
  change (String c a +:+ b) with (String c (a +:+ b)).
  cbn [charCodes]. now rewrite IH.
Qed.

Lemma charCodes_fold buffer : forall binary,
  charCodes
    (fold_left
       (fun binary b => binary +:+ String (Ascii.ascii_of_byte b) EmptyString)
       buffer binary)
  = (charCodes binary ++ buffer)%list.
Proof.
  induction buffer as [| b buffer IH]; intros binary; simpl.
  - now rewrite app_nil_r.
  - rewrite IH, charCodes_append. cbn [charCodes].
    rewrite Ascii.byte_of_ascii_of_byte, <- app_assoc. reflexivity.
Qed.

(** X27.  Where [atob] gives back the binary string that [btoa] was given,
    [base64ToArrayBuffer] gives back the bytes that [arrayBufferToBase64]
    was given, bytes above 127 included. *)
Theorem base64ToArrayBuffer_arrayBufferToBase64 p buffer :
  atob p (btoa p (fromCharCodes buffer)) = Return (fromCharCodes buffer) ->
  base64ToArrayBuffer p (arrayBufferToBase64 p buffer) = Return buffer.
Proof.
  intros Hinverse. unfold base64ToArrayBuffer, arrayBufferToBase64. cbv zeta.
  rewrite Hinverse. cbn [and_then]. f_equal.
  unfold fromCharCodes. now rewrite charCodes_fold.
Qed.

Lemma base64ToArrayBuffer_arrayBufferToBase64_witness :
  arrayBufferToBase64 example_platform example_iv = "AAECAzoFBgcICQoLDA0O/w==" /\
  base64ToArrayBuffer example_platform "AAECAzoFBgcICQoLDA0O/w=="
    = Return example_iv.
Proof.
  split; [reflexivity |].
  apply (base64ToArrayBuffer_arrayBufferToBase64 example_platform example_iv).
  vm_compute. reflexivity.
Defined.

(** ** A file that is too large for the cache *)

Lemma cache_ok_same s s' :
  CACHE_INDEX s' = CACHE_INDEX s -> CACHE_SIZE s' = CACHE_SIZE s ->
  cache_ok s -> cache_ok s'.
Proof.
  intros Hi Hc [Hk Hs Ht].
  split; unfold cache_index, counter in *; rewrite ?Hi, ?Hc; assumption.
Qed.

Lemma cacheTheResult_oversized cfg cid data gateway promote w :
  cid <> "__proto__" ->
  cache_ok (storage w) ->
  obj_get (cache_index (storage w)) cid = None ->
  Z.of_nat (length (cache_index (storage w)))
    < MAX_CACHE_ITEMS (cache_config cfg) ->
  MAX_CACHE_SIZE (cache_config cfg)
    < counter (storage w) + Z.of_nat (String.length data) * 3 / 4 ->
  4 * MAX_CACHE_SIZE (cache_config cfg)
    < 5 * (Z.of_nat (String.length data) * 3 / 4) ->
  exists s,
    cacheTheResult cfg cid data gateway promote w = (Return tt, set_storage s w) /\
    FILE_CACHE s !! cid = None /\
    obj_get (cache_index s) cid = None.
Proof.
  intros Hcid Hok Hfresh Hcount Hover Hbig.
  set (w1 := set_storage
               (set_FILE_CACHE (<[cid := data]> (FILE_CACHE (storage w)))
                  (storage w)) w).
  assert (Hsize : 0 <= Z.of_nat (String.length data) * 3 / 4)
    by (apply Z.div_pos; lia).
  destruct (trackCachedFile_evicts_oversized (cache_config cfg) cid
              (Z.of_nat (String.length data) * 3 / 4) w1)
    as [Hindex Hblob]; try assumption.
  { apply (cache_ok_same (storage w)); [reflexivity | reflexivity | exact Hok]. }
  destruct (storage_only_trackCachedFile (cache_config cfg) cid
              (Z.of_nat (String.length data) * 3 / 4) w1) as ([] & s & E).
  rewrite E in Hindex, Hblob. cbn [snd storage set_storage] in Hindex, Hblob.
  unfold cacheTheResult, try_catch, bind at 1, setItem at 1. cbv zeta.
  fold w1. unfold bind at 1. rewrite E.
  destruct promote.
  - eexists. split; [reflexivity |]. split; [exact Hblob | exact Hindex].
  - eexists. split; [reflexivity |]. split; [exact Hblob | exact Hindex].
Qed.

Lemma attemptDownload_oversized cfg cid path gateway base span promote d rest data w :
  cid <> "__proto__" ->
  net_downloads w = d :: rest -> dl_result d = DlDone data ->
  fs_faults w = [] ->
  cache_ok (storage w) ->
  obj_get (cache_index (storage w)) cid = None ->
  Z.of_nat (length (cache_index (storage w)))
    < MAX_CACHE_ITEMS (cache_config cfg) ->
  MAX_CACHE_SIZE (cache_config cfg)
    < counter (storage w) + Z.of_nat (String.length data) * 3 / 4 ->
  4 * MAX_CACHE_SIZE (cache_config cfg)
    < 5 * (Z.of_nat (String.length data) * 3 / 4) ->
  exists w',
    attemptDownload cfg cid path gateway base span promote w = (Return data, w') /\
    FILE_CACHE (storage w') !! cid = None /\
    obj_get (cache_index (storage w')) cid = None.
Proof.
  intros Hcid Hscript Hdone Hfaults Hok Hfresh Hcount Hover Hbig.
  unfold attemptDownload. cbv zeta.
  pose proof (downloadAsync_run (gateway +:+ "/" +:+ cid) path base span
                d rest w Hscript) as E.
  cbv zeta in E. rewrite Hdone in E.
  rewrite (bind_Return _ _ _ _ _ E).
  rewrite (bind_Return (onProgress _) _ _ tt _ eq_refl).
  erewrite (bind_Return (readAsStringAsync path));
    [| apply readAsStringAsync_ok; [exact Hfaults | apply lookup_insert_eq]].
  match goal with
  | |- context [bind (cacheTheResult ?c ?i ?dt ?g ?p) _ ?w1] =>
      destruct (cacheTheResult_oversized c i dt g p w1 Hcid Hok Hfresh Hcount
                  Hover Hbig) as (s & Ecache & Hblob & Hindex);
      rewrite (bind_Return _ _ _ _ _ Ecache)
  end.
  erewrite (bind_Return (deleteAsync path true));
    [| eapply deleteAsync_ok; [exact Hfaults | apply lookup_insert_eq]].
  rewrite (bind_Return (onProgress _) _ _ tt _ eq_refl).
  eexists. split; [reflexivity |].
  cbn [storage set_progress set_files set_storage].
  split; [exact Hblob | exact Hindex].
Qed.

(** X28.  A file whose size exceeds 80% of [MAX_CACHE_SIZE] is fetched but
    not kept when caching it overflows the maximum: the fetch returns the
    data, the eviction that follows the insert removes the new blob and
    its index entry again, and the next fetch of the same cid has to go
    to a gateway once more.  The data is padded base64, the cache is well
    formed and below its item limit, the cid is not indexed yet, and the
    cid and the cids of the index are ordinary cids (none of [index],
    [size], [__proto__]). *)
Theorem downloadFromFilecoin_oversized cfg cid skipCache w d rest data :
  ordinary_cid cid = true ->
  ordinary_keys (storage w) ->
  cache_miss cid skipCache w ->
  net_downloads w = d :: rest -> dl_result d = DlDone data ->
  Z.of_nat (String.length data) mod 4 = 0 ->
  fs_faults w = [] ->
  cache_ok (storage w) ->
  obj_get (cache_index (storage w)) cid = None ->
  Z.of_nat (length (cache_index (storage w)))
    < MAX_CACHE_ITEMS (cache_config cfg) ->
  MAX_CACHE_SIZE (cache_config cfg)
    < counter (storage w) + Z.of_nat (String.length data) * 3 / 4 ->
  4 * MAX_CACHE_SIZE (cache_config cfg)
    < 5 * (Z.of_nat (String.length data) * 3 / 4) ->
  exists w1,
    downloadFromFilecoin cfg cid skipCache w = (Return data, w1) /\
    FILE_CACHE (storage w1) !! cid = None /\
    obj_get (cache_index (storage w1)) cid = None /\
    (downloads_issued w1
     < downloads_issued (snd (downloadFromFilecoin cfg cid false w1)))%nat.
Proof.
  intros Hcid%ordinary_cid_not_proto _ Hmiss Hscript Hdone Hpadded Hfaults
    Hok Hfresh Hcount Hover Hbig.
  rewrite (downloadFromFilecoin_miss cfg cid skipCache w Hmiss).
  unfold fetchFromGateways. cbv zeta.
  rewrite (bind_Return (onProgress _) _ _ tt _ eq_refl).
  set (w0 := set_progress _ (set_progress _ w)).
  destruct (getPreferredGateway_frame cfg false w0)
    as (g & wg & Eg & [_ _ Hdl _ Hff _ _ Hidx Hsize]).
  assert (Hci : cache_index (storage wg) = cache_index (storage w))
    by (unfold cache_index; now rewrite Hidx).
  assert (Hcounter : counter (storage wg) = counter (storage w))
    by (unfold counter; now rewrite Hsize).
  destruct (attemptDownload_oversized cfg cid
              (cacheDirectory cfg +:+ "ipfs_" +:+ cid) g 10 80 false
              d rest data wg Hcid ltac:(rewrite Hdl; exact Hscript) Hdone
              ltac:(rewrite Hff; exact Hfaults)
              ltac:(apply (cache_ok_same (storage w)); assumption)
              ltac:(rewrite Hci; exact Hfresh)
              ltac:(rewrite Hci; exact Hcount)
              ltac:(rewrite Hcounter; exact Hover) Hbig)
    as (w1 & E & Hblob & Hindex).
  exists w1. split; [| split; [exact Hblob | split; [exact Hindex |]]].
  - rewrite (bind_Return _ _ _ (Some data) w1); [reflexivity |].
    apply try_catch_Return. rewrite (bind_Return _ _ _ _ _ Eg).
    apply try_catch_Return. now rewrite (bind_Return _ _ _ _ _ E).
  - rewrite (downloadFromFilecoin_miss cfg cid false w1);
      [| right; now rewrite Hblob].
    apply (starts_download_fetchFromGateways cfg cid
             (set_progress (progress w1 ++ [JNum 5]) w1)).
Qed.

Lemma empty_cache_ok : cache_ok (storage large_file_world).
Proof. split; [constructor | constructor | reflexivity]. Qed.

Lemma downloadFromFilecoin_oversized_witness :
  exists w1,
    downloadFromFilecoin tiny_cache_config "QmBig" false large_file_world
      = (Return "QUJDREVGR0hJSktM", w1) /\
    FILE_CACHE (storage w1) !! "QmBig" = None /\
    counter (storage w1) = 0.
Proof.
  destruct (downloadFromFilecoin_oversized tiny_cache_config "QmBig" false
              large_file_world
              {| dl_events := [(16, 16)]; dl_result := DlDone "QUJDREVGR0hJSktM";
                 dl_elapsed := 100 |} [] "QUJDREVGR0hJSktM"
              eq_refl ltac:(constructor)
              (or_intror eq_refl) eq_refl eq_refl eq_refl eq_refl
              empty_cache_ok
              eq_refl ltac:(vm_compute; reflexivity)
              ltac:(vm_compute; reflexivity) ltac:(vm_compute; reflexivity))
    as (w1 & E & Hblob & _).
  exists w1. split; [exact E |]. split; [exact Hblob |].
  assert (Hw1 : w1 = snd (downloadFromFilecoin tiny_cache_config "QmBig" false
                            large_file_world)) by now rewrite E.
  rewrite Hw1. vm_compute. reflexivity.
Defined.
